(** * Spain asylum appointment bot: the check pipeline, verified

    A shallow embedding of the two pipeline implementations of the
    repository,

    - [Requests]: [asylum_bot_requests.py], class
      [AsylumAppointmentBotRequests] (aiohttp + BeautifulSoup);
    - [Playwright]: [asylum_bot.py], class [AsylumAppointmentBot]
      (a Playwright page driven step by step);

    followed by the properties of the specification that concern them.

    Python coroutines are embedded in a state-and-exception monad.  The
    state holds the chronological trace of the effects performed so far
    (requests, sleeps, page operations, notifications) next to the
    attributes of the bot object that the code mutates.  The outside world
    (the portal, the browser, the clock) is an oracle that answers an
    operation from the trace that ends with it, so an environment may
    answer the same operation differently each time it is asked.  Logging
    is not an effect of the model. *)

From Stdlib Require Import ZArith Lia.
From stdpp Require Import base option list strings gmap fin_maps pretty.

(** [++] is list concatenation throughout; strings are joined with [+:+]. *)
Disable Notation "_ ++ _" : string_scope.
Local Open Scope string_scope.
Local Open Scope Z_scope.

(** ** Python values *)

(** [s.startswith(p)] *)
Fixpoint startswith (s p : string) : bool :=
  match p with
  | EmptyString => true
  | String c p' =>
      match s with
      | EmptyString => false
      | String d s' => if Ascii.eqb c d then startswith s' p' else false
      end
  end.

(** [needle in hay] for two [str] *)
Fixpoint contains (hay needle : string) : bool :=
  startswith hay needle ||
  match hay with
  | EmptyString => false
  | String _ hay' => contains hay' needle
  end.

(** The [str] methods of the interpreter that the code calls and whose
    Unicode tables are not part of the repository. *)
Class PyStr := {
  lower : string -> string;      (* str.lower *)
  strip : string -> string       (* str.strip *)
}.

(** The values stored in the result dictionaries. *)
Inductive pyval :=
| VStr (s : string)
| VBool (b : bool)
| VList (l : list string)
| VNone.

(** A result dictionary ([Dict] in the annotations). *)
Abbreviation dict := (gmap string pyval).

(** Truth value of a [str] and of a [dict]. *)
Definition str_truthy (s : string) : bool :=
  match s with EmptyString => false | _ => true end.

Definition dict_truthy (d : dict) : bool :=
  match map_to_list d with [] => false | _ => true end.

(** [range(n)] *)
Definition range (n : Z) : list Z := seqZ 0 n.

(** ** Coroutines: state, trace and exceptions *)

(** The exception classes told apart by the handlers of the code.  Every
    one of them derives from [Exception]. *)
Inductive exn :=
| ClientConnectorError
| ServerTimeoutError
| OtherException.

Inductive outcome (A : Type) :=
| Ret (a : A)
| Raise (e : exn).
Arguments Ret {A} a.
Arguments Raise {A} e.

(** A computation runs from a state to an outcome and a state.  What was
    written to the state before an exception was raised stays written. *)
Definition M (S A : Type) : Type := S -> outcome A * S.

Definition ret {S A} (a : A) : M S A := fun s => (Ret a, s).

Definition raise {S A} (e : exn) : M S A := fun s => (Raise e, s).

Definition bind {S A B} (m : M S A) (k : A -> M S B) : M S B :=
  fun s =>
    match m s with
    | (Ret a, s') => k a s'
    | (Raise e, s') => (Raise e, s')
    end.

(** [try: m   except Exception as e: h e] *)
Definition try_except {S A} (m : M S A) (h : exn -> M S A) : M S A :=
  fun s =>
    match m s with
    | (Ret a, s') => (Ret a, s')
    | (Raise e, s') => h e s'
    end.

(** [try: m   finally: f].  An exception of [f] replaces the outcome of
    [m]. *)
Definition try_finally {S A} (m : M S A) (f : M S unit) : M S A :=
  fun s =>
    match m s with
    | (r, s') =>
        match f s' with
        | (Ret _, s'') => (r, s'')
        | (Raise e, s'') => (Raise e, s'')
        end
    end.

Declare Scope py_scope.
Delimit Scope py_scope with py.
Notation "x <- m ;; k" := (bind m (fun x => k))
  (at level 100, m at next level, right associativity) : py_scope.
Notation "m ;; k" := (bind m (fun _ => k))
  (at level 100, right associativity) : py_scope.
Local Open Scope py_scope.

(** What one iteration of a [for] loop hands back to the loop: go on with
    the next element, or leave the function with a value. *)
Inductive flow (A : Type) :=
| Continue
| Return (a : A).
Arguments Continue {A}.
Arguments Return {A} a.

(** ** The HTTP pipeline ([asylum_bot_requests.py]) *)

Module Requests.

(** *** Documents, as BeautifulSoup shows them *)

(** An [<option>] of a select: [option.text] and its attributes. *)
Record option_tag := {
  option_text : string;
  option_attrs : gmap string string
}.

(** A tag returned by [form.find_all(['input', 'select'])]: [tag.name], the
    attribute dictionary behind [tag.get], and [tag.find_all('option')]. *)
Record tag := {
  tag_name : string;
  tag_attrs : gmap string string;
  tag_options : list option_tag
}.

(** The first form of a page: its attributes and its inputs and selects in
    document order. *)
Record form := {
  form_attrs : gmap string string;
  form_fields : list tag
}.

(** A response body seen through [BeautifulSoup(content, 'html.parser')]. *)
Record html := {
  find_form : option form;        (* soup.find('form') *)
  get_text : string;              (* soup.get_text() *)
  calendar_tables : list tag;     (* find_all('table', class_=[...]) *)
  date_inputs : list tag          (* find_all(['input','select'], name has 'fecha') *)
}.

(** *** Effects *)

Inductive event :=
| Request (method url : string) (data : option (gmap string string))
| Sleep (seconds : Z)
| Notify (province : string) (info : dict).

(** An answered request: [response.status], [str(response.url)] and what
    [await response.read()] does. *)
Record response := {
  status : Z;
  response_url : string;
  read : exn + html
}.

(** What the logging set-up looks like from [logger.handlers]. *)
Inductive handlers :=
| NoHandlers                       (* logger.handlers == [] *)
| HandlerWithoutBuffer             (* no attribute [buffer] *)
| HandlerBuffer (shown : string).  (* str(logger.handlers[0].buffer) *)

Record env := {
  session_request : list event -> exn + response;
  now : list event -> string;          (* datetime.now().isoformat() *)
  logger_handlers : list event -> handlers
}.

(** The bot object: the effects so far and [self.consecutive_failures]. *)
Record bot := {
  trace : list event;
  consecutive_failures : Z
}.

Definition emit (e : event) : M bot unit :=
  fun b => (Ret tt, {| trace := trace b ++ [e];
                       consecutive_failures := consecutive_failures b |}).

(** [await asyncio.sleep(seconds)] *)
Definition sleep (seconds : Z) : M bot unit := emit (Sleep seconds).

Section Bot.
Context (E : env).

(** [session.request(method, url, **kwargs)] entered with [async with]. *)
Definition request (method url : string) (data : option (gmap string string))
  : M bot response :=
  emit (Request method url data) ;;
  fun b =>
    match session_request E (trace b) with
    | inl e => (Raise e, b)
    | inr r => (Ret r, b)
    end.

(** [await response.read()] *)
Definition response_read (r : response) : M bot html :=
  match read r with
  | inl e => raise e
  | inr content => ret content
  end.

(** One iteration of the loop of [_make_request_with_retry]. *)
Definition attempt_request (method url : string)
    (data : option (gmap string string)) (max_retries attempt : Z)
  : M bot (flow (option (html * string * Z))) :=
  try_except
    ((if 0 <? attempt then sleep (Z.min (2 ^ attempt) 6) else ret tt) ;;
     resp <- request method url data ;;
     if 500 <=? status resp then
       if attempt =? max_retries - 1 then ret (Return None) else ret Continue
     else if 400 <=? status resp then
       ret (Return None)
     else
       content <- response_read resp ;;
       ret (Return (Some (content, response_url resp, status resp))))
    (fun e =>
       match e with
       | ClientConnectorError =>
           if attempt =? max_retries - 1 then ret (Return None) else ret Continue
       | ServerTimeoutError =>
           if attempt =? max_retries - 1 then ret (Return None) else ret Continue
       | OtherException =>
           if attempt =? max_retries - 1 then ret (Return None) else ret Continue
       end).

Fixpoint retry_loop (method url : string) (data : option (gmap string string))
    (max_retries : Z) (attempts : list Z)
  : M bot (option (html * string * Z)) :=
  match attempts with
  | [] => ret None
  | attempt :: rest =>
      r <- attempt_request method url data max_retries attempt ;;
      match r with
      | Return v => ret v
      | Continue => retry_loop method url data max_retries rest
      end
  end.

Definition _make_request_with_retry (method url : string) (max_retries : Z)
    (data : option (gmap string string))
  : M bot (option (html * string * Z)) :=
  retry_loop method url data max_retries (range max_retries).

End Bot.

(** *** Form extraction and label resolution *)

(** [self.base_url] and the origin that root-relative actions are
    resolved against. *)
Definition base_url : string :=
  "https://icp.administracionelectronica.gob.es/icpplus/acOpcDirect".

Definition origin : string := "https://icp.administracionelectronica.gob.es".

(** [tag.get(attr) == v] *)
Definition attr_is (attrs : gmap string string) (attr v : string) : bool :=
  match attrs !! attr with
  | Some x => String.eqb x v
  | None => false
  end.

(** [tag.get(attr, '')] *)
Definition attr_or_empty (attrs : gmap string string) (attr : string) : string :=
  default EmptyString (attrs !! attr).

(** The action URL of the form: [form.get('action', '')], prefixed with the
    origin when it starts with a slash. *)
Definition form_action (f : form) : string :=
  let action_url := attr_or_empty (form_attrs f) "action" in
  if startswith action_url "/" then origin +:+ action_url else action_url.

Section Extraction.
Context {P : PyStr}.

(** The loop over the options of the province select: the value of the
    first option whose stripped text is the province, if there is one. *)
Fixpoint resolve_label (province : string) (options : list option_tag)
  : option string :=
  match options with
  | [] => None
  | option :: rest =>
      if String.eqb (strip (option_text option)) province
      then Some (attr_or_empty (option_attrs option) "value")
      else resolve_label province rest
  end.

(** The body of the loop over [form.find_all(['input', 'select'])]. *)
Definition collect_field (province : string) (form_data : gmap string string)
    (input_tag : tag) : gmap string string :=
  match tag_attrs input_tag !! "name" with
  | None => form_data
  | Some name =>
      if str_truthy name then
        if String.eqb (tag_name input_tag) "select" && String.eqb name "provincia"
        then
          match resolve_label province (tag_options input_tag) with
          | Some value => <[name := value]> form_data
          | None => form_data
          end
        else if attr_is (tag_attrs input_tag) "type" "hidden" then
          <[name := attr_or_empty (tag_attrs input_tag) "value"]> form_data
        else if attr_is (tag_attrs input_tag) "type" "submit" then
          form_data
        else
          <[name := attr_or_empty (tag_attrs input_tag) "value"]> form_data
      else form_data
  end.

Definition collect_form_data (province : string) (f : form)
  : gmap string string :=
  fold_left (collect_field province) (form_fields f) ∅.

End Extraction.

(** *** One province *)

Definition no_appointment_indicators : list string :=
  [ "no hay citas disponibles";
    "no hay citas libres";
    "en este momento no hay citas disponibles";
    "no quedan citas libres";
    "todas las citas est√°n ocupadas" ].

Definition appointment_indicators : list string :=
  [ "citas disponibles";
    "citas libres";
    "seleccione una fecha";
    "calendario";
    "fecha disponible" ].

(** [for indicator in indicators: if indicator in page_text: ...] *)
Definition any_indicator (indicators : list string) (page_text : string) : bool :=
  existsb (fun indicator => contains page_text indicator) indicators.

Definition nonempty {A} (l : list A) : bool :=
  match l with [] => false | _ => true end.

Section Pipeline.
Context (E : env) {P : PyStr}.

Definition clock : M bot string := fun b => (Ret (now E (trace b)), b).

(** The dictionary built once positive indicators were found. *)
Definition appointment_record (province timestamp response_url : string)
    (soup : html) : dict :=
  let appointment_info : dict :=
    <["status" := VStr "appointments_detected"]>
    (<["found_via" := VStr "Async HTTP requests with retry logic"]>
    (<["page_url" := VStr response_url]>
    (<["timestamp" := VStr timestamp]>
    (<["province" := VStr province]> ∅)))) in
  let appointment_info :=
    if nonempty (calendar_tables soup)
    then <["calendar_found" := VBool true]> appointment_info
    else appointment_info in
  if nonempty (date_inputs soup)
  then <["date_selection_available" := VBool true]> appointment_info
  else appointment_info.

(** What is done with the answer to the province submission. *)
Definition read_service_page (province : string)
    (form_response_data : html * string * Z) : M bot (option dict) :=
  let '(soup, response_url, response_status) := form_response_data in
  if contains response_url "citar?p=4&locale=es" then
    let page_text := lower (get_text soup) in
    if any_indicator no_appointment_indicators page_text then ret None
    else if any_indicator appointment_indicators page_text then
      timestamp <- clock ;;
      ret (Some (appointment_record province timestamp response_url soup))
    else ret None
  else ret None.

Definition check_province_appointments (province : string)
  : M bot (option dict) :=
  try_except
    (response_data <- _make_request_with_retry E "GET" base_url 3 None ;;
     match response_data with
     | None => ret None
     | Some (soup, url, status) =>
         match find_form soup with
         | None => ret None
         | Some form =>
             let action_url := form_action form in
             let form_data := collect_form_data province form in
             match form_data !! "provincia" with
             | None => ret None
             | Some _ =>
                 form_response_data <-
                   _make_request_with_retry E "POST"
                     (if str_truthy action_url then action_url else base_url)
                     3 (Some form_data) ;;
                 match form_response_data with
                 | None => ret None
                 | Some answer => read_service_page province answer
                 end
             end
         end
     end)
    (fun e => ret None).

End Pipeline.

(** *** One cycle *)

(** [self.provinces] as the constructor sets it. *)
Definition default_provinces : list string :=
  [ "Almer√≠a"; "C√°diz"; "Albacete" ].

(** [await self.telegram_notifier.send_appointment_notification(...)]: the
    notifier catches what it raises and answers with a boolean that the
    cycle ignores. *)
Definition notify (province : string) (info : dict) : M bot unit :=
  emit (Notify province info).

Definition set_consecutive_failures (f : Z -> Z) : M bot unit :=
  fun b => (Ret tt, {| trace := trace b;
                       consecutive_failures := f (consecutive_failures b) |}).

Section Cycle.
Context (E : env).
(** The method [self.check_province_appointments] that the cycle awaits. *)
Context (check : string -> M bot (option dict)).

(** The loop over [self.provinces]; [found] is [found_appointments]. *)
Fixpoint check_provinces (provinces : list string) (found : list dict)
  : M bot (list dict) :=
  match provinces with
  | [] => ret found
  | province :: rest =>
      found' <-
        try_except
          (appointment_info <- check province ;;
           match appointment_info with
           | Some info =>
               if dict_truthy info
               then notify province info ;; ret (found ++ [info])
               else ret found
           | None => ret found
           end)
          (fun e => ret found) ;;
      sleep 2 ;;
      check_provinces rest found'
  end.

(** The bookkeeping after the loop.  [logger.handlers[0]] raises
    [IndexError] on a logger without handlers. *)
Definition track_failures (found : list dict) : M bot unit :=
  if nonempty found then set_consecutive_failures (fun _ => 0)
  else
    fun b =>
      match logger_handlers E (trace b) with
      | NoHandlers => (Raise OtherException, b)
      | HandlerWithoutBuffer =>
          (if contains "[]" "Failed to access initial page"
           then set_consecutive_failures (fun n => n + 1)
           else set_consecutive_failures (fun _ => 0)) b
      | HandlerBuffer shown =>
          (if contains shown "Failed to access initial page"
           then set_consecutive_failures (fun n => n + 1)
           else set_consecutive_failures (fun _ => 0)) b
      end.

Definition run_single_check_with (provinces : list string) : M bot unit :=
  try_except
    (found_appointments <- check_provinces provinces [] ;;
     track_failures found_appointments)
    (fun e => ret tt).

End Cycle.

Definition run_single_check (E : env) {P : PyStr} (provinces : list string)
  : M bot unit :=
  run_single_check_with E (check_province_appointments E) provinces.

End Requests.

(** ** The browser pipeline ([asylum_bot.py]) *)

Module Playwright.

(** An element handle of the page. *)
Definition handle := nat.

(** The double quote of the attribute selectors. *)
Definition dq : string := String (Ascii.ascii_of_nat 34) EmptyString.

(** The CSS attribute test [[attr op "value"]]. *)
Definition attr_sel (attr op value : string) : string :=
  "[" +:+ attr +:+ op +:+ dq +:+ value +:+ dq +:+ "]".

(** *** Effects *)

Inductive op :=
| InitBrowser
| NewPage
| Goto (url : string)
| WaitForSelector (selector : string) (timeout : Z)
| SelectOption (selector label : string)
| Click (selector : string)
| WaitForUrl (pattern : string) (timeout : Z)
| Fill (selector value : string)
| WaitForLoadState (timeout : Z)
| Content
| QuerySelectorAll (selector : string)
| QuerySelector (selector : string)
| GetAttribute (element : handle) (name : string)
| TextContent (element : handle)
| CheckFirst (selector : string)
| CheckElement (element : handle)
| ClickElement (element : handle)
| ClosePage
| Sleep (seconds : Z)
| Notify (province : string) (info : dict).

(** How [initialize_browser] can end: both the browser and its context are
    there, the launch failed, or the launch worked and [new_context]
    failed.  The last two re-raise. *)
Inductive init_outcome :=
| InitOk
| LaunchFailed
| ContextFailed.

(** The browser and the clock.  Each answers from the trace that ends with
    the operation asked. *)
Record env := {
  init_browser : list op -> init_outcome;
  action : list op -> option exn;            (* operations without a result *)
  element : list op -> exn + option handle;  (* wait_for_selector, query_selector *)
  elements : list op -> exn + list handle;   (* query_selector_all *)
  page_content : list op -> exn + string;    (* page.content() *)
  text : list op -> exn + option string;     (* get_attribute, text_content *)
  now : list op -> string;                   (* datetime.now().isoformat() *)
  message : exn -> string                    (* str(e) *)
}.

(** The bot object ([self.browser], [self.context]) with the two local
    variables that outlive an exception: [page] of
    [check_province_appointments], as the [finally] clause sees it, and the
    dictionary [appointment_details] that [extract_appointment_details]
    fills in place. *)
Record bot := {
  trace : list op;
  browser : bool;
  context : bool;
  page : bool;
  appointment_details : dict
}.

Definition emit (o : op) : M bot unit :=
  fun b => (Ret tt, {| trace := trace b ++ [o]; browser := browser b;
                       context := context b; page := page b;
                       appointment_details := appointment_details b |}).

Definition set_browser (br ctx : bool) : M bot unit :=
  fun b => (Ret tt, {| trace := trace b; browser := br; context := ctx;
                       page := page b;
                       appointment_details := appointment_details b |}).

Definition set_page (p : bool) : M bot unit :=
  fun b => (Ret tt, {| trace := trace b; browser := browser b;
                       context := context b; page := p;
                       appointment_details := appointment_details b |}).

Definition update_details (f : dict -> dict) : M bot unit :=
  fun b => (Ret tt, {| trace := trace b; browser := browser b;
                       context := context b; page := page b;
                       appointment_details := f (appointment_details b) |}).

Definition get {A} (f : bot -> A) : M bot A := fun b => (Ret (f b), b).

(** [self.user_data] *)
Record user_profile := {
  passport_number : string;
  full_name : string;
  birth_year : string;
  nationality : string;
  email : string;
  phone : string
}.

Definition user_data : user_profile :=
  {| passport_number := "191484632";
     full_name := "ALAN DOUGLAS COHEN TELLO";
     birth_year := "1986";
     nationality := "Venezuela";
     email := "alancohen7@gmail.com";
     phone := "692959148" |}.

Definition base_url : string :=
  "https://icp.administracionelectronica.gob.es/icpplus/acOpcDirect".

Definition accept_button : string :=
  "input" +:+ attr_sel "type" "=" "submit" +:+ attr_sel "value" "=" "Aceptar".

Definition date_radio : string :=
  "input" +:+ attr_sel "type" "=" "radio" +:+ attr_sel "name" "*=" "fecha".

Definition no_appointment_indicators : list string :=
  [ "No hay citas disponibles";
    "no hay citas libres";
    "En este momento no hay citas disponibles";
    "No quedan citas libres" ].

Definition calendar_selectors : list string :=
  [ "table.calendario";
    ".calendar";
    date_radio;
    "select" +:+ attr_sel "name" "*=" "fecha" ].

Section Bot.
Context (E : env) {P : PyStr}.

(** An awaited page operation that returns nothing. *)
Definition act (o : op) : M bot unit :=
  emit o ;;
  fun b => match action E (trace b) with
           | Some e => (Raise e, b)
           | None => (Ret tt, b)
           end.

Definition ask {A} (oracle : env -> list op -> exn + A) (o : op) : M bot A :=
  emit o ;;
  fun b => match oracle E (trace b) with
           | inl e => (Raise e, b)
           | inr a => (Ret a, b)
           end.

Definition clock : M bot string := get (fun b => now E (trace b)).

Definition sleep (seconds : Z) : M bot unit := emit (Sleep seconds).

Definition initialize_browser : M bot unit :=
  emit InitBrowser ;;
  fun b =>
    match init_browser E (trace b) with
    | InitOk => set_browser true true b
    | LaunchFailed => (Raise OtherException, b)
    | ContextFailed => (set_browser true (context b) ;; raise OtherException) b
    end.

Definition create_new_page : M bot unit :=
  ctx <- get context ;;
  (if negb ctx then initialize_browser else ret tt) ;;
  ctx <- get context ;;
  (if negb ctx then raise OtherException else ret tt) ;;
  act NewPage.

(** *** The steps *)

Definition select_province (province : string) : M bot bool :=
  try_except
    (ask element (WaitForSelector ("select" +:+ attr_sel "name" "=" "provincia") 10000) ;;
     act (SelectOption ("select" +:+ attr_sel "name" "=" "provincia") province) ;;
     act (Click accept_button) ;;
     act (WaitForUrl "**/citar?p=4&locale=es" 15000) ;;
     ret true)
    (fun e => ret false).

Definition select_service_type : M bot bool :=
  try_except
    (ask element (WaitForSelector ("input" +:+ attr_sel "type" "=" "radio") 10000) ;;
     act (CheckFirst ("input" +:+ attr_sel "type" "=" "radio" +:+ attr_sel "value" "*=" "POLICIA")) ;;
     act (Click accept_button) ;;
     ask element (WaitForSelector ("input" +:+ attr_sel "type" "=" "radio") 10000) ;;
     act (CheckFirst ("input" +:+ attr_sel "type" "=" "radio" +:+ attr_sel "value" "*=" "ASILO")) ;;
     act (Click accept_button) ;;
     act (WaitForUrl "**/acInfo" 15000) ;;
     ret true)
    (fun e => ret false).

Definition proceed_to_entry_form : M bot bool :=
  try_except
    (act (Click ("input" +:+ attr_sel "type" "=" "submit" +:+ attr_sel "value" "=" "Entrar")) ;;
     act (WaitForUrl "**/acEntrada" 15000) ;;
     ret true)
    (fun e => ret false).

Definition fill_user_data : M bot bool :=
  try_except
    (ask element (WaitForSelector ("select" +:+ attr_sel "name" "=" "rdbTipoDoc") 10000) ;;
     act (SelectOption ("select" +:+ attr_sel "name" "=" "rdbTipoDoc") "Pasaporte") ;;
     act (Fill ("input" +:+ attr_sel "name" "=" "txtIdCitado") (passport_number user_data)) ;;
     act (Fill ("input" +:+ attr_sel "name" "=" "txtDesCitado") (full_name user_data)) ;;
     act (Fill ("input" +:+ attr_sel "name" "=" "txtAnnoCitado") (birth_year user_data)) ;;
     act (SelectOption ("select" +:+ attr_sel "name" "=" "txtPaisNac") (nationality user_data)) ;;
     act (Click accept_button) ;;
     act (WaitForLoadState 15000) ;;
     ret true)
    (fun e => ret false).

(** *** The availability classifier *)

Definition initial_details (timestamp : string) : dict :=
  <["timestamp" := VStr timestamp]>
  (<["office" := VStr EmptyString]>
  (<["dates" := VList []]>
  (<["province" := VStr EmptyString]> ∅))).

(** [appointment_details['dates'].append(value)] *)
Definition append_date (value : string) (details : dict) : dict :=
  alter (fun dates => match dates with
                      | VList l => VList (l ++ [value])
                      | other => other
                      end) "dates" details.

(** The loop over the date inputs. *)
Fixpoint harvest_dates (date_elements : list handle) : M bot unit :=
  match date_elements with
  | [] => ret tt
  | element :: rest =>
      value <- ask text (GetAttribute element "value") ;;
      match value with
      | Some v => if str_truthy v then update_details (append_date v) else ret tt
      | None => ret tt
      end ;;
      harvest_dates rest
  end.

Definition office_selector : string :=
  ".oficina, .office, [contains(text(), " +:+ dq +:+ "Oficina" +:+ dq +:+ ")]".

(** The first inner [try] of [extract_appointment_details]. *)
Definition read_dates : M bot unit :=
  try_except
    (date_elements <- ask elements (QuerySelectorAll date_radio) ;;
     harvest_dates date_elements)
    (fun e => ret tt).

(** The second inner [try] of [extract_appointment_details]. *)
Definition read_office : M bot unit :=
  try_except
    (office_element <- ask element (QuerySelector office_selector) ;;
     match office_element with
     | Some el =>
         content <- ask text (TextContent el) ;;
         update_details
           <["office" := match content with Some s => VStr s | None => VNone end]>
     | None => ret tt
     end)
    (fun e => ret tt).

Definition extract_appointment_details : M bot dict :=
  try_except
    (timestamp <- clock ;;
     update_details (fun _ => initial_details timestamp) ;;
     read_dates ;;
     read_office ;;
     get appointment_details)
    (fun e =>
       timestamp <- clock ;;
       ret (<["timestamp" := VStr timestamp]>
            (<["error" := VStr (message E e)]> ∅))).

(** The loop over [calendar_selectors]. *)
Fixpoint find_calendar (selectors : list string) : M bot (bool * option dict) :=
  match selectors with
  | [] => ret (false, None)
  | selector :: rest =>
      r <- try_except
             (found <- ask element (WaitForSelector selector 5000) ;;
              match found with
              | Some _ =>
                  appointment_info <- extract_appointment_details ;;
                  ret (Return (true, Some appointment_info))
              | None => ret Continue
              end)
             (fun e => ret Continue) ;;
      match r with
      | Return v => ret v
      | Continue => find_calendar rest
      end
  end.

(** [indicator.lower() in page_content.lower()] for some indicator. *)
Definition says_no_appointments (page_content : string) : bool :=
  existsb (fun indicator => contains (lower page_content) (lower indicator))
          no_appointment_indicators.

Definition check_appointment_availability : M bot (bool * option dict) :=
  try_except
    (act (WaitForLoadState 15000) ;;
     content <- ask page_content Content ;;
     if says_no_appointments content then ret (false, None)
     else find_calendar calendar_selectors)
    (fun e => ret (false, None)).

(** *** Best-effort booking *)

Definition submit_with (value1 value2 : string) : string :=
  "input" +:+ attr_sel "type" "=" "submit" +:+ attr_sel "value" "*=" value1 +:+
  ", input" +:+ attr_sel "type" "=" "submit" +:+ attr_sel "value" "*=" value2.

Definition email_field : string :=
  "input" +:+ attr_sel "name" "*=" "email" +:+ ", input" +:+ attr_sel "type" "=" "email".

Definition phone_field : string :=
  "input" +:+ attr_sel "name" "*=" "telefono" +:+
  ", input" +:+ attr_sel "name" "*=" "phone".

Definition auto_select_appointment : M bot bool :=
  try_except
    (first_appointment <-
       ask element (QuerySelector (date_radio +:+ ":first-of-type")) ;;
     match first_appointment with
     | Some first =>
         act (CheckElement first) ;;
         continue_button <-
           ask element (QuerySelector (submit_with "Siguiente" "Continuar")) ;;
         match continue_button with
         | Some continue =>
             act (ClickElement continue) ;;
             act (WaitForLoadState 10000) ;;
             try_except
               (act (Fill email_field (email user_data)) ;;
                act (Fill phone_field (phone user_data)) ;;
                submit_button <-
                  ask element (QuerySelector (submit_with "Enviar" "Confirmar")) ;;
                match submit_button with
                | Some submit => act (ClickElement submit) ;; ret true
                | None => ret false
                end)
               (fun e => ret false)
         | None => ret false
         end
     | None => ret false
     end)
    (fun e => ret false).

(** *** One province *)

Definition check_province_appointments (province : string)
  : M bot (option dict) :=
  set_page false ;;
  try_finally
    (try_except
       (create_new_page ;;
        set_page true ;;
        act (Goto base_url) ;;
        selected <- select_province province ;;
        if negb selected then ret None else
        selected <- select_service_type ;;
        if negb selected then ret None else
        reached <- proceed_to_entry_form ;;
        if negb reached then ret None else
        filled <- fill_user_data ;;
        if negb filled then ret None else
        availability <- check_appointment_availability ;;
        match availability with
        | (true, Some appointment_info) =>
            if dict_truthy appointment_info then
              let appointment_info :=
                <["province" := VStr province]> appointment_info in
              booking_success <- auto_select_appointment ;;
              ret (Some (<["booking_attempted" := VBool booking_success]>
                         appointment_info))
            else ret None
        | _ => ret None
        end)
       (fun e => ret None))
    (opened <- get page ;; if opened then act ClosePage else ret tt).

End Bot.

(** *** One cycle *)

Definition default_provinces : list string :=
  [ "Almería"; "Cádiz"; "Albacete" ].

Definition notify (province : string) (info : dict) : M bot unit :=
  emit (Notify province info).

Section Cycle.
Context (E : env).
(** The method [self.check_province_appointments] that the cycle awaits. *)
Context (check : string -> M bot (option dict)).

Fixpoint check_provinces (provinces : list string) (found : list dict)
  : M bot (list dict) :=
  match provinces with
  | [] => ret found
  | province :: rest =>
      found' <-
        try_except
          (appointment_info <- check province ;;
           match appointment_info with
           | Some info =>
               if dict_truthy info
               then notify province info ;; ret (found ++ [info])
               else ret found
           | None => ret found
           end)
          (fun e => ret found) ;;
      sleep 2 ;;
      check_provinces rest found'
  end.

Definition run_single_check_with (provinces : list string) : M bot unit :=
  try_except
    (started <- get browser ;;
     (if negb started then initialize_browser E else ret tt) ;;
     found_appointments <- check_provinces provinces [] ;;
     ret tt)
    (fun e => ret tt).

End Cycle.

Definition run_single_check (E : env) {P : PyStr} (provinces : list string)
  : M bot unit :=
  run_single_check_with E (check_province_appointments E) provinces.

End Playwright.

(** ** An interpreter for plain ASCII text

    The instance of [PyStr] at which the development is run on concrete
    pages: on text made of ASCII characters only, [str.lower] maps [A-Z]
    to [a-z] and [str.strip] removes the ASCII white space at both ends. *)

Definition ascii_lower_char (c : Ascii.ascii) : Ascii.ascii :=
  let n := Ascii.nat_of_ascii c in
  if ((65 <=? n) && (n <=? 90))%nat then Ascii.ascii_of_nat (n + 32) else c.

Fixpoint ascii_lower (s : string) : string :=
  match s with
  | EmptyString => EmptyString
  | String c s' => String (ascii_lower_char c) (ascii_lower s')
  end.

Definition ascii_space (c : Ascii.ascii) : bool :=
  let n := Ascii.nat_of_ascii c in
  (((9 <=? n) && (n <=? 13)) || ((28 <=? n) && (n <=? 32)))%nat.

Fixpoint lstrip (s : string) : string :=
  match s with
  | EmptyString => EmptyString
  | String c s' => if ascii_space c then lstrip s' else s
  end.

Definition ascii_strip (s : string) : string :=
  String.rev (lstrip (String.rev (lstrip s))).

Definition ascii_str : PyStr := {| lower := ascii_lower; strip := ascii_strip |}.

(** ** Properties of the retry policy *)

Section RetryPolicy.
Import Requests.
Context (E : env).
Context (method url : string) (data : option (gmap string string)).

(** The effects of attempt number [n], counted from 1 as the specification
    does: nothing before the first request, and a pause of
    [min (2^(n-1)) 6] seconds before every later one. *)
Definition backoff_delay (n : Z) : Z := Z.min (2 ^ (n - 1)) 6.

Definition attempt_events (n : Z) : list event :=
  if n =? 1 then [Request method url data]
  else [Sleep (backoff_delay n); Request method url data].

(** The number of requests among some effects. *)
Definition is_request (e : event) : bool :=
  match e with Request _ _ _ => true | _ => false end.

Definition requests (t : list event) : nat := length (filter is_request t).

(** The delays among some effects. *)
Definition delays (t : list event) : list Z :=
  omap (fun e => match e with Sleep d => Some d | _ => None end) t.

(** The state after the effects [evs]. *)
Definition after (b : bot) (evs : list event) : bot :=
  {| trace := trace b ++ evs; consecutive_failures := consecutive_failures b |}.

(** The answer of the portal to the request of the attempt with loop index
    [attempt] made from state [b]. *)
Definition answer (b : bot) (attempt : Z) : exn + response :=
  session_request E (trace b ++ attempt_events (attempt + 1)).

(** What the loop does after an attempt that got the answer [a]: the three
    handlers and the server-error branch go on unless the attempt is the
    last one. *)
Definition verdict (max_retries attempt : Z) (a : exn + response)
  : flow (option (html * string * Z)) :=
  let again := if attempt =? max_retries - 1 then Return None else Continue in
  match a with
  | inl _ => again
  | inr r =>
      if 500 <=? status r then again
      else if 400 <=? status r then Return None
      else match read r with
           | inl _ => again
           | inr content => Return (Some (content, response_url r, status r))
           end
  end.

End RetryPolicy.

(** The kinds of failure of one attempt, as the specification names them. *)
Inductive failure :=
| ConnectionFailure
| Timeout
| ServerError
| ClientError
| Unexpected.

Definition classify (e : exn) : failure :=
  match e with
  | ClientConnectorError => ConnectionFailure
  | ServerTimeoutError => Timeout
  | OtherException => Unexpected
  end.

(** The failure of an attempt that got the answer [a], if it failed. *)
Definition failure_of (a : exn + Requests.response) : option failure :=
  match a with
  | inl e => Some (classify e)
  | inr r =>
      if 500 <=? Requests.status r then Some ServerError
      else if 400 <=? Requests.status r then Some ClientError
      else match Requests.read r with
           | inl e => Some (classify e)
           | inr _ => None
           end
  end.

(** The failures that the specification calls transient. *)
Definition transient (f : failure) : bool :=
  match f with
  | ConnectionFailure | Timeout | ServerError => true
  | ClientError | Unexpected => false
  end.

(** A call of [_make_request_with_retry] from [b] retries its first attempt
    when it sends more than one request. *)
Definition retried (E : Requests.env) (method url : string) (max_retries : Z)
    (data : option (gmap string string)) (b : Requests.bot) : Prop :=
  (requests (Requests.trace b) + 1 <
   requests (Requests.trace
               (Requests._make_request_with_retry E method url max_retries data b).2))%nat.

(** The claim that only transient failures are retried. *)
Definition only_transient_failures_retried : Prop :=
  forall E method url max_retries data b f,
    failure_of (answer E method url data b 0) = Some f ->
    retried E method url max_retries data b ->
    transient f = true.

(** A portal that is reached and answers every request with the status
    [code] and an empty page. *)
Definition empty_page : Requests.html :=
  {| Requests.find_form := None; Requests.get_text := EmptyString;
     Requests.calendar_tables := []; Requests.date_inputs := [] |}.

Definition answering (code : Z) : Requests.env :=
  {| Requests.session_request := fun _ =>
       inr {| Requests.status := code; Requests.response_url := Requests.base_url;
              Requests.read := inr empty_page |};
     Requests.now := fun _ => "2024-05-01T10:00:00";
     Requests.logger_handlers := fun _ => Requests.NoHandlers |}.

(** A portal on which every request raises [e]. *)
Definition failing (e : exn) : Requests.env :=
  {| Requests.session_request := fun _ => inl e;
     Requests.now := fun _ => "2024-05-01T10:00:00";
     Requests.logger_handlers := fun _ => Requests.NoHandlers |}.

(** A bot that has done nothing yet. *)
Definition fresh : Requests.bot :=
  {| Requests.trace := []; Requests.consecutive_failures := 0 |}.

(** ** Vocabulary of the properties of the form extractor *)

Section FormVocabulary.
Import Requests.

(** A submit-type input: the test of the code on an [<input>] tag. *)
Definition submit_input (t : tag) : Prop :=
  tag_name t = "input" /\ attr_is (tag_attrs t) "type" "submit" = true.

(** A submit-type input as HTML reads it: the [type] attribute is compared
    without regard to case. *)
Definition submit_type {P : PyStr} (t : tag) : Prop :=
  tag_name t = "input" /\
  exists type, tag_attrs t !! "type" = Some type /\ lower type = "submit".

(** A hidden input. *)
Definition hidden_input (t : tag) : Prop :=
  tag_name t = "input" /\ attr_is (tag_attrs t) "type" "hidden" = true.

(** The province select fields of a form. *)
Definition province_select (t : tag) : Prop :=
  tag_name t = "select" /\ tag_attrs t !! "name" = Some "provincia".

(** No option of a province select of the form has the province as its
    stripped text. *)
Definition no_option_matches {P : PyStr} (province : string) (f : form) : Prop :=
  forall t o,
    t ∈ form_fields f -> province_select t -> o ∈ tag_options t ->
    strip (option_text o) <> province.

(** The claim on form extraction, as stated: a root-relative action is
    prefixed with the origin, every hidden input is in the mapping under its
    name with its prefilled value, and a submit-type input adds nothing to
    the mapping. *)
Definition form_extraction_claim : Prop :=
  forall (P : PyStr) (province : string) (f : form),
    (startswith (attr_or_empty (form_attrs f) "action") "/" = true ->
     form_action f = origin +:+ attr_or_empty (form_attrs f) "action") /\
    (forall t, t ∈ form_fields f -> hidden_input t ->
       exists name, tag_attrs t !! "name" = Some name /\
         collect_form_data province f !! name
         = Some (attr_or_empty (tag_attrs t) "value")) /\
    (forall t form_data, submit_type t ->
       collect_field province form_data t = form_data).

(** The claim on label resolution, as stated: when the initial page was
    fetched and no option of the province select of its form matches, the
    check returns [None] in the state that the fetch left. *)
Definition label_not_found_claim : Prop :=
  forall (P : PyStr) (E : env) (province : string) (b b1 : bot)
         (soup : html) (url : string) (code : Z) (f : form),
    _make_request_with_retry E "GET" base_url 3 None b
    = (Ret (Some (soup, url, code)), b1) ->
    find_form soup = Some f ->
    no_option_matches province f ->
    check_province_appointments E province b = (Ret None, b1).

(** Every field of the form named [provincia] is a select. *)
Definition provincia_only_select (f : form) : Prop :=
  forall t, t ∈ form_fields f ->
    tag_attrs t !! "name" = Some "provincia" -> tag_name t = "select".

(** *** Sample pages *)

Definition attrs (l : list (string * string)) : gmap string string :=
  list_to_map l.

Definition input (type name value : string) : tag :=
  {| tag_name := "input";
     tag_attrs := attrs [("type", type); ("name", name); ("value", value)];
     tag_options := [] |}.

Definition option_of (text value : string) : option_tag :=
  {| option_text := text; option_attrs := attrs [("value", value)] |}.

Definition provincia_select : tag :=
  {| tag_name := "select";
     tag_attrs := attrs [("name", "provincia")];
     tag_options := [ option_of " Albacete " "2"; option_of " Almeria " "5" ] |}.

(** A form as the portal serves it. *)
Definition portal_form : form :=
  {| form_attrs := attrs [("action", "/icpplus/citar?p=4&locale=es")];
     form_fields := [ input "hidden" "token" "abc"; provincia_select;
                      input "submit" "btnAceptar" "Aceptar" ] |}.

(** A form in which a hidden input has no name, a hidden input shares its
    name with a later text input, and a hidden input is named like the
    province select. *)
Definition odd_form : form :=
  {| form_attrs := attrs [("action", "/icpplus/citar?p=4&locale=es")];
     form_fields := [ {| tag_name := "input";
                         tag_attrs := attrs [("type", "hidden"); ("value", "x")];
                         tag_options := [] |};
                      input "hidden" "token" "1";
                      input "text" "token" "2";
                      input "hidden" "provincia" "0";
                      provincia_select ] |}.

(** A form whose submit button spells its type in capitals. *)
Definition shouting_form : form :=
  {| form_attrs := attrs [("action", "/icpplus/citar?p=4&locale=es")];
     form_fields := [ provincia_select;
                      input "SUBMIT" "btnAceptar" "Aceptar" ] |}.

Definition page_with (f : form) (text : string) : html :=
  {| find_form := Some f; get_text := text;
     calendar_tables := []; date_inputs := [] |}.

(** The method of the request that a trace ends with. *)
Definition last_method (t : list event) : string :=
  match last t with
  | Some (Request method _ _) => method
  | _ => EmptyString
  end.

(** A portal that answers a [GET] with the page [first] and anything else
    with the page [second] at the service-selection address. *)
Definition portal (first second : html) : env :=
  {| session_request := fun t =>
       if String.eqb (last_method t) "GET"
       then inr {| status := 200; response_url := base_url; read := inr first |}
       else inr {| status := 200;
                   response_url := origin +:+ "/icpplus/citar?p=4&locale=es";
                   read := inr second |};
     now := fun _ => "2024-05-01T10:00:00";
     logger_handlers := fun _ => NoHandlers |}.

End FormVocabulary.

(** ** Vocabulary of the properties of the pipeline *)

(** A complete result of the HTTP pipeline for a province. *)
Definition complete_http_result (province : string) (d : dict) : Prop :=
  d !! "province" = Some (VStr province) /\
  (exists timestamp, d !! "timestamp" = Some (VStr timestamp)) /\
  (exists url, d !! "page_url" = Some (VStr url)) /\
  d !! "found_via" = Some (VStr "Async HTTP requests with retry logic") /\
  d !! "status" = Some (VStr "appointments_detected").

(** A complete result of the browser pipeline for a province. *)
Definition complete_browser_result (province : string) (d : dict) : Prop :=
  d !! "province" = Some (VStr province) /\
  (exists dates, d !! "dates" = Some (VList dates)) /\
  is_Some (d !! "office") /\
  (exists timestamp, d !! "timestamp" = Some (VStr timestamp)) /\
  (exists booked, d !! "booking_attempted" = Some (VBool booked)).

Section HttpCycle.
Import Requests.
Context (check : string -> M bot (option dict)).

(** The round of one province in a cycle: its check, the notification when
    the check returned a result, and the pause, whatever the check did. *)
Definition province_round (province : string) (b : bot) : bot :=
  let '(r, b1) := check province b in
  let b2 :=
    match r with
    | Ret (Some info) =>
        if dict_truthy info then (notify province info b1).2 else b1
    | _ => b1
    end in
  (sleep 2 b2).2.

(** The rounds of the provinces, in order. *)
Definition rounds (provinces : list string) (b : bot) : bot :=
  fold_left (fun b province => province_round province b) provinces b.

End HttpCycle.

(** A check that raises for the province [bad], reports [info] for the
    others and sends one request to the portal either way. *)
Definition moody_check (bad : string) (info : dict) (province : string)
  : M Requests.bot (option dict) :=
  (Requests.emit (Requests.Request "GET" province None) ;;
   if String.eqb province bad then raise OtherException else ret (Some info))%py.

(** ** The browser pipeline as a step sequencer *)

Section Sequencer.
Import Playwright.
Context (E : env) {P : PyStr}.

(** The state in which the body of the check starts: [page = None]. *)
Definition entered (b : bot) : bot := (set_page false b).2.

(** The page is created and sent to the portal. *)
Definition open_page : M bot unit :=
  create_new_page E ;; set_page true ;; act E (Goto base_url).

(** The four steps that lead to the availability page. *)
Definition steps (province : string) : list (M bot bool) :=
  [ select_province E province;
    select_service_type E;
    proceed_to_entry_form E;
    fill_user_data E ].

(** Steps run in order up to the first one that fails. *)
Fixpoint run_steps (l : list (M bot bool)) : M bot bool :=
  match l with
  | [] => ret true
  | step :: rest => ok <- step ;; if ok then run_steps rest else ret false
  end.

(** The availability check and the best-effort booking. *)
Definition conclude (province : string) : M bot (option dict) :=
  availability <- check_appointment_availability E ;;
  match availability with
  | (true, Some appointment_info) =>
      if dict_truthy appointment_info then
        booking_success <- auto_select_appointment E ;;
        ret (Some (<["booking_attempted" := VBool booking_success]>
                   (<["province" := VStr province]> appointment_info)))
      else ret None
  | _ => ret None
  end.

(** The [finally] clause. *)
Definition close_page : M bot unit :=
  opened <- get page ;; if opened then act E ClosePage else ret tt.

(** The outcome of the check once its body has ended with [r] in [b]. *)
Definition finish (r : option dict) (b : bot) : outcome (option dict) * bot :=
  match close_page b with
  | (Ret _, b') => (Ret r, b')
  | (Raise e, b') => (Raise e, b')
  end.

(** The values appended to the dates while the inputs [elements] are read
    from the trace [t]: the non-empty values, in order, up to the first
    read that raises. *)
Fixpoint harvested (t : list op) (elements : list handle) : list string :=
  match elements with
  | [] => []
  | element :: rest =>
      let t' := t ++ [GetAttribute element "value"] in
      match text E t' with
      | inl _ => []
      | inr value =>
          match value with
          | Some v => if str_truthy v then [v] else []
          | None => []
          end ++ harvested t' rest
      end
  end.

(** The dates that extraction started from the trace [t] ends with. *)
Definition dates_read (t : list op) : list string :=
  let t' := t ++ [QuerySelectorAll date_radio] in
  match elements E t' with
  | inl _ => []
  | inr date_elements => harvested t' date_elements
  end.

End Sequencer.

(** The details that extraction builds: the four keys it starts from. *)
Definition details_shape (d : dict) : Prop :=
  (exists dates, d !! "dates" = Some (VList dates)) /\
  is_Some (d !! "office") /\
  (exists timestamp, d !! "timestamp" = Some (VStr timestamp)) /\
  is_Some (d !! "province").

(** The dictionary [d] is what extraction started from the trace [t]
    returns. *)
Definition extracted_at (E : Playwright.env) (t : list Playwright.op) (d : dict)
  : Prop :=
  d !! "dates" = Some (VList (dates_read E t)) /\
  is_Some (d !! "office") /\
  d !! "timestamp" = Some (VStr (Playwright.now E t)) /\
  d !! "province" = Some (VStr EmptyString).


(** A query for [selector] finds nothing, whenever it is made. *)
Definition missing (E : Playwright.env) (selector : string) : Prop :=
  forall t, Playwright.element E (t ++ [Playwright.QuerySelector selector]) = inr None.

(** Filling the field [selector] with [value] raises, whenever it is tried. *)
Definition unfillable (E : Playwright.env) (selector value : string) : Prop :=
  forall t, exists e,
    Playwright.action E (t ++ [Playwright.Fill selector value]) = Some e.

Section BrowserCycle.
Import Playwright.
Context (E : env) (check : string -> M bot (option dict)).

(** The round of one province in a cycle of the browser pipeline. *)
Definition browser_round (province : string) (b : bot) : bot :=
  let '(r, b1) := check province b in
  let b2 :=
    match r with
    | Ret (Some info) =>
        if dict_truthy info then (notify province info b1).2 else b1
    | _ => b1
    end in
  (sleep 2 b2).2.

Definition browser_rounds (provinces : list string) (b : bot) : bot :=
  fold_left (fun b province => browser_round province b) provinces b.

(** The bot once the cycle has made sure that a browser runs. *)
Definition started (b : bot) : bot :=
  if browser b then b else (initialize_browser E b).2.

End BrowserCycle.

(** ** The claims that fail as stated *)

(** The text of a page as its reader sees it: the source without its
    tags. *)
Fixpoint visible_text (inside : bool) (source : string) : string :=
  match source with
  | EmptyString => EmptyString
  | String c rest =>
      if inside then visible_text (negb (String.eqb (String c EmptyString) ">")) rest
      else if String.eqb (String c EmptyString) "<" then visible_text true rest
      else String c (visible_text false rest)
  end.

Definition rendered_text (source : string) : string := visible_text false source.

(** What a classification answered, if it returned, and the dates of its
    record. *)
Definition classified_as (r : outcome (bool * option dict) * Playwright.bot)
  : option bool :=
  match r.1 with
  | Ret (available, _) => Some available
  | Raise _ => None
  end.

Definition classified_dates (r : outcome (bool * option dict) * Playwright.bot)
  : option pyval :=
  match r.1 with
  | Ret (_, Some d) => d !! "dates"
  | _ => None
  end.

(** C2 as stated, for the browser classifier: a final page whose text holds
    one of the phrases is classified as not available, with no details. *)
Definition negative_text_claim : Prop :=
  forall (P : PyStr) (E : Playwright.env) (b : Playwright.bot)
         (content phrase : string),
    phrase ∈ Playwright.no_appointment_indicators ->
    contains (lower (rendered_text content)) (lower phrase) = true ->
    Playwright.page_content E
      (Playwright.trace b ++ [Playwright.WaitForLoadState 15000; Playwright.Content])
    = inr content ->
    exists b',
      Playwright.check_appointment_availability E b = (Ret (false, None), b').

(** C3 as stated: every check returns a complete record or [None]. *)
Definition record_or_none_claim : Prop :=
  (forall (P : PyStr) (E : Requests.env) (province : string) (b : Requests.bot),
     exists b',
       Requests.check_province_appointments E province b = (Ret None, b') \/
       exists d,
         Requests.check_province_appointments E province b = (Ret (Some d), b') /\
         complete_http_result province d) /\
  (forall (P : PyStr) (E : Playwright.env) (province : string) (b : Playwright.bot),
     exists b',
       Playwright.check_province_appointments E province b = (Ret None, b') \/
       exists d,
         Playwright.check_province_appointments E province b = (Ret (Some d), b') /\
         complete_browser_result province d).


(** *** A sample browser *)

Section BrowserSamples.
Import Playwright.

(** The label last chosen in the province select along a trace. *)
Fixpoint chosen_province (t : list op) (current : string) : string :=
  match t with
  | [] => current
  | SelectOption selector label :: rest =>
      chosen_province rest
        (if String.eqb selector ("select" +:+ attr_sel "name" "=" "provincia")
         then label else current)
  | _ :: rest => chosen_province rest current
  end.

Definition date_value (h : handle) : string :=
  match h with
  | 1%nat => "2024-05-01"
  | 2%nat => "2024-05-02"
  | 3%nat => "2024-05-03"
  | _ => EmptyString
  end.

(** A browser whose final page has the content [page_text] and the three
    date inputs 1, 2 and 3.  Everything waited or asked for is found and
    every operation works, except that the portal redirects the provinces
    in [redirected] away from the info page, reading an input in [broken]
    raises, and closing the page raises unless [closes]. *)
Definition sample_browser (page_text : string) (redirected : list string)
    (broken : list handle) (closes : bool) : env :=
  {| init_browser := fun _ => InitOk;
     action := fun t =>
       match last t with
       | Some ClosePage => if closes then None else Some OtherException
       | Some (WaitForUrl pattern _) =>
           if String.eqb pattern "**/acInfo" &&
              bool_decide (chosen_province t EmptyString ∈ redirected)
           then Some OtherException else None
       | _ => None
       end;
     element := fun _ => inr (Some 0%nat);
     elements := fun _ => inr [1; 2; 3]%nat;
     page_content := fun _ => inr page_text;
     text := fun t =>
       match last t with
       | Some (GetAttribute h _) =>
           if bool_decide (h ∈ broken) then inl OtherException
           else inr (Some (date_value h))
       | _ => inr (Some "Oficina de Extranjeria")
       end;
     now := fun _ => "2024-05-01T10:00:00";
     message := fun _ => "error" |}.

(** A bot that has not started its browser. *)
Definition fresh_browser : bot :=
  {| trace := []; browser := false; context := false; page := false;
     appointment_details := ∅ |}.

End BrowserSamples.


(** The dates of the record that a check ended with, if it returned one. *)
Definition result_dates (r : outcome (option dict) * Playwright.bot)
  : option pyval :=
  match r.1 with
  | Ret (Some d) => d !! "dates"
  | _ => None
  end.

(** ** Vocabulary of further properties of the retry policy *)

Section RetrySchedule.
Import Requests.
Context (E : env).
Context (method url : string) (data : option (gmap string string)).

(** The effects of the first [n] attempts of a call. *)
Definition schedule (n : Z) : list event :=
  flat_map (attempt_events method url data) (seqZ 1 n).

(** The answer to request number [n] (counted from 1) of a call made from
    [b] whose earlier attempts were all retried. *)
Definition nth_answer (b : bot) (n : Z) : exn + response :=
  session_request E (trace b ++ schedule n).

End RetrySchedule.

(** An attempt fails and is not a client error: the loop goes on after it
    when attempts are left. *)
Definition retryable (a : exn + Requests.response) : Prop :=
  exists f, failure_of a = Some f /\ f <> ClientError.

(** An attempt succeeds with the response [r] and the body [content]. *)
Definition succeeds (a : exn + Requests.response) (r : Requests.response)
    (content : Requests.html) : Prop :=
  a = inr r /\ Requests.status r < 400 /\ Requests.read r = inr content.

(** A portal that fails with [e] on its first [failures] requests and then
    answers with the status [code]: the number of requests is read off the
    trace. *)
Definition flaky (failures : nat) (e : exn) (code : Z) : Requests.env :=
  {| Requests.session_request := fun t =>
       if (requests t <=? failures)%nat then inl e
       else inr {| Requests.status := code; Requests.response_url := Requests.base_url;
                   Requests.read := inr empty_page |};
     Requests.now := fun _ => "2024-05-01T10:00:00";
     Requests.logger_handlers := fun _ => Requests.NoHandlers |}.

(** ** Vocabulary of further properties of the HTTP pipeline *)

(** Where the province selection is posted: the origin followed by the
    action when the action starts with a slash, the action itself when it
    is some other non-empty text, the start address when the form has no
    action or an empty one. *)
Definition submit_url (f : Requests.form) : string :=
  match Requests.form_attrs f !! "action" with
  | None => Requests.base_url
  | Some action =>
      if startswith action "/" then Requests.origin +:+ action
      else if str_truthy action then action
      else Requests.base_url
  end.

(** The address of the answer is that of the service-selection page. *)
Definition lands_on_service_page (url : string) : bool :=
  contains url "citar?p=4&locale=es".

(** The verdict of the HTTP pipeline on the answer to the province
    submission: appointments are reported when the answer is the
    service-selection page, holds no negative phrase and holds a positive
    one. *)
Definition reports_appointments {P : PyStr} (soup : Requests.html) (url : string)
  : bool :=
  lands_on_service_page url &&
  negb (Requests.any_indicator Requests.no_appointment_indicators
          (lower (Requests.get_text soup))) &&
  Requests.any_indicator Requests.appointment_indicators
    (lower (Requests.get_text soup)).

(** The results that a cycle notified, read off its effects. *)
Definition notified (t : list Requests.event) : list dict :=
  omap (fun e => match e with
                 | Requests.Notify _ info => Some info
                 | _ => None
                 end) t.

(** ** The notifier ([telegram_notifier.py]) *)

(** Truth value of a value of a result dictionary. *)
Definition truthy (v : pyval) : bool :=
  match v with
  | VStr s => str_truthy s
  | VBool b => b
  | VList l => match l with [] => false | _ => true end
  | VNone => false
  end.

(** The line feed of the message literals. *)
Definition nl : string := String (Ascii.ascii_of_nat 10) EmptyString.

Module Telegram.

(** *** Effects *)

(** [session.post(url, json=payload)] on a session of its own. *)
Inductive event :=
| Post (url : string) (payload : dict).

(** The Telegram API, the clock and the two conversions of the interpreter
    that the message formatting can reach on values that are not what the
    pipelines store: the characters of a [str] that is iterated, and the
    text of a value other than a [str] inside an f-string. *)
Record env := {
  session_post : list event -> exn + Z;   (* response.status, or what is raised *)
  strftime : list event -> string;        (* datetime.now().strftime(...) *)
  characters : string -> list string;     (* list(s) *)
  format_value : pyval -> string          (* format(v) *)
}.

(** [TelegramNotifier(bot_token, chat_id)] *)
Record notifier := {
  bot_token : string;
  chat_id : string
}.

Definition api_url (n : notifier) : string :=
  "https://api.telegram.org/bot" +:+ bot_token n.

Section Notifier.
Context (E : env) (self : notifier).

Definition post (url : string) (payload : dict) : M (list event) Z :=
  fun t =>
    let t' := t ++ [Post url payload] in
    match session_post E t' with
    | inl e => (Raise e, t')
    | inr status => (Ret status, t')
    end.

Definition clock : M (list event) string := fun t => (Ret (strftime E t), t).

Definition send_message (message : string) : M (list event) bool :=
  try_except
    (let url := api_url self +:+ "/sendMessage" in
     let payload : dict :=
       <["disable_web_page_preview" := VBool true]>
       (<["parse_mode" := VStr "HTML"]>
       (<["text" := VStr message]>
       (<["chat_id" := VStr (chat_id self)]> ∅))) in
     status <- post url payload ;;
     if status =? 200 then ret true else ret false)
    (fun e => ret false).

(** The items of [appointment_info['dates']] as the slice and the loop see
    them; slicing a [bool] raises [TypeError]. *)
Definition date_items (dates : pyval) : M (list event) (list string) :=
  match dates with
  | VList l => ret l
  | VStr s => ret (characters E s)
  | VBool _ => raise OtherException
  | VNone => raise OtherException
  end.

(** A value inside an f-string. *)
Definition formatted (v : pyval) : string :=
  match v with
  | VStr s => s
  | other => format_value E other
  end.

Definition date_line (date : string) : string :=
  "   • " +:+ date +:+ nl.

(** The loop over the first five dates. *)
Definition add_date_lines (message : string) (items : list string) : string :=
  fold_left (fun message date => message +:+ date_line date) (take 5 items)
            message.

Definition user_details : string :=
  "👤 <b>User Details:</b>" +:+ nl +:+
  "   • Name: ALAN DOUGLAS COHEN TELLO" +:+ nl +:+
  "   • Passport: 191484632" +:+ nl +:+
  "   • Email: alancohen7@gmail.com" +:+ nl +:+
  "   • Phone: 692959148" +:+ nl +:+ nl.

Definition visit_line : string :=
  nl +:+ "🔗 Visit: https://icp.administracionelectronica.gob.es/icpplus/acOpcDirect".

Definition format_appointment_message (province : string)
    (appointment_info : dict) : M (list event) string :=
  try_except
    (timestamp <- clock ;;
     let message :=
       "🚨 <b>ASYLUM APPOINTMENT AVAILABLE!</b> 🚨" +:+ nl +:+ nl in
     let message := message +:+ "📍 <b>Province:</b> " +:+ province +:+ nl in
     let message :=
       message +:+ "⏰ <b>Found at:</b> " +:+ timestamp +:+ nl +:+ nl in
     message <-
       match appointment_info !! "dates" with
       | Some dates =>
           if truthy dates then
             let message := message +:+ "📅 <b>Available dates:</b>" +:+ nl in
             items <- date_items dates ;;
             let message := add_date_lines message items in
             let message :=
               if (5 <? length items)%nat
               then message +:+ "   • ... and " +:+ pretty (length items - 5)%nat
                            +:+ " more" +:+ nl
               else message in
             ret (message +:+ nl)
           else ret message
       | None => ret message
       end ;;
     let message :=
       match appointment_info !! "office" with
       | Some office =>
           if truthy office
           then message +:+ "🏢 <b>Office:</b> " +:+ formatted office
                        +:+ nl +:+ nl
           else message
       | None => message
       end in
     let message := message +:+ user_details in
     let message :=
       match appointment_info !! "booking_attempted" with
       | Some attempted =>
           if truthy attempted
           then message +:+ "✅ <b>Auto-booking attempted!</b>" +:+ nl
           else message +:+ "⚠️ <b>Manual booking required</b>" +:+ nl
       | None => message +:+ "⚠️ <b>Manual booking required</b>" +:+ nl
       end in
     ret (message +:+ visit_line))
    (fun e =>
       timestamp <- clock ;;
       ret ("🚨 Appointment found in " +:+ province +:+ " at " +:+ timestamp)).

Definition send_appointment_notification (province : string)
    (appointment_info : dict) : M (list event) bool :=
  try_except
    (message <- format_appointment_message province appointment_info ;;
     send_message message)
    (fun e => ret false).

Definition send_error_notification (error_message : string)
  : M (list event) bool :=
  try_except
    (let message := "❌ <b>Asylum Bot Error</b>" +:+ nl +:+ nl in
     timestamp <- clock ;;
     let message := message +:+ "⏰ " +:+ timestamp +:+ nl in
     let message := message +:+ "💬 " +:+ error_message in
     send_message message)
    (fun e => ret false).

Definition send_status_update (status : string) : M (list event) bool :=
  try_except
    (let message := "ℹ️ <b>Asylum Bot Status</b>" +:+ nl +:+ nl in
     timestamp <- clock ;;
     let message := message +:+ "⏰ " +:+ timestamp +:+ nl in
     let message := message +:+ "📊 " +:+ status in
     send_message message)
    (fun e => ret false).

End Notifier.

End Telegram.

(** ** Vocabulary of the properties of the notifier *)

(** The head of an appointment message. *)
Definition message_head (province timestamp : string) : string :=
  "🚨 <b>ASYLUM APPOINTMENT AVAILABLE!</b> 🚨" +:+ nl +:+ nl +:+
  "📍 <b>Province:</b> " +:+ province +:+ nl +:+
  "⏰ <b>Found at:</b> " +:+ timestamp +:+ nl +:+ nl.

(** The line on the booking. *)
Definition booking_line (attempted : bool) : string :=
  if attempted then "✅ <b>Auto-booking attempted!</b>" +:+ nl
  else "⚠️ <b>Manual booking required</b>" +:+ nl.

(** The message for a result without dates, office and booking. *)
Definition plain_message (province timestamp : string) : string :=
  message_head province timestamp +:+ Telegram.user_details +:+
  booking_line false +:+ Telegram.visit_line.

(** The short message sent when formatting fails. *)
Definition fallback_message (province timestamp : string) : string :=
  "🚨 Appointment found in " +:+ province +:+ " at " +:+ timestamp.

(** The block of the dates [items]: five at most, then their number
    beyond five. *)
Definition dates_block (items : list string) : string :=
  "📅 <b>Available dates:</b>" +:+ nl +:+
  Telegram.add_date_lines EmptyString items +:+
  (if (5 <? length items)%nat
   then "   • ... and " +:+ pretty (length items - 5)%nat +:+ " more" +:+ nl
   else EmptyString) +:+
  nl.

(** The part of a message between its head and the user details. *)
Definition details_part (E : Telegram.env) (info : dict) : string :=
  match info !! "dates" with
  | Some (VList (date :: dates)) => dates_block (date :: dates)
  | Some (VStr (String c s)) => dates_block (Telegram.characters E (String c s))
  | _ => EmptyString
  end +:+
  match info !! "office" with
  | Some office =>
      if truthy office
      then "🏢 <b>Office:</b> " +:+ Telegram.formatted E office +:+ nl +:+ nl
      else EmptyString
  | None => EmptyString
  end.

(** The payload of a message. *)
Definition payload_of (self : Telegram.notifier) (message : string) : dict :=
  <["disable_web_page_preview" := VBool true]>
  (<["parse_mode" := VStr "HTML"]>
  (<["text" := VStr message]>
  (<["chat_id" := VStr (Telegram.chat_id self)]> ∅))).

(** The characters of a text made of ASCII characters only. *)
Fixpoint ascii_characters (s : string) : list string :=
  match s with
  | EmptyString => []
  | String c s' => String c EmptyString :: ascii_characters s'
  end.

(** A Telegram API that answers every message with the status [code]. *)
Definition telegram (code : Z) : Telegram.env :=
  {| Telegram.session_post := fun _ => inr code;
     Telegram.strftime := fun _ => "2024-05-01 10:00:00";
     Telegram.characters := ascii_characters;
     Telegram.format_value := fun _ => "?" |}.

Definition sample_notifier : Telegram.notifier :=
  {| Telegram.bot_token := "123:abc"; Telegram.chat_id := "42" |}.

(** ** Vocabulary of further properties of the browser pipeline *)

Section Scripts.
Import Playwright.
Context (E : env).

(** An operation raises when it is performed as the last one of the trace
    [t]: a wait for a selector asks for an element, every other operation
    of a step returns nothing. *)
Definition op_raises (o : op) (t : list op) : bool :=
  match o with
  | WaitForSelector _ _ =>
      match element E t with inl _ => true | inr _ => false end
  | _ =>
      match action E t with Some _ => true | None => false end
  end.

(** Operations performed in order up to the first one that raises: [True]
    when none raised. *)
Fixpoint perform (ops : list op) : M bot bool :=
  match ops with
  | [] => ret true
  | o :: rest =>
      fun b =>
        let b' := (emit o b).2 in
        if op_raises o (trace b') then (Ret false, b') else perform rest b'
  end.

(** The operations of the four steps. *)
Definition select_province_ops (province : string) : list op :=
  [ WaitForSelector ("select" +:+ attr_sel "name" "=" "provincia") 10000;
    SelectOption ("select" +:+ attr_sel "name" "=" "provincia") province;
    Click accept_button;
    WaitForUrl "**/citar?p=4&locale=es" 15000 ].

Definition select_service_type_ops : list op :=
  [ WaitForSelector ("input" +:+ attr_sel "type" "=" "radio") 10000;
    CheckFirst ("input" +:+ attr_sel "type" "=" "radio" +:+ attr_sel "value" "*=" "POLICIA");
    Click accept_button;
    WaitForSelector ("input" +:+ attr_sel "type" "=" "radio") 10000;
    CheckFirst ("input" +:+ attr_sel "type" "=" "radio" +:+ attr_sel "value" "*=" "ASILO");
    Click accept_button;
    WaitForUrl "**/acInfo" 15000 ].

Definition proceed_to_entry_form_ops : list op :=
  [ Click ("input" +:+ attr_sel "type" "=" "submit" +:+ attr_sel "value" "=" "Entrar");
    WaitForUrl "**/acEntrada" 15000 ].

Definition fill_user_data_ops : list op :=
  [ WaitForSelector ("select" +:+ attr_sel "name" "=" "rdbTipoDoc") 10000;
    SelectOption ("select" +:+ attr_sel "name" "=" "rdbTipoDoc") "Pasaporte";
    Fill ("input" +:+ attr_sel "name" "=" "txtIdCitado") "191484632";
    Fill ("input" +:+ attr_sel "name" "=" "txtDesCitado") "ALAN DOUGLAS COHEN TELLO";
    Fill ("input" +:+ attr_sel "name" "=" "txtAnnoCitado") "1986";
    SelectOption ("select" +:+ attr_sel "name" "=" "txtPaisNac") "Venezuela";
    Click accept_button;
    WaitForLoadState 15000 ].

(** The four steps of a check, each with its operations. *)
Definition pipeline_steps (province : string) : list (M bot bool * list op) :=
  [ (select_province E province, select_province_ops province);
    (select_service_type E, select_service_type_ops);
    (proceed_to_entry_form E, proceed_to_entry_form_ops);
    (fill_user_data E, fill_user_data_ops) ].

(** The bot after the operations [ops]. *)
Definition performed (b : bot) (ops : list op) : bot :=
  {| trace := trace b ++ ops; browser := browser b; context := context b;
     page := page b; appointment_details := appointment_details b |}.

(** The operations on the life of the browser and of the page. *)
Definition lifecycle (o : op) : bool :=
  match o with
  | InitBrowser | NewPage | ClosePage => true
  | _ => false
  end.





(** A computation works on the page: what it appends to the trace is no
    lifecycle operation, and it leaves [self.browser], [self.context] and
    the local variable [page] alone. *)
Definition page_work {A} (m : M bot A) : Prop :=
  forall b, exists ops,
    Forall (fun o => lifecycle o = false) ops /\
    trace (m b).2 = trace b ++ ops /\
    browser (m b).2 = browser b /\
    context (m b).2 = context b /\
    page (m b).2 = page b.

(** The operations of a check whose work on the page is [body]: the
    browser is launched when the bot has no context, the page is opened
    when there is a context then, and it is closed, last of all, when it
    was opened. *)
Definition page_lifecycle (b : bot) (body : list op) : list op :=
  let launch := if context b then [] else [InitBrowser] in
  let ready :=
    context b ||
    match init_browser E (trace b ++ [InitBrowser]) with
    | InitOk => true
    | _ => false
    end in
  if ready then
    match action E (trace b ++ launch ++ [NewPage]) with
    | Some _ => launch ++ [NewPage]
    | None => launch ++ NewPage :: body ++ [ClosePage]
    end
  else launch.

(** The waits for the calendar selectors, in order. *)
Definition probes (selectors : list string) : list op :=
  (fun selector => WaitForSelector selector 5000) <$> selectors.

(** Probe number [k] (from 0) of [selectors], made after the probes before
    it from the trace [t], finds an element. *)
Definition probe_finds (t : list op) (selectors : list string) (k : nat) : Prop :=
  exists found, element E (t ++ take (S k) (probes selectors)) = inr (Some found).

(** Probe number [k] is the first that finds an element. *)
Definition first_found (t : list op) (selectors : list string) (k : nat) : Prop :=
  (k < length selectors)%nat /\
  probe_finds t selectors k /\
  forall j, (j < k)%nat -> ~ probe_finds t selectors j.

(** The page settles and its content is read. *)
Definition page_read (b : bot) (content : string) : Prop :=
  action E (trace b ++ [WaitForLoadState 15000]) = None /\
  page_content E (trace b ++ [WaitForLoadState 15000; Content]) = inr content.

(** The operations of a booking that goes through. *)
Definition booking_ops (first continue submit : handle) : list op :=
  [ QuerySelector (date_radio +:+ ":first-of-type");
    CheckElement first;
    QuerySelector (submit_with "Siguiente" "Continuar");
    ClickElement continue;
    WaitForLoadState 10000;
    Fill email_field "alancohen7@gmail.com";
    Fill phone_field "692959148";
    QuerySelector (submit_with "Enviar" "Confirmar");
    ClickElement submit ].

(** Every operation of the booking works from the trace [t]: the three
    queries find [first], [continue] and [submit], and nothing raises. *)
Definition booking_goes_through (t : list op) (first continue submit : handle)
  : Prop :=
  let ops := booking_ops first continue submit in
  element E (t ++ take 1 ops) = inr (Some first) /\
  action E (t ++ take 2 ops) = None /\
  element E (t ++ take 3 ops) = inr (Some continue) /\
  action E (t ++ take 4 ops) = None /\
  action E (t ++ take 5 ops) = None /\
  action E (t ++ take 6 ops) = None /\
  action E (t ++ take 7 ops) = None /\
  element E (t ++ take 8 ops) = inr (Some submit) /\
  action E (t ++ ops) = None.

End Scripts.

(** A machine on which no browser can be launched. *)
Definition stalled_browser : Playwright.env :=
  {| Playwright.init_browser := fun _ => Playwright.LaunchFailed;
     Playwright.action := fun _ => None;
     Playwright.element := fun _ => inr None;
     Playwright.elements := fun _ => inr [];
     Playwright.page_content := fun _ => inr EmptyString;
     Playwright.text := fun _ => inr None;
     Playwright.now := fun _ => EmptyString;
     Playwright.message := fun _ => EmptyString |}.

(** * Properties *)

(** ** The retry policy *)

Section RetryFacts.
Import Requests.
Context (E : env).
Context (method url : string) (data : option (gmap string string)).

Lemma after_nil b : after b [] = b.
Proof. destruct b; unfold after; simpl. by rewrite app_nil_r. Qed.

Lemma after_after b evs evs' : after (after b evs) evs' = after b (evs ++ evs').
Proof. unfold after; simpl. by rewrite app_assoc. Qed.

Lemma attempt_request_eq max_retries attempt b :
  0 <= attempt ->
  attempt_request E method url data max_retries attempt b =
  (Ret (verdict max_retries attempt (answer E method url data b attempt)),
   after b (attempt_events method url data (attempt + 1))).
Proof.
  intros Hattempt.
  unfold attempt_request, answer, attempt_events, verdict, backoff_delay.
  replace (attempt + 1 - 1) with attempt by lia.
  cbv [try_except bind request sleep emit ret raise response_read after].
  destruct (Z.ltb_spec 0 attempt) as [Hpos | Hzero].
  - replace (attempt + 1 =? 1) with false by lia. simpl.
    rewrite <- !app_assoc. simpl.
    destruct (session_request E _) as [e | r]; simpl.
    + by destruct e, (attempt =? max_retries - 1).
    + destruct (500 <=? status r); [by destruct (attempt =? max_retries - 1) |].
      destruct (400 <=? status r); [done |].
      destruct (read r) as [e | content]; simpl; [| done].
      by destruct e, (attempt =? max_retries - 1).
  - replace (attempt + 1 =? 1) with true by lia. simpl.
    destruct (session_request E _) as [e | r]; simpl.
    + by destruct e, (attempt =? max_retries - 1).
    + destruct (500 <=? status r); [by destruct (attempt =? max_retries - 1) |].
      destruct (400 <=? status r); [done |].
      destruct (read r) as [e | content]; simpl; [| done].
      by destruct e, (attempt =? max_retries - 1).
Qed.


Lemma retry_loop_cons max_retries attempt rest b :
  0 <= attempt ->
  retry_loop E method url data max_retries (attempt :: rest) b =
  match verdict max_retries attempt (answer E method url data b attempt) with
  | Return v => (Ret v, after b (attempt_events method url data (attempt + 1)))
  | Continue =>
      retry_loop E method url data max_retries rest
        (after b (attempt_events method url data (attempt + 1)))
  end.
Proof.
  intros Hattempt. simpl. unfold bind at 1.
  rewrite attempt_request_eq by done.
  by destruct (verdict _ _ _).
Qed.

Lemma requests_app t t' : requests (t ++ t') = (requests t + requests t')%nat.
Proof. unfold requests. by rewrite filter_app, length_app. Qed.

Lemma requests_attempt_events n : requests (attempt_events method url data n) = 1%nat.
Proof. unfold attempt_events. by destruct (n =? 1). Qed.

Lemma delays_app t t' : delays (t ++ t') = delays t ++ delays t'.
Proof. unfold delays. apply omap_app. Qed.

Lemma backoff_delay_cap n : 4 <= n -> backoff_delay n = 6.
Proof.
  intros Hn. unfold backoff_delay.
  assert (2 ^ 3 <= 2 ^ (n - 1)) by (apply Z.pow_le_mono_r; lia).
  change (2 ^ 3) with 8 in *. lia.
Qed.

(** On a portal that only answers with server errors, the loop over the
    attempts [k, k+1, ..., k+n-1] whose last one is the last allowed runs to
    its end. *)
Lemma retry_loop_server_errors (n : nat) : forall k b,
  0 <= k ->
  (forall t, exists r, session_request E t = inr r /\ 500 <= status r) ->
  retry_loop E method url data (k + Z.of_nat n) (seqZ k (Z.of_nat n)) b =
  (Ret None, after b (flat_map (attempt_events method url data) (seqZ (k + 1) (Z.of_nat n)))).
Proof.
  induction n as [| n IH]; intros k b Hk Hsrv.
  - simpl. by rewrite after_nil.
  - rewrite (seqZ_cons k (Z.of_nat (S n))), (seqZ_cons (k + 1) (Z.of_nat (S n))) by lia.
    rewrite retry_loop_cons by done.
    unfold verdict, answer.
    destruct (Hsrv (trace b ++ attempt_events method url data (k + 1)))
      as (r & -> & Hr).
    replace (500 <=? status r) with true by lia.
    replace (Z.pred (Z.of_nat (S n))) with (Z.of_nat n) by lia.
    destruct (Z.eqb_spec k (k + Z.of_nat (S n) - 1)) as [Hlast | Hmore].
    + assert (n = 0%nat) as -> by lia. simpl. by rewrite app_nil_r.
    + replace (k + Z.of_nat (S n)) with (Z.succ k + Z.of_nat n) by lia.
      rewrite IH by (done || lia).
      rewrite after_after. simpl flat_map.
      by replace (Z.succ k + 1) with (Z.succ (k + 1)) by lia.
Qed.


Lemma range_nonneg m : Forall (fun attempt => 0 <= attempt) (range m).
Proof.
  apply Forall_forall. intros attempt Hin.
  apply elem_of_seqZ in Hin. lia.
Qed.

Lemma range_cons m : 1 <= m -> range m = 0 :: seqZ 1 (m - 1).
Proof.
  intros Hm. unfold range. rewrite seqZ_cons by lia.
  by replace (Z.pred m) with (m - 1) by lia.
Qed.

(** A client error ends the loop at the attempt that met it, whatever
    attempts remain. *)
Lemma client_error_ends_loop max_retries attempt rest b r :
  0 <= attempt ->
  answer E method url data b attempt = inr r ->
  400 <= status r < 500 ->
  retry_loop E method url data max_retries (attempt :: rest) b =
  (Ret None, after b (attempt_events method url data (attempt + 1))).
Proof.
  intros Hattempt Hanswer Hstatus.
  rewrite retry_loop_cons by done. rewrite Hanswer. unfold verdict.
  replace (500 <=? status r) with false by lia.
  by replace (400 <=? status r) with true by lia.
Qed.

(** The loop never raises, and a result other than [None] carries a status
    below 400. *)
Lemma retry_loop_total max_retries attempts : forall b,
  Forall (fun attempt => 0 <= attempt) attempts ->
  exists result b',
    retry_loop E method url data max_retries attempts b = (Ret result, b') /\
    match result with
    | None => True
    | Some (_, _, code) => code < 400
    end.
Proof.
  induction attempts as [| attempt rest IH]; intros b Hnonneg.
  - by exists None, b.
  - apply Forall_cons in Hnonneg as [Hattempt Hrest].
    rewrite retry_loop_cons by done.
    unfold verdict.
    destruct (answer E method url data b attempt) as [e | r].
    + destruct (attempt =? max_retries - 1); [by eexists None, _ | by apply IH].
    + destruct (Z.leb_spec 500 (status r)).
      { destruct (attempt =? max_retries - 1); [by eexists None, _ | by apply IH]. }
      destruct (Z.leb_spec 400 (status r)); [by eexists None, _ |].
      destruct (read r) as [e | content].
      * destruct (attempt =? max_retries - 1); [by eexists None, _ | by apply IH].
      * by eexists (Some (content, response_url r, status r)), _.
Qed.

(** The loop only adds to the trace. *)
Lemma retry_loop_requests max_retries attempts : forall b,
  Forall (fun attempt => 0 <= attempt) attempts ->
  (requests (trace b) <=
   requests (trace (retry_loop E method url data max_retries attempts b).2))%nat.
Proof.
  induction attempts as [| attempt rest IH]; intros b Hnonneg; [done |].
  apply Forall_cons in Hnonneg as [Hattempt Hrest].
  rewrite retry_loop_cons by done.
  destruct (verdict _ _ _); simpl.
  - etrans; [| by apply IH]. simpl. rewrite requests_app. lia.
  - rewrite requests_app. lia.
Qed.

Lemma requests_schedule (n : nat) : forall k,
  requests (flat_map (attempt_events method url data) (seqZ k (Z.of_nat n))) = n.
Proof.
  induction n as [| n IH]; intros k; [done |].
  rewrite seqZ_cons by lia. simpl flat_map.
  rewrite requests_app, requests_attempt_events.
  replace (Z.pred (Z.of_nat (S n))) with (Z.of_nat n) by lia.
  by rewrite IH.
Qed.

Lemma delays_schedule (n : nat) : forall k,
  1 < k ->
  delays (flat_map (attempt_events method url data) (seqZ k (Z.of_nat n))) =
  backoff_delay <$> seqZ k (Z.of_nat n).
Proof.
  induction n as [| n IH]; intros k Hk; [done |].
  rewrite seqZ_cons by lia.
  replace (Z.pred (Z.of_nat (S n))) with (Z.of_nat n) by lia.
  simpl flat_map. rewrite fmap_cons. unfold attempt_events at 1.
  replace (k =? 1) with false by lia. simpl.
  f_equal. apply IH. lia.
Qed.

(** After a failed attempt that is not the last one the loop goes on,
    unless the failure is a client error. *)
Lemma verdict_of_failure max_retries attempt a f :
  attempt <> max_retries - 1 ->
  failure_of a = Some f ->
  verdict max_retries attempt a =
  match f with ClientError => Return None | _ => Continue end.
Proof.
  intros Hmore Hfail. unfold verdict, failure_of in *.
  replace (attempt =? max_retries - 1) with false by lia.
  destruct a as [e | r].
  - injection Hfail as <-. by destruct e.
  - destruct (500 <=? status r); [by injection Hfail as <- |].
    destruct (400 <=? status r); [by injection Hfail as <- |].
    destruct (read r) as [e | content]; [| done].
    injection Hfail as <-. by destruct e.
Qed.

Lemma retry_loop_second_request max_retries attempt next rest b :
  0 <= attempt -> 0 <= next ->
  Forall (fun attempt => 0 <= attempt) rest ->
  verdict max_retries attempt (answer E method url data b attempt) = Continue ->
  (requests (trace b) + 2 <=
   requests (trace (retry_loop E method url data max_retries
                      (attempt :: next :: rest) b).2))%nat.
Proof.
  intros Hattempt Hnext Hrest Hgo.
  rewrite retry_loop_cons, Hgo by done.
  rewrite retry_loop_cons by done.
  destruct (verdict max_retries next _); simpl.
  - etrans; [| by apply retry_loop_requests].
    simpl. rewrite !requests_app, !requests_attempt_events. lia.
  - rewrite !requests_app, !requests_attempt_events. lia.
Qed.

(** The loop adds only its own requests and pauses to the trace. *)
Lemma retry_loop_trace max_retries attempts : forall b,
  Forall (fun attempt => 0 <= attempt) attempts ->
  exists evs,
    trace (retry_loop E method url data max_retries attempts b).2 = trace b ++ evs /\
    Forall (fun e => e = Request method url data \/ exists d, e = Sleep d) evs.
Proof.
  induction attempts as [| attempt rest IH]; intros b Hnonneg.
  - exists []. simpl. by rewrite app_nil_r.
  - apply Forall_cons in Hnonneg as [Hattempt Hrest].
    assert (Forall (fun e => e = Request method url data \/ exists d, e = Sleep d)
                   (attempt_events method url data (attempt + 1))) as Hevents.
    { unfold attempt_events. destruct (_ =? 1).
      - apply Forall_cons; split; [by left | done].
      - apply Forall_cons; split; [right; by eexists |].
        apply Forall_cons; split; [by left | done]. }
    rewrite retry_loop_cons by done.
    destruct (verdict _ _ _).
    + destruct (IH (after b (attempt_events method url data (attempt + 1))) Hrest)
        as (evs & -> & Hevs).
      exists (attempt_events method url data (attempt + 1) ++ evs).
      simpl. rewrite app_assoc. split; [done |]. by apply Forall_app.
    + by exists (attempt_events method url data (attempt + 1)).
Qed.

End RetryFacts.

(** C1.  When every response has a status of 500 or more, a call with
    [max_retries = m] sends exactly [m] requests, the first at once and
    request [n >= 2] right after a pause of [min (2^(n-1)) 6] seconds (2s
    and 4s before the second and third, 6s before any later one), and then
    returns [None]. *)
Theorem server_errors_exhaust_retries
    (E : Requests.env) (method url : string)
    (data : option (gmap string string)) (m : Z) (b : Requests.bot) :
  0 <= m ->
  (forall t, exists r,
      Requests.session_request E t = inr r /\ 500 <= Requests.status r) ->
  let evs := flat_map (attempt_events method url data) (seqZ 1 m) in
  Requests._make_request_with_retry E method url m data b = (Ret None, after b evs) /\
  requests evs = Z.to_nat m /\
  delays evs = (fun n => Z.min (2 ^ (n - 1)) 6) <$> seqZ 2 (m - 1) /\
  backoff_delay 2 = 2 /\ backoff_delay 3 = 4 /\
  (forall n, 4 <= n -> backoff_delay n = 6).
Proof.
  intros Hm Hsrv evs. split; [| split; [| split]].
  - unfold Requests._make_request_with_retry, range.
    pose proof (retry_loop_server_errors E method url data (Z.to_nat m) 0 b) as Hloop.
    rewrite Z2Nat.id in Hloop by done. by apply Hloop.
  - subst evs. rewrite <- (Z2Nat.id m) at 1 by done.
    by rewrite requests_schedule.
  - subst evs. destruct (Z.eq_dec m 0) as [-> | Hpos]; [done |].
    rewrite seqZ_cons by lia. simpl flat_map.
    change (delays (Requests.Request method url data :: ?l)) with (delays l).
    replace (Z.pred m) with (Z.of_nat (Z.to_nat (m - 1))) by lia.
    rewrite (delays_schedule method url data _ (Z.succ 1)) by lia.
    by replace (Z.of_nat (Z.to_nat (m - 1))) with (m - 1) by lia.
  - split; [done | split; [done |]]. apply backoff_delay_cap.
Qed.

Lemma server_errors_exhaust_retries_witness :
  let evs := flat_map (attempt_events "GET" Requests.base_url None) (seqZ 1 3) in
  Requests._make_request_with_retry (answering 503) "GET" Requests.base_url 3 None fresh
  = (Ret None, after fresh evs) /\
  requests evs = Z.to_nat 3 /\
  delays evs = (fun n => Z.min (2 ^ (n - 1)) 6) <$> seqZ 2 (3 - 1) /\
  backoff_delay 2 = 2 /\ backoff_delay 3 = 4 /\
  (forall n, 4 <= n -> backoff_delay n = 6).
Proof.
  apply (server_errors_exhaust_retries (answering 503) "GET" Requests.base_url None 3 fresh).
  - lia.
  - intros t. eexists. split; [reflexivity | simpl; lia].
Defined.

(** C4.  When the first response has a status in [400, 500), a call that
    is allowed at least one attempt sends that one request, without any
    pause, and returns [None], whatever number of attempts it was
    allowed. *)
Theorem client_error_single_attempt
    (E : Requests.env) (method url : string)
    (data : option (gmap string string)) (m : Z) (b : Requests.bot)
    (r : Requests.response) :
  1 <= m ->
  Requests.session_request E (Requests.trace b ++ [Requests.Request method url data]) = inr r ->
  400 <= Requests.status r < 500 ->
  Requests._make_request_with_retry E method url m data b =
  (Ret None, after b [Requests.Request method url data]).
Proof.
  intros Hm Hanswer Hstatus.
  unfold Requests._make_request_with_retry. rewrite range_cons by done.
  by apply (client_error_ends_loop E method url data m 0 _ b r).
Qed.

Lemma client_error_single_attempt_witness :
  Requests._make_request_with_retry (answering 404) "GET" Requests.base_url 3 None fresh =
  (Ret None, after fresh [Requests.Request "GET" Requests.base_url None]).
Proof.
  eapply (client_error_single_attempt (answering 404) "GET" Requests.base_url None 3 fresh).
  - lia.
  - reflexivity.
  - simpl. lia.
Defined.

(** C10.  A call never raises; it returns [None] or a triple whose status
    is below 400. *)
Theorem retry_result_below_400
    (E : Requests.env) (method url : string) (m : Z)
    (data : option (gmap string string)) (b : Requests.bot) :
  exists result b',
    Requests._make_request_with_retry E method url m data b = (Ret result, b') /\
    match result with
    | None => True
    | Some (_, _, code) => code < 400
    end.
Proof.
  unfold Requests._make_request_with_retry.
  apply retry_loop_total, range_nonneg.
Qed.

(** C5, as stated, fails: an exception that is neither a connection
    failure nor a timeout is retried like them. *)
Lemma unexpected_error_is_retried : ~ only_transient_failures_retried.
Proof.
  intros Hclaim.
  specialize (Hclaim (failing OtherException) "GET" Requests.base_url 2 None
                     fresh Unexpected eq_refl).
  assert (retried (failing OtherException) "GET" Requests.base_url 2 None fresh)
    as Hretried by (unfold retried; vm_compute; lia).
  specialize (Hclaim Hretried). discriminate.
Qed.

(** C5, amended.  When more than one attempt is allowed, a failed first
    attempt is retried exactly when its failure is not a client error
    status: connection failures, timeouts, server error statuses and every
    other exception raised by the attempt are retried alike. *)
Theorem retried_unless_client_error
    (E : Requests.env) (method url : string) (m : Z)
    (data : option (gmap string string)) (b : Requests.bot) (f : failure) :
  2 <= m ->
  failure_of (answer E method url data b 0) = Some f ->
  retried E method url m data b <-> f <> ClientError.
Proof.
  intros Hm Hfail. unfold retried, Requests._make_request_with_retry.
  rewrite range_cons by lia.
  rewrite (seqZ_cons 1 (m - 1)) by lia.
  pose proof (verdict_of_failure m 0 _ f ltac:(lia) Hfail) as Hverdict.
  split.
  - intros Hretried ->.
    rewrite retry_loop_cons, Hverdict in Hretried by done. simpl in Hretried.
    rewrite requests_app, requests_attempt_events in Hretried. lia.
  - intros Hkind.
    pose proof (retry_loop_second_request E method url data m 0 1
                  (seqZ (Z.succ 1) (Z.pred (m - 1))) b) as Hsecond.
    assert (Forall (fun attempt => 0 <= attempt) (seqZ (Z.succ 1) (Z.pred (m - 1))))
      as Hrest.
    { apply Forall_forall. intros attempt Hin. apply elem_of_seqZ in Hin. lia. }
    specialize (Hsecond ltac:(lia) ltac:(lia) Hrest).
    rewrite Hverdict in Hsecond.
    specialize (Hsecond ltac:(by destruct f)). lia.
Qed.

Lemma retried_unless_client_error_witness :
  retried (failing ServerTimeoutError) "GET" Requests.base_url 3 None fresh
  <-> Timeout <> ClientError.
Proof.
  apply (retried_unless_client_error (failing ServerTimeoutError) "GET"
           Requests.base_url 3 None fresh Timeout).
  - lia.
  - reflexivity.
Defined.

(** ** The form extractor *)

Section FormFacts.
Import Requests.
Context {P : PyStr}.

Lemma resolve_label_none province options :
  (forall o, o ∈ options -> strip (option_text o) <> province) ->
  resolve_label province options = None.
Proof.
  induction options as [| o rest IH]; intros Hnone; [done |].
  simpl. destruct (String.eqb_spec (strip (option_text o)) province) as [Heq | _].
  - exfalso. by apply (Hnone o); [left |].
  - apply IH. intros o' Hin. apply Hnone. by right.
Qed.

(** A field leaves the entries of the other names alone. *)
Lemma collect_field_other province form_data t name :
  tag_attrs t !! "name" <> Some name ->
  collect_field province form_data t !! name = form_data !! name.
Proof.
  intros Hname. unfold collect_field.
  destruct (tag_attrs t !! "name") as [n |]; [| done].
  assert (n <> name) by congruence.
  destruct (str_truthy n); [| done].
  destruct (_ && _).
  - destruct (resolve_label _ _); [by rewrite lookup_insert_ne | done].
  - destruct (attr_is _ "type" "hidden"); [by rewrite lookup_insert_ne |].
    destruct (attr_is _ "type" "submit"); [done | by rewrite lookup_insert_ne].
Qed.

Lemma collect_fields_other province fields name : forall form_data,
  (forall t, t ∈ fields -> tag_attrs t !! "name" <> Some name) ->
  fold_left (collect_field province) fields form_data !! name = form_data !! name.
Proof.
  induction fields as [| t rest IH]; intros form_data Hnames; [done |].
  simpl. rewrite IH by (intros t' Hin; apply Hnames; by right).
  apply collect_field_other, Hnames. by left.
Qed.

Lemma attr_is_eq attributes attr v :
  attr_is attributes attr v = true -> attributes !! attr = Some v.
Proof.
  unfold attr_is. destruct (attributes !! attr) as [x |]; [| done].
  by intros ->%String.eqb_eq.
Qed.

(** A submit-type input adds nothing. *)
Lemma collect_field_submit province form_data t :
  submit_input t -> collect_field province form_data t = form_data.
Proof.
  intros [Hinput Hsubmit]. unfold collect_field.
  destruct (tag_attrs t !! "name") as [n |]; [| done].
  destruct (str_truthy n); [| done].
  rewrite Hinput. simpl.
  apply attr_is_eq in Hsubmit. unfold attr_is. by rewrite Hsubmit.
Qed.

(** A named hidden input writes its value under its name. *)
Lemma collect_field_hidden province form_data t name :
  hidden_input t -> tag_attrs t !! "name" = Some name -> name <> EmptyString ->
  collect_field province form_data t !! name
  = Some (attr_or_empty (tag_attrs t) "value").
Proof.
  intros [Hinput Hhidden] Hname Hnonempty. unfold collect_field.
  rewrite Hname, Hinput, Hhidden. simpl.
  destruct name; [done |]. simpl. apply lookup_insert_eq.
Qed.

(** A named input whose type is not [submit], written exactly so, writes
    its value under its name. *)
Lemma collect_field_input province form_data t name :
  tag_name t = "input" -> attr_is (tag_attrs t) "type" "submit" = false ->
  tag_attrs t !! "name" = Some name -> name <> EmptyString ->
  collect_field province form_data t !! name
  = Some (attr_or_empty (tag_attrs t) "value").
Proof.
  intros Hinput Hsubmit Hname Hnonempty. unfold collect_field.
  rewrite Hname, Hinput, Hsubmit. simpl.
  destruct name; [done |]. simpl.
  destruct (attr_is _ "type" "hidden"); apply lookup_insert_eq.
Qed.

(** A field that is not named [provincia], or is a province select none of
    whose options matches, leaves [provincia] out of the mapping. *)
Lemma collect_field_no_provincia province form_data t :
  (tag_attrs t !! "name" = Some "provincia" -> tag_name t = "select") ->
  (province_select t ->
   forall o, o ∈ tag_options t -> strip (option_text o) <> province) ->
  form_data !! "provincia" = None ->
  collect_field province form_data t !! "provincia" = None.
Proof.
  intros Hselect Hnone Habsent.
  destruct (decide (tag_attrs t !! "name" = Some "provincia")) as [Hname | Hname].
  - unfold collect_field. rewrite Hname, (Hselect Hname). simpl.
    rewrite resolve_label_none; [done |].
    apply Hnone. split; [by apply Hselect | done].
  - by rewrite collect_field_other.
Qed.

Lemma collect_fields_submit_only province fields name : forall form_data,
  (forall t, t ∈ fields -> tag_attrs t !! "name" = Some name -> submit_input t) ->
  fold_left (collect_field province) fields form_data !! name = form_data !! name.
Proof.
  induction fields as [| t rest IH]; intros form_data Hsubmit; [done |].
  simpl. rewrite IH by (intros t' Hin; apply Hsubmit; by right).
  destruct (decide (tag_attrs t !! "name" = Some name)) as [Hname | Hname].
  - rewrite collect_field_submit; [done |]. apply Hsubmit; [by left | done].
  - by apply collect_field_other.
Qed.

Lemma collect_fields_no_provincia province fields : forall form_data,
  (forall t, t ∈ fields ->
     tag_attrs t !! "name" = Some "provincia" -> tag_name t = "select") ->
  (forall t o, t ∈ fields -> province_select t -> o ∈ tag_options t ->
     strip (option_text o) <> province) ->
  form_data !! "provincia" = None ->
  fold_left (collect_field province) fields form_data !! "provincia" = None.
Proof.
  induction fields as [| t rest IH]; intros form_data Hselect Hnone Habsent; [done |].
  simpl. apply IH.
  - intros t' Hin. apply Hselect. by right.
  - intros t' o Hin. apply Hnone. by right.
  - apply collect_field_no_provincia; [| | done].
    + apply Hselect. by left.
    + intros Hsel o. apply Hnone; [by left | done].
Qed.

End FormFacts.

(** C9, as stated, fails on a form with a hidden input without a name and
    a hidden input whose name a later text input carries too: the mapping
    holds the value of the text input.  It also fails on a submit input
    that spells its type in capitals: the code compares the type with
    [submit] as it is written, and the input is in the mapping. *)
Lemma hidden_lost_and_submit_kept :
  Requests.collect_form_data (P := ascii_str) "Almeria" odd_form !! "token" = Some "2" /\
  submit_type (P := ascii_str) (input "SUBMIT" "btnAceptar" "Aceptar") /\
  Requests.collect_form_data (P := ascii_str) "Almeria" shouting_form !! "btnAceptar"
  = Some "Aceptar" /\
  ~ form_extraction_claim.
Proof.
  split; [by vm_compute |].
  split; [split; [done | by exists "SUBMIT"] |].
  split; [by vm_compute |].
  intros Hclaim.
  destruct (Hclaim ascii_str "Almeria" odd_form) as (_ & Hhidden & _).
  destruct (Hhidden (input "hidden" "token" "1")) as (name & Hname & Hvalue).
  - unfold odd_form; simpl. set_solver.
  - by split.
  - vm_compute in Hname. injection Hname as <-.
    vm_compute in Hvalue. discriminate.
Qed.

(** C9, amended.  The action of the form is prefixed with the origin when
    it starts with a slash.  A hidden input with a non-empty name that no
    later field of the form carries is in the mapping under that name with
    its prefilled value; so is, more generally, every such input whose
    type is not [submit] written exactly so, whatever the spelling of its
    type.  An input whose type is [submit], written exactly so, adds
    nothing to the mapping, so a name that only such inputs carry is not in
    it. *)
Theorem form_extraction (P : PyStr) (province : string) (f : Requests.form) :
  (startswith (Requests.attr_or_empty (Requests.form_attrs f) "action") "/" = true ->
   Requests.form_action f
   = Requests.origin +:+ Requests.attr_or_empty (Requests.form_attrs f) "action") /\
  (forall pre t post name,
     Requests.form_fields f = pre ++ t :: post ->
     hidden_input t ->
     Requests.tag_attrs t !! "name" = Some name -> name <> EmptyString ->
     (forall t', t' ∈ post -> Requests.tag_attrs t' !! "name" <> Some name) ->
     Requests.collect_form_data province f !! name
     = Some (Requests.attr_or_empty (Requests.tag_attrs t) "value")) /\
  (forall pre t post name,
     Requests.form_fields f = pre ++ t :: post ->
     Requests.tag_name t = "input" ->
     Requests.attr_is (Requests.tag_attrs t) "type" "submit" = false ->
     Requests.tag_attrs t !! "name" = Some name -> name <> EmptyString ->
     (forall t', t' ∈ post -> Requests.tag_attrs t' !! "name" <> Some name) ->
     Requests.collect_form_data province f !! name
     = Some (Requests.attr_or_empty (Requests.tag_attrs t) "value")) /\
  (forall t form_data,
     submit_input t -> Requests.collect_field province form_data t = form_data) /\
  (forall name,
     (forall t, t ∈ Requests.form_fields f ->
        Requests.tag_attrs t !! "name" = Some name -> submit_input t) ->
     Requests.collect_form_data province f !! name = None).
Proof.
  split; [| split; [| split; [| split]]].
  - intros Hslash. unfold Requests.form_action. by rewrite Hslash.
  - intros pre t post name Hfields Hhidden Hname Hnonempty Hlater.
    unfold Requests.collect_form_data. rewrite Hfields, fold_left_app. simpl.
    rewrite collect_fields_other by done.
    by apply collect_field_hidden.
  - intros pre t post name Hfields Hinput Hsubmit Hname Hnonempty Hlater.
    unfold Requests.collect_form_data. rewrite Hfields, fold_left_app. simpl.
    rewrite collect_fields_other by done.
    by apply collect_field_input.
  - intros t form_data. apply collect_field_submit.
  - intros name Hsubmit. unfold Requests.collect_form_data.
    by rewrite collect_fields_submit_only.
Qed.

Lemma form_extraction_witness :
  Requests.form_action portal_form
  = Requests.origin +:+ "/icpplus/citar?p=4&locale=es" /\
  Requests.collect_form_data (P := ascii_str) "Almeria" portal_form !! "token"
  = Some "abc" /\
  Requests.collect_form_data (P := ascii_str) "Almeria" portal_form !! "btnAceptar"
  = None.
Proof.
  destruct (form_extraction ascii_str "Almeria" portal_form)
    as (Haction & Hhidden & _ & _ & Hsubmit).
  split; [| split].
  - apply Haction. reflexivity.
  - apply (Hhidden [] (input "hidden" "token" "abc")
             [provincia_select; input "submit" "btnAceptar" "Aceptar"] "token").
    + reflexivity.
    + split; reflexivity.
    + reflexivity.
    + discriminate.
    + intros t' Hin. apply elem_of_cons in Hin as [-> | Hin]; [by vm_compute |].
      apply elem_of_cons in Hin as [-> | Hin]; [by vm_compute |].
      by apply elem_of_nil in Hin.
  - apply Hsubmit. intros t Hin Hname.
    apply elem_of_cons in Hin as [-> | Hin]; [by vm_compute in Hname |].
    apply elem_of_cons in Hin as [-> | Hin]; [by vm_compute in Hname |].
    apply elem_of_cons in Hin as [-> | Hin]; [by split |].
    by apply elem_of_nil in Hin.
Defined.

(** ** Label resolution *)

(** C6, as stated, fails on a form in which a hidden input is named like
    the province select: the province is in no option, and yet the form is
    submitted. *)
Lemma provincia_field_submitted :
  (exists form_data,
     Requests.check_province_appointments (P := ascii_str)
       (portal (page_with odd_form EmptyString) empty_page) "Cadiz" fresh
     = (Ret None,
        after fresh
          [ Requests.Request "GET" Requests.base_url None;
            Requests.Request "POST"
              (Requests.origin +:+ "/icpplus/citar?p=4&locale=es")
              (Some form_data) ]) /\
     form_data !! "provincia" = Some "0") /\
  ~ label_not_found_claim.
Proof.
  split; [eexists; split; [by vm_compute | by vm_compute] |].
  intros Hclaim.
  specialize (Hclaim ascii_str (portal (page_with odd_form EmptyString) empty_page)
                "Cadiz" fresh
                (after fresh [Requests.Request "GET" Requests.base_url None])
                (page_with odd_form EmptyString) Requests.base_url 200 odd_form
                eq_refl eq_refl).
  assert (no_option_matches (P := ascii_str) "Cadiz" odd_form) as Hnone.
  { intros t o Hin [Hselect _] Ho.
    unfold odd_form in Hin; simpl in Hin.
    repeat (apply elem_of_cons in Hin as [-> | Hin]; [try done |]);
      [| by apply elem_of_nil in Hin].
    simpl in Ho.
    repeat (apply elem_of_cons in Ho as [-> | Ho]; [by vm_compute |]).
    by apply elem_of_nil in Ho. }
  specialize (Hclaim Hnone). vm_compute in Hclaim. discriminate.
Qed.

(** C6, amended.  When the initial page was fetched, no option of the
    province select of its form has the province as its stripped text and
    no other field of the form is named [provincia], the check returns
    [None] in the state that the fetch left: the only effects are the
    [GET] requests of the fetch and the pauses between them. *)
Theorem label_not_found
    (P : PyStr) (E : Requests.env) (province : string) (b b1 : Requests.bot)
    (soup : Requests.html) (url : string) (code : Z) (f : Requests.form) :
  Requests._make_request_with_retry E "GET" Requests.base_url 3 None b
  = (Ret (Some (soup, url, code)), b1) ->
  Requests.find_form soup = Some f ->
  no_option_matches province f ->
  provincia_only_select f ->
  Requests.check_province_appointments E province b = (Ret None, b1) /\
  exists evs,
    Requests.trace b1 = Requests.trace b ++ evs /\
    Forall (fun e => e = Requests.Request "GET" Requests.base_url None \/
                     exists d, e = Requests.Sleep d) evs.
Proof.
  intros Hget Hform Hnone Hselect. split.
  - unfold Requests.check_province_appointments, try_except, bind.
    rewrite Hget, Hform.
    unfold Requests.collect_form_data.
    by rewrite collect_fields_no_provincia.
  - pose proof (retry_loop_trace E "GET" Requests.base_url None 3 (range 3) b
                  (range_nonneg 3)) as (evs & Htrace & Hevs).
    unfold Requests._make_request_with_retry in Hget.
    rewrite Hget in Htrace. by exists evs.
Qed.

Lemma label_not_found_witness :
  Requests.check_province_appointments (P := ascii_str)
    (portal (page_with portal_form EmptyString) empty_page) "Cadiz" fresh
  = (Ret None, after fresh [Requests.Request "GET" Requests.base_url None]) /\
  exists evs,
    Requests.trace (after fresh [Requests.Request "GET" Requests.base_url None])
    = Requests.trace fresh ++ evs /\
    Forall (fun e => e = Requests.Request "GET" Requests.base_url None \/
                     exists d, e = Requests.Sleep d) evs.
Proof.
  apply (label_not_found ascii_str
           (portal (page_with portal_form EmptyString) empty_page) "Cadiz" fresh
           (after fresh [Requests.Request "GET" Requests.base_url None])
           (page_with portal_form EmptyString) Requests.base_url 200 portal_form).
  - reflexivity.
  - reflexivity.
  - intros t o Hin [Hselect _] Ho.
    unfold portal_form in Hin; simpl in Hin.
    repeat (apply elem_of_cons in Hin as [-> | Hin]; [try done |]);
      [| by apply elem_of_nil in Hin].
    simpl in Ho.
    repeat (apply elem_of_cons in Ho as [-> | Ho]; [by vm_compute |]).
    by apply elem_of_nil in Ho.
  - intros t Hin Hname.
    unfold portal_form in Hin; simpl in Hin.
    repeat (apply elem_of_cons in Hin as [-> | Hin]; [by vm_compute in Hname |- * |]).
    by apply elem_of_nil in Hin.
Defined.

(** ** The HTTP pipeline *)

Section HttpFacts.
Import Requests.
Context (E : env) {P : PyStr}.

Lemma make_request_total method url m data b :
  exists result b',
    _make_request_with_retry E method url m data b = (Ret result, b').
Proof.
  destruct (retry_loop_total E method url data m (range m) b (range_nonneg m))
    as (result & b' & Hrun & _).
  by exists result, b'.
Qed.

Lemma any_indicator_in indicators page_text phrase :
  phrase ∈ indicators -> contains page_text phrase = true ->
  any_indicator indicators page_text = true.
Proof.
  intros Hin Hphrase. unfold any_indicator. apply existsb_exists.
  exists phrase. split; [by apply list_elem_of_In | done].
Qed.

(** A page that says there are no appointments yields no result, whatever
    else it shows. *)
Lemma read_service_page_negative province soup url code b phrase :
  phrase ∈ no_appointment_indicators ->
  contains (lower (get_text soup)) phrase = true ->
  read_service_page E province (soup, url, code) b = (Ret None, b).
Proof.
  intros Hin Hphrase. unfold read_service_page.
  destruct (contains url _); [| done].
  by rewrite (any_indicator_in _ _ phrase).
Qed.

Lemma appointment_record_complete province timestamp url soup :
  complete_http_result province (appointment_record province timestamp url soup).
Proof.
  unfold complete_http_result, appointment_record.
  destruct (nonempty (calendar_tables soup)), (nonempty (date_inputs soup));
    repeat split; eauto.
Qed.

Lemma read_service_page_result province answer b :
  exists b', read_service_page E province answer b = (Ret None, b') \/
    exists d, read_service_page E province answer b = (Ret (Some d), b') /\
              complete_http_result province d.
Proof.
  destruct answer as [[soup url] code]. unfold read_service_page.
  destruct (contains url _); [| by exists b; left].
  destruct (any_indicator no_appointment_indicators _); [by exists b; left |].
  destruct (any_indicator appointment_indicators _); [| by exists b; left].
  exists b. right. eexists. split; [done |]. apply appointment_record_complete.
Qed.

(** The check of one province, step by step. *)
Lemma http_check_eq province b :
  check_province_appointments E province b =
  match _make_request_with_retry E "GET" base_url 3 None b with
  | (Ret None, b1) => (Ret None, b1)
  | (Ret (Some (soup, _, _)), b1) =>
      match find_form soup with
      | None => (Ret None, b1)
      | Some f =>
          match collect_form_data province f !! "provincia" with
          | None => (Ret None, b1)
          | Some _ =>
              match _make_request_with_retry E "POST"
                      (if str_truthy (form_action f) then form_action f else base_url)
                      3 (Some (collect_form_data province f)) b1 with
              | (Ret None, b2) => (Ret None, b2)
              | (Ret (Some answer), b2) =>
                  match read_service_page E province answer b2 with
                  | (Ret r, b3) => (Ret r, b3)
                  | (Raise _, b3) => (Ret None, b3)
                  end
              | (Raise _, b2) => (Ret None, b2)
              end
          end
      end
  | (Raise _, b1) => (Ret None, b1)
  end.
Proof.
  unfold check_province_appointments, try_except, bind at 1.
  destruct (_make_request_with_retry E "GET" _ _ _ b) as [[[[[soup url] code] |] | e] b1];
    [| done | done].
  destruct (find_form soup) as [f |]; [| done].
  destruct (collect_form_data province f !! "provincia"); [| done].
  unfold bind.
  destruct (_make_request_with_retry E "POST" _ _ _ b1) as [[[answer |] | e] b2];
    [| done | done].
  by destruct (read_service_page E province answer b2) as [[r | e] b3].
Qed.

End HttpFacts.

(** ** The browser pipeline *)

(** Case analysis on the outcome of the computation [f] that the goal runs
    next. *)
Ltac run_on f :=
  match goal with
  | |- context [f ?s] =>
      let a := fresh "a" in
      let e := fresh "e" in
      let b := fresh "b" in
      destruct (f s) as [[a | e] b]; cbv beta iota
  end.

Ltac run_bool f :=
  match goal with
  | |- context [f ?s] =>
      let e := fresh "e" in
      let b := fresh "b" in
      destruct (f s) as [[[] | e] b]; cbn [negb]; cbv beta iota
  end.

Section BrowserFacts.
Import Playwright.
Context (E : env) {P : PyStr}.

Lemma try_except_total {A} (m : M bot A) (h : exn -> M bot A) b :
  (forall e b1, exists a b2, h e b1 = (Ret a, b2)) ->
  exists a b', try_except m h b = (Ret a, b').
Proof.
  intros Hh. unfold try_except.
  destruct (m b) as [[a | e] b1]; [by exists a, b1 | apply Hh].
Qed.

(** The check of one province as the sequencer runs it. *)
Lemma browser_check_eq province b :
  check_province_appointments E province b =
  match open_page E (entered b) with
  | (Raise _, b1) => finish E None b1
  | (Ret _, b1) =>
      match run_steps (steps E province) b1 with
      | (Ret true, b5) =>
          match conclude E province b5 with
          | (Ret r, b6) => finish E r b6
          | (Raise _, b6) => finish E None b6
          end
      | (Ret false, b') => finish E None b'
      | (Raise _, b') => finish E None b'
      end
  end.
Proof.
  cbv beta iota zeta delta
    [check_province_appointments open_page conclude finish close_page
     try_finally try_except entered bind ret set_page get steps run_steps snd].
  run_on (create_new_page E); [| done].
  run_on (act E (Goto base_url)); [| done].
  run_bool (select_province E province); [| done | done].
  run_bool (select_service_type E); [| done | done].
  run_bool (proceed_to_entry_form E); [| done | done].
  run_bool (fill_user_data E); [| done | done].
  run_on (check_appointment_availability E); [| done].
  destruct a1 as [[] [info |]]; try done.
  destruct (dict_truthy info); [| done].
  by run_on (auto_select_appointment E).
Qed.

(** *** Extraction of the details *)

Lemma append_dates_lookup values : forall d dates,
  d !! "dates" = Some (VList dates) ->
  fold_left (fun d v => append_date v d) values d !! "dates"
  = Some (VList (dates ++ values)).
Proof.
  induction values as [| v rest IH]; intros d dates Hd; simpl.
  - by rewrite app_nil_r.
  - rewrite (IH _ (dates ++ [v])); [by rewrite <- app_assoc |].
    unfold append_date. rewrite lookup_alter_eq, Hd. done.
Qed.

Lemma append_dates_other values key : forall d,
  key <> "dates" ->
  fold_left (fun d v => append_date v d) values d !! key = d !! key.
Proof.
  induction values as [| v rest IH]; intros d Hkey; simpl; [done |].
  rewrite IH by done. unfold append_date. by rewrite lookup_alter_ne.
Qed.

(** The loop over the date inputs appends what [harvested] lists, also
    when a read raises. *)
Lemma harvest_dates_details date_elements : forall b,
  appointment_details (harvest_dates E date_elements b).2
  = fold_left (fun d v => append_date v d)
      (harvested E (trace b) date_elements) (appointment_details b).
Proof.
  induction date_elements as [| element rest IH]; intros b; [done |].
  cbn [harvest_dates harvested].
  cbv beta iota zeta delta [bind ask emit ret update_details].
  cbn [trace appointment_details].
  destruct (text E (trace b ++ [GetAttribute element "value"])) as [e | value];
    [done |].
  destruct value as [v |]; [destruct (str_truthy v) |]; rewrite IH; done.
Qed.

Lemma initial_details_dates timestamp :
  initial_details timestamp !! "dates" = Some (VList []).
Proof. unfold initial_details. by simplify_map_eq. Qed.

Lemma read_dates_spec b :
  exists b',
    read_dates E b = (Ret tt, b') /\
    appointment_details b'
    = fold_left (fun d v => append_date v d) (dates_read E (trace b))
        (appointment_details b).
Proof.
  unfold read_dates, dates_read.
  cbv beta iota zeta delta [try_except bind ask emit].
  cbn [trace].
  destruct (elements E _) as [e | date_elements]; [by eexists |].
  match goal with
  | |- context [harvest_dates E date_elements ?s] =>
      pose proof (harvest_dates_details date_elements s) as Hharvest;
      destruct (harvest_dates E date_elements s) as [[[] | e] b1]
  end; by exists b1.
Qed.

Lemma read_office_spec b :
  exists b',
    read_office E b = (Ret tt, b') /\
    (appointment_details b' = appointment_details b \/
     exists office,
       appointment_details b' = <["office" := office]> (appointment_details b)).
Proof.
  unfold read_office.
  cbv beta iota zeta delta [try_except bind ask emit ret update_details].
  cbn [trace].
  destruct (element E _) as [e | [el |]]; [by eexists; split; [| left] | |
                                            by eexists; split; [| left]].
  destruct (text E _) as [e | content]; [by eexists; split; [| left] |].
  eexists; split; [done |]. right. by eexists.
Qed.

(** Extraction never raises.  Its dictionary has the four keys it starts
    from, and its dates are the values read up to the first failure. *)
Lemma extract_appointment_details_spec b :
  exists d b',
    extract_appointment_details E b = (Ret d, b') /\
    d !! "dates" = Some (VList (dates_read E (trace b))) /\
    is_Some (d !! "office") /\
    d !! "timestamp" = Some (VStr (now E (trace b))) /\
    d !! "province" = Some (VStr EmptyString).
Proof.
  unfold extract_appointment_details.
  cbv beta iota zeta delta [try_except bind ret clock get update_details].
  match goal with
  | |- context [read_dates E ?s] =>
      destruct (read_dates_spec s) as (b1 & -> & Hdates)
  end.
  destruct (read_office_spec b1) as (b2 & -> & Hoffice).
  exists (appointment_details b2), b2. split; [done |].
  cbn [trace appointment_details] in Hdates.
  assert (appointment_details b1 !! "dates" = Some (VList (dates_read E (trace b))) /\
          is_Some (appointment_details b1 !! "office") /\
          appointment_details b1 !! "timestamp" = Some (VStr (now E (trace b))) /\
          appointment_details b1 !! "province" = Some (VStr EmptyString))
    as (Hd & Ho & Ht & Hp).
  { rewrite Hdates.
    rewrite (append_dates_lookup _ _ []) by apply initial_details_dates.
    rewrite !append_dates_other by done.
    unfold initial_details. by simplify_map_eq. }
  destruct Hoffice as [-> | [office ->]]; [done |].
  by rewrite lookup_insert_eq, !lookup_insert_ne.
Qed.

(** *** The classifier *)

Lemma find_calendar_result selectors : forall b,
  exists availability b',
    find_calendar E selectors b = (Ret availability, b') /\
    (availability = (false, None) \/
     exists d t, availability = (true, Some d) /\ extracted_at E t d).
Proof.
  induction selectors as [| selector rest IH]; intros b.
  - exists (false, None), b. by split; [| left].
  - cbn [find_calendar].
    cbv beta iota zeta delta [try_except bind ask emit ret].
    cbn [trace].
    destruct (element E _) as [e | [found |]]; [apply IH | | apply IH].
    match goal with
    | |- context [extract_appointment_details E ?s] =>
        destruct (extract_appointment_details_spec s) as (d & b' & -> & Hd)
    end.
    exists (true, Some d), b'. split; [done |]. right. by eexists d, _.
Qed.


Lemma says_no_appointments_in content phrase :
  phrase ∈ no_appointment_indicators ->
  contains (lower content) (lower phrase) = true ->
  says_no_appointments content = true.
Proof.
  intros Hin Hphrase. unfold says_no_appointments. apply existsb_exists.
  exists phrase. split; [by apply list_elem_of_In | done].
Qed.

(** The classifier never raises, and it reports availability only with
    extracted details. *)
Lemma check_appointment_availability_result b :
  exists availability b',
    check_appointment_availability E b = (Ret availability, b') /\
    (availability = (false, None) \/
     exists d t, availability = (true, Some d) /\ extracted_at E t d).
Proof.
  unfold check_appointment_availability.
  cbv beta iota zeta delta [try_except bind ask act emit ret].
  cbn [trace].
  destruct (action E _) as [e |]; [by eexists _, _; split; [| left] |].
  destruct (page_content E _) as [e | content]; [by eexists _, _; split; [| left] |].
  destruct (says_no_appointments content); [by eexists _, _; split; [| left] |].
  match goal with
  | |- context [find_calendar E calendar_selectors ?s] =>
      destruct (find_calendar_result calendar_selectors s)
        as (availability & b' & -> & Hresult)
  end.
  by exists availability, b'.
Qed.

(** A page that says there are no appointments is classified as not
    available before any calendar element is looked for. *)
Lemma check_appointment_availability_negative b content :
  page_content E (trace b ++ [WaitForLoadState 15000; Content]) = inr content ->
  says_no_appointments content = true ->
  exists b',
    check_appointment_availability E b = (Ret (false, None), b') /\
    (trace b' = trace b ++ [WaitForLoadState 15000; Content] \/
     trace b' = trace b ++ [WaitForLoadState 15000]).
Proof.
  intros Hcontent Hno. unfold check_appointment_availability.
  cbv beta iota zeta delta [try_except bind ask act emit ret].
  cbn [trace].
  destruct (action E _) as [e |]; [by eexists; split; [| right] |].
  cbn [trace]. rewrite <- app_assoc. cbn [app]. rewrite Hcontent, Hno.
  eexists; split; [done |]. by left.
Qed.


(** *** Booking *)

(** Booking never raises, and it reports a booking only after clicking a
    submit button that it found: a missing date input, continue button or
    submit button, or a contact field that cannot be filled, makes it
    report [False]. *)
Lemma auto_select_appointment_spec b :
  exists booked b',
    auto_select_appointment E b = (Ret booked, b') /\
    (missing E (date_radio +:+ ":first-of-type") -> booked = false) /\
    (missing E (submit_with "Siguiente" "Continuar") -> booked = false) /\
    (unfillable E email_field (email user_data) -> booked = false) /\
    (unfillable E phone_field (phone user_data) -> booked = false) /\
    (missing E (submit_with "Enviar" "Confirmar") -> booked = false) /\
    (booked = true -> exists submit, last (trace b') = Some (ClickElement submit)).
Proof.
  unfold auto_select_appointment, missing, unfillable.
  cbv beta iota zeta delta
    [try_except bind ask act emit ret trace browser context page
     appointment_details].
  repeat match goal with
  | |- context [match element E ?t with _ => _ end] =>
      destruct (element E t) as [? | [? |]] eqn:?; cbn [trace]
  | |- context [match action E ?t with _ => _ end] =>
      destruct (action E t) as [? |] eqn:?; cbn [trace]
  end;
  (eexists _, _; split; [reflexivity |]);
  try (by repeat split).
  repeat split.
  - intros Hmissing. congruence.
  - intros Hmissing. congruence.
  - intros Hfill.
    match goal with
    | Hfilled : action E (?t ++ [Fill email_field _]) = None |- _ =>
        destruct (Hfill t) as [e He]; congruence
    end.
  - intros Hfill.
    match goal with
    | Hfilled : action E (?t ++ [Fill phone_field _]) = None |- _ =>
        destruct (Hfill t) as [e He]; congruence
    end.
  - intros Hmissing. congruence.
  - intros _. eexists. by rewrite last_snoc.
Qed.

End BrowserFacts.

(** ** The cycle *)

Section HttpCycleFacts.
Import Requests.
Context (E : env) (check : string -> M bot (option dict)).

(** The loop gives every province its round and never raises. *)
Lemma http_check_provinces_rounds provinces : forall found b,
  exists found',
    check_provinces check provinces found b
    = (Ret found', rounds check provinces b).
Proof.
  induction provinces as [| province rest IH]; intros found b.
  - by exists found.
  - cbn [check_provinces rounds fold_left].
    unfold province_round.
    cbv beta iota zeta delta [bind try_except ret].
    destruct (check province b) as [[[info |] | e] b1].
    + destruct (dict_truthy info); cbn; apply IH.
    + cbn. apply IH.
    + cbn. apply IH.
Qed.

Lemma track_failures_trace found b :
  trace (track_failures E found b).2 = trace b.
Proof.
  unfold track_failures, set_consecutive_failures.
  destruct (nonempty found); [done |].
  destruct (logger_handlers E (trace b)) as [| | shown]; [done | |].
  - by destruct (contains "[]" _).
  - by destruct (contains shown _).
Qed.

Lemma http_cycle provinces b :
  exists b',
    run_single_check_with E check provinces b = (Ret tt, b') /\
    trace b' = trace (rounds check provinces b).
Proof.
  unfold run_single_check_with, try_except, bind.
  destruct (http_check_provinces_rounds provinces [] b) as [found ->].
  pose proof (track_failures_trace found (rounds check provinces b)) as Htrace.
  destruct (track_failures E found _) as [[[] | e] b']; by exists b'.
Qed.

(** Every round ends with the pause. *)
Lemma http_round_pause province b :
  last (trace (province_round check province b)) = Some (Sleep 2).
Proof.
  unfold province_round. destruct (check province b) as [r b1].
  cbn. by rewrite last_snoc.
Qed.

End HttpCycleFacts.

Section BrowserCycleFacts.
Import Playwright.
Context (E : env) (check : string -> M bot (option dict)).

Lemma browser_check_provinces_rounds provinces : forall found b,
  exists found',
    check_provinces check provinces found b
    = (Ret found', browser_rounds check provinces b).
Proof.
  induction provinces as [| province rest IH]; intros found b.
  - by exists found.
  - cbn [check_provinces browser_rounds fold_left].
    unfold browser_round.
    cbv beta iota zeta delta [bind try_except ret].
    destruct (check province b) as [[[info |] | e] b1].
    + destruct (dict_truthy info); cbn; apply IH.
    + cbn. apply IH.
    + cbn. apply IH.
Qed.

Lemma browser_cycle_total provinces b :
  exists b', run_single_check_with E check provinces b = (Ret tt, b').
Proof.
  unfold run_single_check_with.
  cbv beta iota zeta delta [try_except bind ret get].
  destruct (negb (browser b)).
  - destruct (initialize_browser E b) as [[[] | e] b0]; [| by eexists].
    destruct (browser_check_provinces_rounds provinces [] b0) as [found ->].
    by eexists.
  - destruct (browser_check_provinces_rounds provinces [] b) as [found ->].
    by eexists.
Qed.

Lemma browser_cycle provinces b :
  browser b = true \/ init_browser E (trace b ++ [InitBrowser]) = InitOk ->
  run_single_check_with E check provinces b
  = (Ret tt, browser_rounds check provinces (started E b)).
Proof.
  intros Hstart. unfold run_single_check_with, started.
  cbv beta iota zeta delta [try_except bind ret get].
  destruct (browser b); cbn [negb].
  - by destruct (browser_check_provinces_rounds provinces [] b) as [found ->].
  - destruct Hstart as [? | Hinit]; [done |].
    unfold initialize_browser.
    cbv beta iota zeta delta [bind emit]. cbn [trace]. rewrite Hinit.
    cbn.
    match goal with
    | |- context [check_provinces check provinces [] ?s] =>
        by destruct (browser_check_provinces_rounds provinces [] s) as [found ->]
    end.
Qed.

Lemma browser_round_pause province b :
  last (trace (browser_round check province b)) = Some (Sleep 2).
Proof.
  unfold browser_round. destruct (check province b) as [r b1].
  cbn. by rewrite last_snoc.
Qed.

End BrowserCycleFacts.

(** C8.  A cycle never raises, and it gives every province of the list its
    round, in order: the check, the notification when the check returned a
    result, and the pause of two seconds, whether the check returned a
    result, returned [None] or raised.  In the browser pipeline the rounds
    start once the browser runs. *)
Theorem cycle_survives_failures :
  (forall E check provinces b,
     exists b',
       Requests.run_single_check_with E check provinces b = (Ret tt, b') /\
       Requests.trace b' = Requests.trace (rounds check provinces b)) /\
  (forall check province b,
     last (Requests.trace (province_round check province b))
     = Some (Requests.Sleep 2)) /\
  (forall E check provinces b,
     exists b', Playwright.run_single_check_with E check provinces b = (Ret tt, b')) /\
  (forall E check provinces b,
     Playwright.browser b = true \/
     Playwright.init_browser E (Playwright.trace b ++ [Playwright.InitBrowser])
     = Playwright.InitOk ->
     Playwright.run_single_check_with E check provinces b
     = (Ret tt, browser_rounds check provinces (started E b))) /\
  (forall check province b,
     last (Playwright.trace (browser_round check province b))
     = Some (Playwright.Sleep 2)) /\
  (forall (P : PyStr) E provinces,
     Requests.run_single_check E provinces
     = Requests.run_single_check_with E (Requests.check_province_appointments E) provinces) /\
  (forall (P : PyStr) E provinces,
     Playwright.run_single_check E provinces
     = Playwright.run_single_check_with E (Playwright.check_province_appointments E)
         provinces).
Proof.
  repeat split.
  - apply http_cycle.
  - apply http_round_pause.
  - apply browser_cycle_total.
  - apply browser_cycle.
  - apply browser_round_pause.
Qed.

(** Scenario D on the HTTP pipeline: the check of the second of three
    provinces raises, and the third is checked all the same. *)
Lemma cycle_survives_failures_witness :
  (exists b',
     Requests.run_single_check_with (answering 200)
       (moody_check "Cadiz" {[ "province" := VStr "x" ]})
       ["Almeria"; "Cadiz"; "Albacete"] fresh
     = (Ret tt, b') /\
     Requests.trace b'
     = [ Requests.Request "GET" "Almeria" None;
         Requests.Notify "Almeria" {[ "province" := VStr "x" ]};
         Requests.Sleep 2;
         Requests.Request "GET" "Cadiz" None;
         Requests.Sleep 2;
         Requests.Request "GET" "Albacete" None;
         Requests.Notify "Albacete" {[ "province" := VStr "x" ]};
         Requests.Sleep 2 ]) /\
  Playwright.run_single_check (P := ascii_str)
    (sample_browser "Seleccione una fecha" ["Cadiz"] [] false)
    ["Almeria"; "Cadiz"; "Albacete"] fresh_browser
  = (Ret tt,
     browser_rounds
       (Playwright.check_province_appointments (P := ascii_str)
          (sample_browser "Seleccione una fecha" ["Cadiz"] [] false))
       ["Almeria"; "Cadiz"; "Albacete"]
       (started (sample_browser "Seleccione una fecha" ["Cadiz"] [] false)
          fresh_browser)).
Proof.
  destruct cycle_survives_failures as (Hhttp & _ & _ & Hbrowser & _ & _ & Hrun).
  split.
  - destruct (Hhttp (answering 200)
                (moody_check "Cadiz" {[ "province" := VStr "x" ]})
                ["Almeria"; "Cadiz"; "Albacete"] fresh) as (b' & Hrun' & Htrace).
    exists b'. split; [exact Hrun' |]. rewrite Htrace. vm_compute. reflexivity.
  - rewrite Hrun. apply Hbrowser. right. reflexivity.
Defined.

(** ** The availability classifier *)

(** C2, as stated, fails in the browser pipeline: the classifier looks for
    the phrases in the source of the page, so a phrase of the text that
    markup splits in the source is not found, and the page, which also
    shows date inputs, is classified as available. *)
Lemma phrase_split_by_markup :
  rendered_text "<p>No hay citas <b>disponibles</b></p>" = "No hay citas disponibles" /\
  classified_as
    (Playwright.check_appointment_availability (P := ascii_str)
       (sample_browser "<p>No hay citas <b>disponibles</b></p>" [] [] true)
       fresh_browser)
  = Some true /\
  classified_dates
    (Playwright.check_appointment_availability (P := ascii_str)
       (sample_browser "<p>No hay citas <b>disponibles</b></p>" [] [] true)
       fresh_browser)
  = Some (VList ["2024-05-01"; "2024-05-02"; "2024-05-03"]) /\
  ~ negative_text_claim.
Proof.
  assert (classified_as
            (Playwright.check_appointment_availability (P := ascii_str)
               (sample_browser "<p>No hay citas <b>disponibles</b></p>" [] [] true)
               fresh_browser)
          = Some true) as Hrun.
  { vm_compute. reflexivity. }
  split; [vm_compute; reflexivity |]. split; [exact Hrun |].
  split; [vm_compute; reflexivity |].
  intros Hclaim.
  assert ("No hay citas disponibles" ∈ Playwright.no_appointment_indicators) as Hin
    by apply list_elem_of_here.
  assert (contains
            (lower (PyStr := ascii_str)
               (rendered_text "<p>No hay citas <b>disponibles</b></p>"))
            (lower (PyStr := ascii_str) "No hay citas disponibles") = true) as Htext
    by (vm_compute; reflexivity).
  pose proof (Hclaim ascii_str
                (sample_browser "<p>No hay citas <b>disponibles</b></p>" [] [] true)
                fresh_browser "<p>No hay citas <b>disponibles</b></p>"
                "No hay citas disponibles" Hin Htext eq_refl) as [b0 Hnone].
  rewrite Hnone in Hrun. discriminate Hrun.
Qed.

(** C2, amended.  A final page in which the classifier finds one of its
    "no appointments" phrases, compared in lower case, is classified as not
    available, with no details, whatever calendar markup or date inputs it
    also shows.  The browser classifier looks for the phrases in the source
    of the page, as [page.content()] returns it, and answers
    [(False, None)] without looking for any calendar element, so the check
    of the province yields no result and books nothing; the HTTP check
    looks for them in the text of the answer to the province submission and
    returns [None] whatever else the answer holds. *)
Theorem negative_phrase_first (P : PyStr) :
  (forall E b content phrase,
     phrase ∈ Playwright.no_appointment_indicators ->
     contains (lower content) (lower phrase) = true ->
     Playwright.page_content E
       (Playwright.trace b ++ [Playwright.WaitForLoadState 15000; Playwright.Content])
     = inr content ->
     exists b',
       Playwright.check_appointment_availability E b = (Ret (false, None), b') /\
       (Playwright.trace b'
        = Playwright.trace b ++ [Playwright.WaitForLoadState 15000; Playwright.Content] \/
        Playwright.trace b'
        = Playwright.trace b ++ [Playwright.WaitForLoadState 15000])) /\
  (forall E province b b1 b5 content phrase,
     phrase ∈ Playwright.no_appointment_indicators ->
     contains (lower content) (lower phrase) = true ->
     open_page E (entered b) = (Ret tt, b1) ->
     run_steps (steps E province) b1 = (Ret true, b5) ->
     Playwright.page_content E
       (Playwright.trace b5 ++ [Playwright.WaitForLoadState 15000; Playwright.Content])
     = inr content ->
     exists b6,
       Playwright.check_province_appointments E province b = finish E None b6 /\
       (Playwright.trace b6
        = Playwright.trace b5 ++ [Playwright.WaitForLoadState 15000; Playwright.Content] \/
        Playwright.trace b6
        = Playwright.trace b5 ++ [Playwright.WaitForLoadState 15000])) /\
  (forall E province soup url code b phrase,
     phrase ∈ Requests.no_appointment_indicators ->
     contains (lower (Requests.get_text soup)) phrase = true ->
     Requests.read_service_page E province (soup, url, code) b = (Ret None, b)) /\
  (forall E province b b1 b2 first url1 code1 f soup url code phrase,
     phrase ∈ Requests.no_appointment_indicators ->
     contains (lower (Requests.get_text soup)) phrase = true ->
     Requests._make_request_with_retry E "GET" Requests.base_url 3 None b
     = (Ret (Some (first, url1, code1)), b1) ->
     Requests.find_form first = Some f ->
     is_Some (Requests.collect_form_data province f !! "provincia") ->
     Requests._make_request_with_retry E "POST"
       (if str_truthy (Requests.form_action f)
        then Requests.form_action f else Requests.base_url)
       3 (Some (Requests.collect_form_data province f)) b1
     = (Ret (Some (soup, url, code)), b2) ->
     Requests.check_province_appointments E province b = (Ret None, b2)).
Proof.
  split; [| split; [| split]].
  - intros E b content phrase Hin Hphrase Hcontent.
    apply (check_appointment_availability_negative E b content Hcontent).
    by apply (says_no_appointments_in content phrase).
  - intros E province b b1 b5 content phrase Hin Hphrase Hopen Hsteps Hcontent.
    destruct (check_appointment_availability_negative E b5 content Hcontent)
      as (b6 & Hclassified & Htrace).
    { by apply (says_no_appointments_in content phrase). }
    exists b6. split; [| done].
    rewrite browser_check_eq, Hopen, Hsteps.
    unfold conclude, bind. by rewrite Hclassified.
  - intros E province soup url code b phrase Hin Hphrase.
    by apply (read_service_page_negative E province soup url code b phrase).
  - intros E province b b1 b2 first url1 code1 f soup url code phrase
           Hin Hphrase Hget Hform [v Hv] Hpost.
    rewrite http_check_eq, Hget, Hform, Hv, Hpost.
    by rewrite (read_service_page_negative E province soup url code b2 phrase).
Qed.

Lemma negative_phrase_first_witness :
  (exists b',
     Playwright.check_appointment_availability (P := ascii_str)
       (sample_browser "<p>NO HAY CITAS disponibles</p><table class=calendario>"
          [] [] true) fresh_browser
     = (Ret (false, None), b')) /\
  Requests.read_service_page (P := ascii_str) (answering 200) "Almeria"
    ({| Requests.find_form := None;
        Requests.get_text := "No hay citas disponibles. Calendario";
        Requests.calendar_tables := [provincia_select];
        Requests.date_inputs := [provincia_select] |},
     "https://icp.administracionelectronica.gob.es/icpplus/citar?p=4&locale=es",
     200) fresh
  = (Ret None, fresh).
Proof.
  destruct (negative_phrase_first ascii_str) as (Hbrowser & _ & Hhttp & _).
  split.
  - destruct (Hbrowser
                (sample_browser "<p>NO HAY CITAS disponibles</p><table class=calendario>"
                   [] [] true)
                fresh_browser
                "<p>NO HAY CITAS disponibles</p><table class=calendario>"
                "No hay citas disponibles") as (b' & Hrun & _).
    + unfold Playwright.no_appointment_indicators. set_solver.
    + reflexivity.
    + reflexivity.
    + by exists b'.
  - apply (Hhttp (answering 200) "Almeria" _ _ 200 fresh "no hay citas disponibles").
    + unfold Requests.no_appointment_indicators. set_solver.
    + reflexivity.
Defined.

(** ** One province: all or nothing *)

Section HttpCheckFacts.
Import Requests.
Context (E : env) {P : PyStr}.

Lemma http_check_result province b :
  exists b',
    check_province_appointments E province b = (Ret None, b') \/
    exists d,
      check_province_appointments E province b = (Ret (Some d), b') /\
      complete_http_result province d.
Proof.
  rewrite http_check_eq.
  destruct (make_request_total E "GET" base_url 3 None b)
    as ([[[first url1] code1] |] & b1 & ->); [| by exists b1; left].
  destruct (find_form first) as [f |]; [| by exists b1; left].
  destruct (collect_form_data province f !! "provincia"); [| by exists b1; left].
  destruct (make_request_total E "POST"
              (if str_truthy (form_action f) then form_action f else base_url)
              3 (Some (collect_form_data province f)) b1)
    as ([answer |] & b2 & ->); [| by exists b2; left].
  destruct (read_service_page_result E province answer b2)
    as (b3 & [-> | (d & -> & Hd)]); exists b3; [by left | right; by exists d].
Qed.

End HttpCheckFacts.

Section BrowserCheckFacts.
Import Playwright.
Context (E : env) {P : PyStr}.

(** The steps after a failed one are not run. *)
Lemma run_steps_stop (pre : list (M bot bool)) (step : M bot bool)
    (post : list (M bot bool)) : forall b1 b2 b3,
  run_steps pre b1 = (Ret true, b2) ->
  step b2 = (Ret false, b3) ->
  run_steps (pre ++ step :: post) b1 = (Ret false, b3).
Proof.
  induction pre as [| first pre IH]; intros b1 b2 b3 Hpre Hstep.
  - injection Hpre as <-. cbn. unfold bind. by rewrite Hstep.
  - cbn in *. unfold bind in *.
    destruct (first b1) as [[[] | e] b]; [| done | done].
    by apply (IH b b2 b3).
Qed.

Lemma finish_spec r b :
  exists b',
    (finish E r b = (Ret r, b') \/
     exists e, finish E r b = (Raise e, b') /\ action E (trace b') = Some e /\
               last (trace b') = Some ClosePage) /\
    trace b' = if page b then trace b ++ [ClosePage] else trace b.
Proof.
  unfold finish, close_page.
  cbv beta iota zeta delta [bind get act emit ret].
  destruct (page b); [| by exists b; split; [left |]].
  cbn [trace].
  destruct (action E (trace b ++ [ClosePage])) as [e |] eqn:Hclose.
  - eexists. split.
    + right. exists e. split; [done |]. cbn [trace].
      split; [done | by rewrite last_snoc].
    + done.
  - eexists. by split; [left |].
Qed.

Lemma extracted_complete province t d booked :
  extracted_at E t d ->
  complete_browser_result province
    (<["booking_attempted" := VBool booked]> (<["province" := VStr province]> d)).
Proof.
  intros (Hdates & Hoffice & Htimestamp & _).
  unfold complete_browser_result.
  rewrite lookup_insert_eq, !lookup_insert_ne, lookup_insert_eq by done.
  rewrite !lookup_insert_ne by done.
  split; [done |]. split; [eauto |]. split; [done |]. split; eauto.
Qed.

(** The availability check with the booking never raises and ends with
    nothing or with a complete record. *)
Lemma conclude_result province b :
  exists r b',
    conclude E province b = (Ret r, b') /\
    (r = None \/ exists d, r = Some d /\ complete_browser_result province d).
Proof.
  unfold conclude, bind.
  destruct (check_appointment_availability_result E b)
    as (availability & b1 & -> & [-> | (d & t & -> & Hd)]);
    [by exists None, b1; split; [| left] |].
  destruct (dict_truthy d); [| by exists None, b1; split; [| left]].
  destruct (auto_select_appointment_spec E b1) as (booked & b2 & -> & _).
  eexists _, b2. split; [done |]. right. eexists. split; [done |].
  by apply (extracted_complete province t).
Qed.

Lemma browser_check_result province b :
  exists r b',
    check_province_appointments E province b = (r, b') /\
    (r = Ret None \/
     (exists d, r = Ret (Some d) /\ complete_browser_result province d) \/
     (exists e, r = Raise e /\ last (trace b') = Some ClosePage /\
                action E (trace b') = Some e)).
Proof.
  assert (forall r b1,
    (r = None \/ exists d, r = Some d /\ complete_browser_result province d) ->
    exists o b',
      finish E r b1 = (o, b') /\
      (o = Ret None \/
       (exists d, o = Ret (Some d) /\ complete_browser_result province d) \/
       (exists e, o = Raise e /\ last (trace b') = Some ClosePage /\
                  action E (trace b') = Some e))) as Hfinish.
  { intros r b1 Hr.
    destruct (finish_spec r b1) as (b' & [-> | (e & -> & Haction & Hlast)] & _).
    - exists (Ret r), b'. split; [done |].
      destruct Hr as [-> | (d & -> & Hd)]; [by left | right; left; by exists d].
    - exists (Raise e), b'. split; [done |]. right; right. by exists e. }
  rewrite browser_check_eq.
  destruct (open_page E (entered b)) as [[[] | e] b1]; [| apply Hfinish; by left].
  destruct (run_steps (steps E province) b1) as [[[] | e] b5];
    [| apply Hfinish; by left | apply Hfinish; by left].
  destruct (conclude_result province b5) as (r & b6 & -> & Hr).
  by apply Hfinish.
Qed.

End BrowserCheckFacts.

(** C3.  The browser check breaks the claim where closing the page
    raises: the [finally] clause awaits [page.close()] outside every
    handler, so the exception leaves the check, which returns neither a
    record nor [None].  On a page without appointments the check raises
    instead of returning [None]; on a page with appointments the record
    that the check had built, and returns when closing works, is lost. *)
Lemma closing_page_raises :
  (exists b',
     Playwright.check_province_appointments (P := ascii_str)
       (sample_browser "No hay citas disponibles" [] [] false)
       "Almeria" fresh_browser
     = (Raise OtherException, b')) /\
  result_dates
    (Playwright.check_province_appointments (P := ascii_str)
       (sample_browser "Seleccione una fecha" [] [] true)
       "Almeria" fresh_browser)
  = Some (VList ["2024-05-01"; "2024-05-02"; "2024-05-03"]) /\
  (Playwright.check_province_appointments (P := ascii_str)
     (sample_browser "Seleccione una fecha" [] [] false)
     "Almeria" fresh_browser).1
  = Raise OtherException /\
  ~ record_or_none_claim.
Proof.
  split; [eexists; by vm_compute |].
  split; [vm_compute; reflexivity |].
  split; [vm_compute; reflexivity |].
  intros [_ Hclaim].
  destruct (Hclaim ascii_str (sample_browser "No hay citas disponibles" [] [] false)
              "Almeria" fresh_browser) as (b' & [Hnone | (d & Hsome & _)]).
  - vm_compute in Hnone. discriminate.
  - vm_compute in Hsome. discriminate.
Qed.

(** What the checks do return.  The HTTP check returns [None] or one
    complete record and never raises; when the initial fetch fails, the
    page has no form, the province is not in the form data, the submission
    fails or its answer is not the service-selection page, it returns
    [None] in the state that this step left.  The browser check returns
    [None] or one complete record unless closing the page raises; when the
    page cannot be opened, or a step fails after the steps before it
    passed, the only effect that follows is the closing of the page, and no
    record is returned. *)
Theorem check_all_or_nothing (P : PyStr) :
  (forall E province b,
     exists b',
       Requests.check_province_appointments E province b = (Ret None, b') \/
       exists d,
         Requests.check_province_appointments E province b = (Ret (Some d), b') /\
         complete_http_result province d) /\
  (forall E province b b1,
     Requests._make_request_with_retry E "GET" Requests.base_url 3 None b
     = (Ret None, b1) ->
     Requests.check_province_appointments E province b = (Ret None, b1)) /\
  (forall E province b b1 first url1 code1,
     Requests._make_request_with_retry E "GET" Requests.base_url 3 None b
     = (Ret (Some (first, url1, code1)), b1) ->
     (Requests.find_form first = None \/
      exists f, Requests.find_form first = Some f /\
                Requests.collect_form_data province f !! "provincia" = None) ->
     Requests.check_province_appointments E province b = (Ret None, b1)) /\
  (forall E province b b1 b2 first url1 code1 f answer,
     Requests._make_request_with_retry E "GET" Requests.base_url 3 None b
     = (Ret (Some (first, url1, code1)), b1) ->
     Requests.find_form first = Some f ->
     is_Some (Requests.collect_form_data province f !! "provincia") ->
     Requests._make_request_with_retry E "POST"
       (if str_truthy (Requests.form_action f)
        then Requests.form_action f else Requests.base_url)
       3 (Some (Requests.collect_form_data province f)) b1
     = (Ret answer, b2) ->
     match answer with
     | None => True
     | Some (_, url, _) => contains url "citar?p=4&locale=es" = false
     end ->
     Requests.check_province_appointments E province b = (Ret None, b2)) /\
  (forall E province b,
     exists r b',
       Playwright.check_province_appointments E province b = (r, b') /\
       (r = Ret None \/
        (exists d, r = Ret (Some d) /\ complete_browser_result province d) \/
        (exists e, r = Raise e /\
                   last (Playwright.trace b') = Some Playwright.ClosePage /\
                   Playwright.action E (Playwright.trace b') = Some e))) /\
  (forall E province b b1 e,
     open_page E (entered b) = (Raise e, b1) ->
     Playwright.check_province_appointments E province b = finish E None b1) /\
  (forall E province b b1 pre (step : M Playwright.bot bool) post b2 b3,
     open_page E (entered b) = (Ret tt, b1) ->
     steps E province = pre ++ step :: post ->
     run_steps pre b1 = (Ret true, b2) ->
     step b2 = (Ret false, b3) ->
     Playwright.check_province_appointments E province b = finish E None b3) /\
  (forall E r b,
     exists b',
       (finish E r b = (Ret r, b') \/
        exists e, finish E r b = (Raise e, b') /\
                  Playwright.action E (Playwright.trace b') = Some e /\
                  last (Playwright.trace b') = Some Playwright.ClosePage) /\
       Playwright.trace b'
       = if Playwright.page b
         then Playwright.trace b ++ [Playwright.ClosePage]
         else Playwright.trace b).
Proof.
  split; [| split; [| split; [| split; [| split; [| split; [| split]]]]]].
  - intros E province b. apply http_check_result.
  - intros E province b b1 Hget. by rewrite http_check_eq, Hget.
  - intros E province b b1 first url1 code1 Hget [Hform | (f & Hform & Hlabel)];
      rewrite http_check_eq, Hget, Hform; [done | by rewrite Hlabel].
  - intros E province b b1 b2 first url1 code1 f answer Hget Hform [v Hv] Hpost Hurl.
    rewrite http_check_eq, Hget, Hform, Hv, Hpost.
    destruct answer as [[[soup url] code] |]; [| done].
    unfold Requests.read_service_page. by rewrite Hurl.
  - intros E province b. apply browser_check_result.
  - intros E province b b1 e Hopen. by rewrite browser_check_eq, Hopen.
  - intros E province b b1 pre step post b2 b3 Hopen Hsteps Hpre Hstep.
    rewrite browser_check_eq, Hopen, Hsteps. cbv beta iota.
    by rewrite (run_steps_stop pre step post b1 b2 b3).
  - intros E r b. apply finish_spec.
Qed.

(** The second province of scenario D: the portal redirects away from the
    info page, so service selection fails and entry form, user data,
    classifier and booking are not run. *)
Lemma check_all_or_nothing_witness :
  exists b1 b2 b3,
    Playwright.check_province_appointments (P := ascii_str)
      (sample_browser "Seleccione una fecha" ["Cadiz"] [] true)
      "Cadiz" fresh_browser
    = finish (sample_browser "Seleccione una fecha" ["Cadiz"] [] true) None b3 /\
    open_page (sample_browser "Seleccione una fecha" ["Cadiz"] [] true)
      (entered fresh_browser) = (Ret tt, b1) /\
    Playwright.select_province
      (sample_browser "Seleccione una fecha" ["Cadiz"] [] true) "Cadiz" b1
    = (Ret true, b2) /\
    Playwright.select_service_type
      (sample_browser "Seleccione una fecha" ["Cadiz"] [] true) b2
    = (Ret false, b3) /\
    last (Playwright.trace b3) = Some (Playwright.WaitForUrl "**/acInfo" 15000).
Proof.
  destruct (check_all_or_nothing ascii_str) as (_ & _ & _ & _ & _ & _ & Hstep & _).
  eexists _, _, _.
  split; [| split; [| split; [| split]]].
  - eapply (Hstep (sample_browser "Seleccione una fecha" ["Cadiz"] [] true) "Cadiz"
              fresh_browser _
              [Playwright.select_province
                 (sample_browser "Seleccione una fecha" ["Cadiz"] [] true) "Cadiz"]
              (Playwright.select_service_type
                 (sample_browser "Seleccione una fecha" ["Cadiz"] [] true))
              [Playwright.proceed_to_entry_form
                 (sample_browser "Seleccione una fecha" ["Cadiz"] [] true);
               Playwright.fill_user_data
                 (sample_browser "Seleccione una fecha" ["Cadiz"] [] true)]).
    + vm_compute. reflexivity.
    + reflexivity.
    + vm_compute. reflexivity.
    + vm_compute. reflexivity.
  - vm_compute. reflexivity.
  - vm_compute. reflexivity.
  - vm_compute. reflexivity.
  - vm_compute. reflexivity.
Defined.

(** ** Dates and booking *)

Section DatesFacts.
Import Playwright.
Context (E : env) {P : PyStr}.





End DatesFacts.




(** * Further properties *)

(** ** The retry policy, whatever the portal answers *)

Section RetryRuns.
Import Requests.
Context (E : env).
Context (method url : string) (data : option (gmap string string)).

Lemma schedule_snoc (n : Z) :
  0 <= n ->
  schedule method url data (n + 1)
  = schedule method url data n ++ attempt_events method url data (n + 1).
Proof.
  intros Hn. unfold schedule.
  rewrite seqZ_app by lia. rewrite flat_map_app.
  rewrite (seqZ_cons (1 + n) 1) by lia. cbn [flat_map Z.pred].
  change (seqZ (Z.succ (1 + n)) (Z.pred 1)) with (@nil Z).
  cbn [flat_map]. rewrite app_nil_r.
  by replace (1 + n) with (n + 1) by lia.
Qed.

Lemma answer_nth b n :
  0 <= n ->
  answer E method url data (after b (schedule method url data n)) n
  = nth_answer E method url data b (n + 1).
Proof.
  intros Hn. unfold answer, nth_answer. cbn.
  by rewrite schedule_snoc, app_assoc.
Qed.

(** The loop stops at the first attempt whose verdict is to return. *)
Lemma retry_loop_first_return max_retries v (k : nat) : forall (a : Z) (n : Z) b,
  0 <= a -> Z.of_nat k < n ->
  (forall j, a <= j < a + Z.of_nat k ->
     verdict max_retries j (nth_answer E method url data b (j + 1)) = Continue) ->
  verdict max_retries (a + Z.of_nat k)
    (nth_answer E method url data b (a + Z.of_nat k + 1)) = Return v ->
  retry_loop E method url data max_retries (seqZ a n)
    (after b (schedule method url data a))
  = (Ret v, after b (schedule method url data (a + Z.of_nat k + 1))).
Proof.
  induction k as [| k IH]; intros a n b Ha Hn Hgo Hstop.
  - rewrite seqZ_cons by lia. rewrite retry_loop_cons by done.
    rewrite answer_nth by done.
    replace (a + Z.of_nat 0) with a in * by lia.
    rewrite Hstop, after_after. by rewrite schedule_snoc.
  - rewrite seqZ_cons by lia. rewrite retry_loop_cons by done.
    rewrite answer_nth by done.
    rewrite (Hgo a) by lia.
    rewrite after_after, <- schedule_snoc by done.
    replace (a + 1) with (Z.succ a) by lia.
    replace (a + Z.of_nat (S k)) with (Z.succ a + Z.of_nat k) in * by lia.
    apply IH; [lia | lia | | done].
    intros j Hj. apply Hgo. lia.
Qed.

(** The effects of the loop over the attempts [a, a+1, ...] are the
    schedule of the attempts that it made. *)
Lemma retry_loop_follows_schedule max_retries (len : nat) : forall (a : Z) b,
  0 <= a ->
  exists j,
    0 <= j <= Z.of_nat len /\ (0 < Z.of_nat len -> 0 < j) /\
    (retry_loop E method url data max_retries (seqZ a (Z.of_nat len))
       (after b (schedule method url data a))).2
    = after b (schedule method url data (a + j)).
Proof.
  induction len as [| len IH]; intros a b Ha.
  - exists 0. split; [lia |]. split; [lia |]. cbn. by rewrite Z.add_0_r.
  - rewrite seqZ_cons by lia. rewrite retry_loop_cons by done.
    replace (Z.pred (Z.of_nat (S len))) with (Z.of_nat len) by lia.
    rewrite after_after, <- schedule_snoc by done.
    destruct (verdict _ _ _).
    + destruct (IH (Z.succ a) b ltac:(lia)) as (j & Hj & _ & Hrun).
      exists (j + 1). split; [lia |]. split; [lia |].
      replace (a + 1) with (Z.succ a) by lia. rewrite Hrun.
      by replace (Z.succ a + j) with (a + (j + 1)) by lia.
    + exists 1. split; [lia |]. split; [lia |]. done.
Qed.

Lemma sleeps_of_schedule (n : nat) : forall k,
  1 <= k ->
  Forall (fun e => e = Request method url data \/
                   exists d, e = Sleep d /\ (d = 2 \/ d = 4 \/ d = 6))
         (flat_map (attempt_events method url data) (seqZ k (Z.of_nat n))).
Proof.
  induction n as [| n IH]; intros k Hk1; [done |].
  rewrite seqZ_cons by lia.
  replace (Z.pred (Z.of_nat (S n))) with (Z.of_nat n) by lia.
  cbn [flat_map]. apply Forall_app. split; [| apply IH; lia].
  unfold attempt_events. destruct (Z.eqb_spec k 1) as [-> | Hk].
  { apply Forall_cons. split; [by left | done]. }
  apply Forall_cons. split; [| apply Forall_cons; split; [by left | done]].
  right. eexists. split; [done |]. unfold backoff_delay.
  destruct (Z.eq_dec k 2) as [-> | H2]; [by left |].
  destruct (Z.eq_dec k 3) as [-> | H3]; [right; by left |].
  right; right. apply (backoff_delay_cap k). lia.
Qed.

End RetryRuns.

Lemma verdict_retryable max_retries attempt a :
  retryable a ->
  verdict max_retries attempt a
  = if attempt =? max_retries - 1 then Return None else Continue.
Proof.
  intros (f & Hfail & Hkind).
  destruct (Z.eqb_spec attempt (max_retries - 1)) as [-> | Hmore].
  - unfold verdict, failure_of in *. rewrite Z.eqb_refl.
    destruct a as [e | r]; [done |].
    destruct (500 <=? Requests.status r); [done |].
    destruct (400 <=? Requests.status r); [congruence |].
    by destruct (Requests.read r).
  - rewrite (verdict_of_failure max_retries attempt a f) by done. by destruct f.
Qed.

Lemma range_seqZ m : range m = seqZ 0 (Z.of_nat (Z.to_nat m)).
Proof.
  unfold range. destruct (Z_le_gt_dec 0 m).
  - by rewrite Z2Nat.id.
  - rewrite !seqZ_nil by lia. done.
Qed.

Lemma make_request_schedule
    (E : Requests.env) (method url : string) (m : Z)
    (data : option (gmap string string)) (b : Requests.bot) :
  exists j,
    0 <= j <= Z.max m 0 /\ (1 <= m -> 1 <= j) /\
    (Requests._make_request_with_retry E method url m data b).2
    = after b (schedule method url data j).
Proof.
  unfold Requests._make_request_with_retry. rewrite range_seqZ.
  destruct (retry_loop_follows_schedule E method url data m (Z.to_nat m) 0 b)
    as (j & Hj & Hpos & Hrun); [done |].
  unfold schedule at 1 in Hrun. cbn [seqZ flat_map] in Hrun.
  change (seqZ 1 0) with (@nil Z) in Hrun. cbn [flat_map] in Hrun.
  rewrite after_nil in Hrun.
  exists j. split; [lia |]. split; [lia | done].
Qed.

(** X1.  Whatever the portal answers, the effects of a call are the first
    [j] attempts of the backoff schedule for some [j] that is not more
    than [max_retries], and [self.consecutive_failures] is left alone:
    never more than [max_retries] requests, none at all when
    [max_retries] is not positive, at least one otherwise, and never a
    pause other than 2, 4 or 6 seconds. *)
Theorem retry_follows_schedule
    (E : Requests.env) (method url : string) (m : Z)
    (data : option (gmap string string)) (b : Requests.bot) :
  exists j,
    0 <= j <= Z.max m 0 /\ (1 <= m -> 1 <= j) /\
    (Requests._make_request_with_retry E method url m data b).2
    = after b (schedule method url data j) /\
    requests (schedule method url data j) = Z.to_nat j /\
    Forall (fun e => e = Requests.Request method url data \/
                     exists d, e = Requests.Sleep d /\ (d = 2 \/ d = 4 \/ d = 6))
           (schedule method url data j).
Proof.
  destruct (make_request_schedule E method url m data b) as (j & Hj & Hpos & Hrun).
  exists j. split; [lia |]. split; [lia |]. split; [done |]. split.
  - unfold schedule. rewrite <- (Z2Nat.id j) at 1 by lia.
    apply requests_schedule.
  - unfold schedule. rewrite <- (Z2Nat.id j) by lia.
    by apply sleeps_of_schedule.
Qed.

(** X2.  When the first [k] attempts of a call fail in a way that is
    retried, [k] being less than [max_retries], and attempt [k+1] gets a
    response with a status below 400 whose body can be read, the call returns
    that body with the final URL and the status, after exactly [k+1]
    requests and the pauses of the schedule between them. *)
Theorem first_success_returned
    (E : Requests.env) (method url : string) (m : Z)
    (data : option (gmap string string)) (b : Requests.bot)
    (k : nat) (r : Requests.response) (content : Requests.html) :
  Z.of_nat k < m ->
  (forall j, 1 <= j <= Z.of_nat k ->
     retryable (nth_answer E method url data b j)) ->
  succeeds (nth_answer E method url data b (Z.of_nat k + 1)) r content ->
  Requests._make_request_with_retry E method url m data b
  = (Ret (Some (content, Requests.response_url r, Requests.status r)),
     after b (schedule method url data (Z.of_nat k + 1))).
Proof.
  intros Hk Hfail (Hanswer & Hstatus & Hread).
  unfold Requests._make_request_with_retry, range.
  rewrite <- (after_nil b) at 1.
  change (@nil Requests.event) with (schedule method url data 0).
  apply (retry_loop_first_return E method url data m _ k 0 m b); [done | done | |].
  - intros j Hj. rewrite verdict_retryable by (apply Hfail; lia).
    by replace (j =? m - 1) with false by lia.
  - replace (0 + Z.of_nat k + 1) with (Z.of_nat k + 1) by lia.
    rewrite Hanswer. unfold verdict.
    replace (500 <=? Requests.status r) with false by lia.
    replace (400 <=? Requests.status r) with false by lia.
    by rewrite Hread.
Qed.

Lemma first_success_returned_witness :
  Requests._make_request_with_retry (flaky 2 ServerTimeoutError 200)
    "GET" Requests.base_url 3 None fresh
  = (Ret (Some (empty_page, Requests.base_url, 200)),
     after fresh
       [ Requests.Request "GET" Requests.base_url None;
         Requests.Sleep 2;
         Requests.Request "GET" Requests.base_url None;
         Requests.Sleep 4;
         Requests.Request "GET" Requests.base_url None ]).
Proof.
  apply (first_success_returned (flaky 2 ServerTimeoutError 200) "GET"
           Requests.base_url 3 None fresh 2
           {| Requests.status := 200; Requests.response_url := Requests.base_url;
              Requests.read := inr empty_page |} empty_page).
  - lia.
  - intros j Hj. exists Timeout.
    assert (j = 1 \/ j = 2) as [-> | ->] by lia; by vm_compute.
  - by vm_compute.
Defined.

(** X3.  When the first [k] attempts of a call fail in a way that is
    retried, [k] being less than [max_retries], and attempt [k+1] gets a
    status in [400, 500), the call returns [None] after exactly [k+1]
    requests: the attempts that are left are not used. *)
Theorem client_error_ends_retries
    (E : Requests.env) (method url : string) (m : Z)
    (data : option (gmap string string)) (b : Requests.bot)
    (k : nat) (r : Requests.response) :
  Z.of_nat k < m ->
  (forall j, 1 <= j <= Z.of_nat k ->
     retryable (nth_answer E method url data b j)) ->
  nth_answer E method url data b (Z.of_nat k + 1) = inr r ->
  400 <= Requests.status r < 500 ->
  Requests._make_request_with_retry E method url m data b
  = (Ret None, after b (schedule method url data (Z.of_nat k + 1))).
Proof.
  intros Hk Hfail Hanswer Hstatus.
  unfold Requests._make_request_with_retry, range.
  rewrite <- (after_nil b) at 1.
  change (@nil Requests.event) with (schedule method url data 0).
  apply (retry_loop_first_return E method url data m _ k 0 m b); [done | done | |].
  - intros j Hj. rewrite verdict_retryable by (apply Hfail; lia).
    by replace (j =? m - 1) with false by lia.
  - replace (0 + Z.of_nat k + 1) with (Z.of_nat k + 1) by lia.
    rewrite Hanswer. unfold verdict.
    replace (500 <=? Requests.status r) with false by lia.
    by replace (400 <=? Requests.status r) with true by lia.
Qed.

Lemma client_error_ends_retries_witness :
  Requests._make_request_with_retry (flaky 1 ClientConnectorError 403)
    "GET" Requests.base_url 5 None fresh
  = (Ret None,
     after fresh
       [ Requests.Request "GET" Requests.base_url None;
         Requests.Sleep 2;
         Requests.Request "GET" Requests.base_url None ]).
Proof.
  apply (client_error_ends_retries (flaky 1 ClientConnectorError 403) "GET"
           Requests.base_url 5 None fresh 1
           {| Requests.status := 403; Requests.response_url := Requests.base_url;
              Requests.read := inr empty_page |}).
  - lia.
  - intros j Hj. exists ConnectionFailure.
    assert (j = 1) as -> by lia. by vm_compute.
  - by vm_compute.
  - cbn. lia.
Defined.

(** X4.  When every one of the [max_retries] attempts fails in a way that
    is retried, whatever the mix of server errors, connection failures,
    timeouts and other exceptions, the call returns [None] after exactly
    [max_retries] requests and the pauses of the schedule. *)
Theorem failures_exhaust_retries
    (E : Requests.env) (method url : string) (m : Z)
    (data : option (gmap string string)) (b : Requests.bot) :
  0 <= m ->
  (forall j, 1 <= j <= m -> retryable (nth_answer E method url data b j)) ->
  Requests._make_request_with_retry E method url m data b
  = (Ret None, after b (schedule method url data m)).
Proof.
  intros Hm Hfail.
  unfold Requests._make_request_with_retry, range.
  destruct (Z.eq_dec m 0) as [-> | Hpos].
  { cbn. by rewrite after_nil. }
  pose proof (retry_loop_first_return E method url data m None
                (Z.to_nat (m - 1)) 0 m b) as Hloop.
  replace (0 + Z.of_nat (Z.to_nat (m - 1)) + 1) with m in Hloop by lia.
  replace (0 + Z.of_nat (Z.to_nat (m - 1))) with (m - 1) in Hloop by lia.
  unfold schedule at 1 in Hloop. change (seqZ 1 0) with (@nil Z) in Hloop.
  cbn [flat_map] in Hloop. rewrite after_nil in Hloop.
  apply Hloop; [done | lia | |].
  - intros j Hj. rewrite verdict_retryable by (apply Hfail; lia).
    by replace (j =? m - 1) with false by lia.
  - rewrite verdict_retryable by (apply Hfail; lia).
    by rewrite Z.eqb_refl.
Qed.

Lemma failures_exhaust_retries_witness :
  Requests._make_request_with_retry (flaky 5 OtherException 200)
    "POST" Requests.base_url 2 None fresh
  = (Ret None,
     after fresh
       [ Requests.Request "POST" Requests.base_url None;
         Requests.Sleep 2;
         Requests.Request "POST" Requests.base_url None ]).
Proof.
  apply (failures_exhaust_retries (flaky 5 OtherException 200) "POST"
           Requests.base_url 2 None fresh).
  - lia.
  - intros j Hj. exists Unexpected.
    assert (j = 1 \/ j = 2) as [-> | ->] by lia; by vm_compute.
Defined.

(** ** Label resolution and the submitted form *)

Section FormRuns.
Import Requests.
Context {P : PyStr}.

Lemma resolve_label_some province options v :
  resolve_label province options = Some v <->
  exists pre o post,
    options = pre ++ o :: post /\
    (forall o', o' ∈ pre -> strip (option_text o') <> province) /\
    strip (option_text o) = province /\
    v = attr_or_empty (option_attrs o) "value".
Proof.
  induction options as [| o rest IH]; cbn [resolve_label].
  - split; [done |]. intros (pre & o & post & Heq & _). by destruct pre.
  - destruct (String.eqb_spec (strip (option_text o)) province) as [Hmatch | Hother].
    + split.
      * intros [= <-]. exists [], o, rest. repeat split; [| done].
        intros o' Hin. by apply elem_of_nil in Hin.
      * intros ([| o0 pre] & o1 & post & Heq & Hpre & Ho1 & ->).
        -- by injection Heq as <- _.
        -- injection Heq as <- _. exfalso. apply (Hpre o); [by left | done].
    + rewrite IH. split.
      * intros (pre & o1 & post & -> & Hpre & Ho1 & ->).
        exists (o :: pre), o1, post. repeat split; [| done].
        intros o' Hin. apply elem_of_cons in Hin as [-> | Hin]; [done | by apply Hpre].
      * intros ([| o0 pre] & o1 & post & Heq & Hpre & Ho1 & ->).
        -- injection Heq as <- _. done.
        -- injection Heq as <- ->. exists pre, o1, post. repeat split; [| done].
           intros o' Hin. apply Hpre. by right.
Qed.

(** The province select writes the resolved value under [provincia]. *)
Lemma collect_field_select province form_data t v :
  province_select t ->
  resolve_label province (tag_options t) = Some v ->
  collect_field province form_data t !! "provincia" = Some v.
Proof.
  intros [Hselect Hname] Hlabel. unfold collect_field.
  rewrite Hname, Hselect, Hlabel. cbn. apply lookup_insert_eq.
Qed.

(** Every entry of the mapping was written by a field of that name. *)
Lemma collect_fields_origin province fields name v : forall form_data,
  fold_left (collect_field province) fields form_data !! name = Some v ->
  form_data !! name = Some v \/
  exists t, t ∈ fields /\ tag_attrs t !! "name" = Some name /\ name <> EmptyString /\
    (v = attr_or_empty (tag_attrs t) "value" /\ ~ submit_input t \/
     province_select t /\ resolve_label province (tag_options t) = Some v).
Proof.
  induction fields as [| t rest IH]; intros form_data Hv; [by left |].
  cbn in Hv. apply IH in Hv as [Hv | (t' & Hin & Hrest)];
    [| right; exists t'; split; [by right | done]].
  destruct (decide (tag_attrs t !! "name" = Some name)) as [Hname | Hname];
    [| left; by rewrite collect_field_other in Hv].
  unfold collect_field in Hv. rewrite Hname in Hv.
  destruct name as [| c name]; [by left |]. cbn [str_truthy] in Hv.
  destruct (String.eqb_spec (tag_name t) "select") as [Hselect | Hselect];
    cbn [andb] in Hv.
  - destruct (String.eqb_spec (String c name) "provincia") as [Hprov | Hprov].
    + destruct (resolve_label province (tag_options t)) as [v' |] eqn:Hlabel;
        [| by left].
      rewrite Hprov, lookup_insert_eq in Hv. injection Hv as <-.
      right. exists t. split; [by left |]. split; [done |]. split; [done |].
      right. split; [| done]. split; [done | by rewrite Hname, Hprov].
    + assert (forall w, <[String c name := w]> form_data !! String c name = Some v ->
                        w = v) as Hw.
      { intros w. rewrite lookup_insert_eq. congruence. }
      destruct (attr_is _ "type" "hidden").
      { apply Hw in Hv as <-. right. exists t. split; [by left |].
        split; [done |]. split; [done |]. left. split; [done |].
        intros [Hinput _]. congruence. }
      destruct (attr_is _ "type" "submit"); [by left |].
      apply Hw in Hv as <-. right. exists t. split; [by left |].
      split; [done |]. split; [done |]. left. split; [done |].
      intros [Hinput _]. congruence.
  - assert (forall w, <[String c name := w]> form_data !! String c name = Some v ->
                      w = v) as Hw.
    { intros w. rewrite lookup_insert_eq. congruence. }
    destruct (attr_is _ "type" "hidden") eqn:Hhidden.
    { apply Hw in Hv as <-. right. exists t. split; [by left |].
      split; [done |]. split; [done |]. left. split; [done |].
      intros [_ Hsubmit]. apply attr_is_eq in Hhidden, Hsubmit. congruence. }
    destruct (attr_is _ "type" "submit") eqn:Hsubmit; [by left |].
    apply Hw in Hv as <-. right. exists t. split; [by left |].
    split; [done |]. split; [done |]. left. split; [done |].
    intros [_ Hsubmit']. congruence.
Qed.

End FormRuns.

(** ** The HTTP check of one province *)

Section HttpRuns.
Import Requests.
Context (E : env) {P : PyStr}.

Lemma submit_url_eq f :
  (if str_truthy (form_action f) then form_action f else base_url) = submit_url f.
Proof.
  unfold form_action, submit_url, attr_or_empty.
  destruct (form_attrs f !! "action") as [action |];
    cbv [default from_option id]; [| done].
  destruct (startswith action "/"); [reflexivity |].
  by destruct (str_truthy action).
Qed.

Lemma read_service_page_state province answer b :
  (read_service_page E province answer b).2 = b.
Proof.
  destruct answer as [[soup url] code]. unfold read_service_page.
  destruct (contains url _); [| done].
  destruct (any_indicator no_appointment_indicators _); [done |].
  by destruct (any_indicator appointment_indicators _).
Qed.

Lemma read_service_page_eq province soup url code b :
  read_service_page E province (soup, url, code) b
  = (Ret (if reports_appointments soup url
          then Some (appointment_record province (now E (trace b)) url soup)
          else None), b).
Proof.
  unfold read_service_page, reports_appointments, lands_on_service_page.
  destruct (contains url _); [| done]. cbn [andb].
  destruct (any_indicator no_appointment_indicators _); [done |]. cbn [negb andb].
  by destruct (any_indicator appointment_indicators _).
Qed.

(** A call that is allowed an attempt starts with its request. *)
Lemma make_request_first method url m data b :
  1 <= m ->
  exists rest,
    trace (_make_request_with_retry E method url m data b).2
    = trace b ++ Request method url data :: rest.
Proof.
  intros Hm.
  destruct (make_request_schedule E method url m data b) as (j & Hj & Hpos & ->).
  unfold schedule. rewrite seqZ_cons by lia. cbn [flat_map].
  unfold attempt_events at 1. cbn. by eexists.
Qed.

(** The state in which a check ends, step by step. *)
Lemma http_check_state province b :
  (check_province_appointments E province b).2 =
  let b1 := (_make_request_with_retry E "GET" base_url 3 None b).2 in
  match (_make_request_with_retry E "GET" base_url 3 None b).1 with
  | Ret (Some (soup, _, _)) =>
      match find_form soup with
      | Some f =>
          match collect_form_data province f !! "provincia" with
          | Some _ =>
              (_make_request_with_retry E "POST" (submit_url f) 3
                 (Some (collect_form_data province f)) b1).2
          | None => b1
          end
      | None => b1
      end
  | _ => b1
  end.
Proof.
  rewrite http_check_eq.
  destruct (_make_request_with_retry E "GET" _ _ _ b)
    as [[[[[soup url] code] |] | e] b1]; cbn; [| done | done].
  destruct (find_form soup) as [f |]; [| done].
  destruct (collect_form_data province f !! "provincia"); [| done].
  rewrite submit_url_eq.
  destruct (_make_request_with_retry E "POST" _ _ _ b1) as [[[answer |] | e] b2];
    cbn; [| done | done].
  pose proof (read_service_page_state province answer b2) as Hstate.
  by destruct (read_service_page E province answer b2) as [[r | e] b3].
Qed.

Lemma appointment_record_keys province timestamp url soup :
  let d := appointment_record province timestamp url soup in
  d !! "province" = Some (VStr province) /\
  d !! "timestamp" = Some (VStr timestamp) /\
  d !! "page_url" = Some (VStr url) /\
  d !! "calendar_found"
  = (if nonempty (calendar_tables soup) then Some (VBool true) else None) /\
  d !! "date_selection_available"
  = (if nonempty (date_inputs soup) then Some (VBool true) else None) /\
  d !! "dates" = None /\ d !! "office" = None /\ d !! "booking_attempted" = None.
Proof.
  unfold appointment_record.
  destruct (nonempty (calendar_tables soup)), (nonempty (date_inputs soup));
    cbn zeta; by simplify_map_eq.
Qed.

End HttpRuns.

(** X5.  Label resolution returns a value exactly when some option of the
    select has the province as its stripped text, and the value is that of
    the first such option (the empty string when this option has no
    [value] attribute). *)
Theorem label_resolves_to_first_match
    (P : PyStr) (province : string) (options : list Requests.option_tag)
    (v : string) :
  Requests.resolve_label province options = Some v <->
  exists pre o post,
    options = pre ++ o :: post /\
    (forall o', o' ∈ pre -> strip (Requests.option_text o') <> province) /\
    strip (Requests.option_text o) = province /\
    v = Requests.attr_or_empty (Requests.option_attrs o) "value".
Proof. apply resolve_label_some. Qed.

(** X6.  Every entry of the form data was written by a field of the form
    that carries the entry's name, a non-empty one: its value is the
    [value] attribute of that field, which is not a submit-type input, or
    the value resolved from the options of that field, a province select.
    The extractor invents neither keys nor values. *)
Theorem form_data_comes_from_fields
    (P : PyStr) (province : string) (f : Requests.form) (name v : string) :
  Requests.collect_form_data province f !! name = Some v ->
  exists t,
    t ∈ Requests.form_fields f /\
    Requests.tag_attrs t !! "name" = Some name /\ name <> EmptyString /\
    (v = Requests.attr_or_empty (Requests.tag_attrs t) "value" /\ ~ submit_input t \/
     province_select t /\
     Requests.resolve_label province (Requests.tag_options t) = Some v).
Proof.
  intros Hv. unfold Requests.collect_form_data in Hv.
  apply collect_fields_origin in Hv as [Hv | Ht]; [| done].
  by rewrite lookup_empty in Hv.
Qed.

Lemma form_data_comes_from_fields_witness :
  exists t,
    t ∈ Requests.form_fields portal_form /\
    Requests.tag_attrs t !! "name" = Some "provincia" /\
    "provincia" <> EmptyString /\
    ("5" = Requests.attr_or_empty (Requests.tag_attrs t) "value" /\ ~ submit_input t \/
     province_select t /\
     Requests.resolve_label (P := ascii_str) "Almeria" (Requests.tag_options t)
     = Some "5").
Proof.
  apply (form_data_comes_from_fields ascii_str "Almeria" portal_form "provincia" "5").
  by vm_compute.
Defined.

(** X7.  When the initial page was fetched and its form has a province
    select one of whose options has the province as its stripped text, no
    later field of the form being named [provincia], the next effect of
    the check is the [POST] of the form data, in which [provincia] is the
    value of the first such option.  The request goes to the origin
    followed by the action of the form when the action starts with a slash,
    to the action when it is some other non-empty text, and to the start
    address when the form has no action. *)
Theorem province_value_submitted
    (P : PyStr) (E : Requests.env) (province : string) (b b1 : Requests.bot)
    (first : Requests.html) (url1 : string) (code1 : Z) (f : Requests.form)
    (pre : list Requests.tag) (select : Requests.tag) (post : list Requests.tag)
    (before : list Requests.option_tag) (o : Requests.option_tag)
    (behind : list Requests.option_tag) :
  Requests._make_request_with_retry E "GET" Requests.base_url 3 None b
  = (Ret (Some (first, url1, code1)), b1) ->
  Requests.find_form first = Some f ->
  Requests.form_fields f = pre ++ select :: post ->
  province_select select ->
  Requests.tag_options select = before ++ o :: behind ->
  (forall o', o' ∈ before -> strip (Requests.option_text o') <> province) ->
  strip (Requests.option_text o) = province ->
  (forall t, t ∈ post -> Requests.tag_attrs t !! "name" <> Some "provincia") ->
  exists rest,
    Requests.trace (Requests.check_province_appointments E province b).2
    = Requests.trace b1
      ++ Requests.Request "POST" (submit_url f)
           (Some (Requests.collect_form_data province f)) :: rest /\
    Requests.collect_form_data province f !! "provincia"
    = Some (Requests.attr_or_empty (Requests.option_attrs o) "value").
Proof.
  intros Hget Hform Hfields Hselect Hoptions Hbefore Ho Hpost.
  assert (Requests.collect_form_data province f !! "provincia"
          = Some (Requests.attr_or_empty (Requests.option_attrs o) "value")) as Hvalue.
  { unfold Requests.collect_form_data. rewrite Hfields, fold_left_app. cbn.
    rewrite collect_fields_other by done.
    apply collect_field_select; [done |].
    apply resolve_label_some. by exists before, o, behind. }
  rewrite http_check_state, Hget. cbn. rewrite Hform, Hvalue.
  destruct (make_request_first E "POST" (submit_url f) 3
              (Some (Requests.collect_form_data province f)) b1) as [rest Hrest];
    [lia |].
  by exists rest.
Qed.

Lemma province_value_submitted_witness :
  exists rest,
    Requests.trace
      (Requests.check_province_appointments (P := ascii_str)
         (portal (page_with portal_form EmptyString) empty_page) "Almeria" fresh).2
    = Requests.trace (after fresh [Requests.Request "GET" Requests.base_url None])
      ++ Requests.Request "POST" (submit_url portal_form)
           (Some (Requests.collect_form_data (P := ascii_str) "Almeria" portal_form))
         :: rest /\
    Requests.collect_form_data (P := ascii_str) "Almeria" portal_form !! "provincia"
    = Some (Requests.attr_or_empty
              (Requests.option_attrs (option_of " Almeria " "5")) "value").
Proof.
  apply (province_value_submitted ascii_str
           (portal (page_with portal_form EmptyString) empty_page) "Almeria" fresh
           (after fresh [Requests.Request "GET" Requests.base_url None])
           (page_with portal_form EmptyString) Requests.base_url 200 portal_form
           [input "hidden" "token" "abc"] provincia_select
           [input "submit" "btnAceptar" "Aceptar"]
           [option_of " Albacete " "2"] (option_of " Almeria " "5") []).
  - reflexivity.
  - reflexivity.
  - reflexivity.
  - by split.
  - reflexivity.
  - intros o' Hin. apply list_elem_of_singleton in Hin as ->. by vm_compute.
  - by vm_compute.
  - intros t Hin. apply list_elem_of_singleton in Hin as ->. by vm_compute.
Defined.

(** X8.  Once the province was submitted and answered, the check reports
    appointments exactly when the answer is the service-selection page,
    holds no negative phrase and holds a positive phrase, and otherwise
    returns [None].  The record holds the province, the time and the
    address of the answer, [calendar_found] exactly when the answer has a
    calendar table, [date_selection_available] exactly when it has a date
    field, and neither dates, nor an office, nor [booking_attempted]. *)
Theorem service_page_classified
    (P : PyStr) (E : Requests.env) (province : string) (b b1 b2 : Requests.bot)
    (first : Requests.html) (url1 : string) (code1 : Z) (f : Requests.form)
    (soup : Requests.html) (url : string) (code : Z) :
  Requests._make_request_with_retry E "GET" Requests.base_url 3 None b
  = (Ret (Some (first, url1, code1)), b1) ->
  Requests.find_form first = Some f ->
  is_Some (Requests.collect_form_data province f !! "provincia") ->
  Requests._make_request_with_retry E "POST" (submit_url f) 3
    (Some (Requests.collect_form_data province f)) b1
  = (Ret (Some (soup, url, code)), b2) ->
  let d := Requests.appointment_record province
             (Requests.now E (Requests.trace b2)) url soup in
  Requests.check_province_appointments E province b
  = (Ret (if reports_appointments soup url then Some d else None), b2) /\
  d !! "province" = Some (VStr province) /\
  d !! "timestamp" = Some (VStr (Requests.now E (Requests.trace b2))) /\
  d !! "page_url" = Some (VStr url) /\
  d !! "calendar_found"
  = (if Requests.nonempty (Requests.calendar_tables soup)
     then Some (VBool true) else None) /\
  d !! "date_selection_available"
  = (if Requests.nonempty (Requests.date_inputs soup)
     then Some (VBool true) else None) /\
  d !! "dates" = None /\ d !! "office" = None /\ d !! "booking_attempted" = None.
Proof.
  intros Hget Hform [v Hv] Hpost d. split; [| apply appointment_record_keys].
  rewrite http_check_eq, Hget, Hform, Hv, submit_url_eq, Hpost.
  by rewrite read_service_page_eq.
Qed.

Lemma service_page_classified_witness :
  Requests.check_province_appointments (P := ascii_str)
    (portal (page_with portal_form EmptyString)
       (page_with portal_form "Seleccione una FECHA"))
    "Almeria" fresh
  = (Ret (Some (Requests.appointment_record "Almeria" "2024-05-01T10:00:00"
                  (Requests.origin +:+ "/icpplus/citar?p=4&locale=es")
                  (page_with portal_form "Seleccione una FECHA"))),
     after fresh
       [ Requests.Request "GET" Requests.base_url None;
         Requests.Request "POST" (submit_url portal_form)
           (Some (Requests.collect_form_data (P := ascii_str) "Almeria" portal_form)) ]).
Proof.
  destruct (service_page_classified ascii_str
              (portal (page_with portal_form EmptyString)
                 (page_with portal_form "Seleccione una FECHA"))
              "Almeria" fresh
              (after fresh [Requests.Request "GET" Requests.base_url None])
              (after fresh
                 [ Requests.Request "GET" Requests.base_url None;
                   Requests.Request "POST" (submit_url portal_form)
                     (Some (Requests.collect_form_data (P := ascii_str)
                              "Almeria" portal_form)) ])
              (page_with portal_form EmptyString) Requests.base_url 200 portal_form
              (page_with portal_form "Seleccione una FECHA")
              (Requests.origin +:+ "/icpplus/citar?p=4&locale=es") 200)
    as [Hrun _].
  - reflexivity.
  - reflexivity.
  - exists "5". vm_compute. reflexivity.
  - vm_compute. reflexivity.
  - revert Hrun. vm_compute. intros Hrun. exact Hrun.
Defined.

(** The effects of a check are a run of [GET] attempts followed by a run of
    [POST] attempts. *)
Lemma http_check_schedule
    (P : PyStr) (E : Requests.env) (province : string) (b : Requests.bot) :
  exists gets posts target form_data,
    1 <= gets <= 3 /\ 0 <= posts <= 3 /\
    (Requests.check_province_appointments E province b).2
    = after b (schedule "GET" Requests.base_url None gets
               ++ schedule "POST" target (Some form_data) posts).
Proof.
  rewrite http_check_state.
  destruct (make_request_schedule E "GET" Requests.base_url 3 None b)
    as (gets & Hgets & Hone & Hfetched).
  assert (exists posts target form_data,
            0 <= posts <= 3 /\
            (Requests._make_request_with_retry E "GET" Requests.base_url 3 None b).2
            = after b (schedule "GET" Requests.base_url None gets
                       ++ schedule "POST" target (Some form_data) posts)) as Hnone.
  { exists 0, EmptyString, ∅. split; [lia |]. rewrite Hfetched.
    unfold schedule at 2. change (seqZ 1 0) with (@nil Z). cbn [flat_map].
    by rewrite app_nil_r. }
  cbn zeta.
  destruct (Requests._make_request_with_retry E "GET" _ _ _ b).1
    as [[[[soup url] code] |] | e];
    [| by destruct Hnone as (posts & target & form_data & Hposts & ->);
          exists gets, posts, target, form_data; split; [lia |]..].
  assert (exists posts target form_data, 0 <= posts <= 3 /\
            (Requests._make_request_with_retry E "GET" Requests.base_url 3 None b).2
            = after b (schedule "GET" Requests.base_url None gets
                       ++ schedule "POST" target (Some form_data) posts)) as Hnone'
    by done.
  destruct (Requests.find_form soup) as [f |];
    [| by destruct Hnone as (posts & target & form_data & Hposts & ->);
          exists gets, posts, target, form_data; split; [lia |]].
  destruct (Requests.collect_form_data province f !! "provincia");
    [| by destruct Hnone as (posts & target & form_data & Hposts & ->);
          exists gets, posts, target, form_data; split; [lia |]].
  destruct (make_request_schedule E "POST" (submit_url f) 3
              (Some (Requests.collect_form_data province f))
              (Requests._make_request_with_retry E "GET" Requests.base_url 3 None b).2)
    as (posts & Hposts & _ & ->).
  exists gets, posts, (submit_url f), (Requests.collect_form_data province f).
  split; [lia |]. split; [lia |]. by rewrite Hfetched, after_after.
Qed.

(** X9.  Whatever the portal answers, the effects of the check of a
    province are between one and three [GET] attempts on the start address
    followed by at most three [POST] attempts of one form to one address,
    each run of attempts with the pauses of the backoff schedule: at most
    six requests, no [POST] before the page was fetched, no notification,
    and [self.consecutive_failures] is left alone. *)
Theorem check_request_budget
    (P : PyStr) (E : Requests.env) (province : string) (b : Requests.bot) :
  exists gets posts target form_data,
    1 <= gets <= 3 /\ 0 <= posts <= 3 /\
    (Requests.check_province_appointments E province b).2
    = after b (schedule "GET" Requests.base_url None gets
               ++ schedule "POST" target (Some form_data) posts).
Proof. apply http_check_schedule. Qed.

(** ** The notifier *)

Section NotifierFacts.
Import Telegram.
Context (E : env) (self : notifier).

Lemma append_assoc (a b c : string) : (a +:+ b) +:+ c = a +:+ (b +:+ c).
Proof.
  induction a as [| ch a IH]; [done |].
  change (String ch ((a +:+ b) +:+ c) = String ch (a +:+ (b +:+ c))).
  by rewrite IH.
Qed.

Lemma send_message_eq message t :
  send_message E self message t
  = (Ret (match session_post E (t ++ [Post (api_url self +:+ "/sendMessage")
                                        (payload_of self message)]) with
          | inr status => status =? 200
          | inl _ => false
          end),
     t ++ [Post (api_url self +:+ "/sendMessage") (payload_of self message)]).
Proof.
  unfold send_message, try_except, bind, post, payload_of.
  destruct (session_post E _) as [e | status]; [done |].
  by destruct (status =? 200).
Qed.

(** Formatting never raises and leaves the trace alone. *)
Lemma format_appointment_message_total province info t :
  exists message, format_appointment_message E province info t = (Ret message, t).
Proof.
  unfold format_appointment_message, try_except, bind, clock.
  destruct (info !! "dates") as [dates |]; [| by eexists].
  destruct (truthy dates); [| by eexists].
  destruct dates as [s | [] | l |]; cbn; by eexists.
Qed.

Lemma add_date_lines_prefix items message :
  add_date_lines message items = message +:+ add_date_lines EmptyString items.
Proof.
  unfold add_date_lines. generalize (take 5 items). clear items.
  intros items. revert message.
  induction items as [| date items IH]; intros message; cbn [fold_left].
  - induction message as [| c message IHm]; [done |].
    change (String c message = String c (message +:+ EmptyString)). by rewrite <- IHm.
  - rewrite IH, (IH (EmptyString +:+ date_line date)).
    by rewrite <- append_assoc.
Qed.

End NotifierFacts.

(** X10.  Sending the notification of a result never raises.  It formats
    one message, which formatting cannot fail to give, posts it once to the
    [sendMessage] address of the bot with the chat of the notifier, as
    HTML and without preview, and answers [True] exactly when Telegram
    answered with the status 200: an exception of the request and any other
    status give [False]. *)
Theorem notification_sent_once
    (E : Telegram.env) (self : Telegram.notifier) (province : string)
    (info : dict) (t : list Telegram.event) :
  exists message,
    Telegram.format_appointment_message E province info t = (Ret message, t) /\
    let sent := t ++ [Telegram.Post (Telegram.api_url self +:+ "/sendMessage")
                        (payload_of self message)] in
    Telegram.send_appointment_notification E self province info t
    = (Ret (match Telegram.session_post E sent with
            | inr status => status =? 200
            | inl _ => false
            end), sent) /\
    payload_of self message !! "text" = Some (VStr message) /\
    payload_of self message !! "chat_id" = Some (VStr (Telegram.chat_id self)) /\
    payload_of self message !! "parse_mode" = Some (VStr "HTML").
Proof.
  destruct (format_appointment_message_total E province info t) as [message Hformat].
  exists message. split; [done |]. split; [| by unfold payload_of; simplify_map_eq].
  unfold Telegram.send_appointment_notification, try_except, bind.
  by rewrite Hformat, send_message_eq.
Qed.

(** X11.  A message lists five dates at most: of the dates behind the
    fifth only the number shows.  Two results that differ only in the dates
    behind the fifth, and have as many dates, get the same message. *)
Theorem dates_behind_fifth_only_counted
    (E : Telegram.env) (province : string) (info : dict)
    (dates dates' : list string) (t : list Telegram.event) :
  take 5 dates = take 5 dates' ->
  length dates = length dates' ->
  Telegram.format_appointment_message E province (<["dates" := VList dates]> info) t
  = Telegram.format_appointment_message E province (<["dates" := VList dates']> info) t.
Proof.
  intros Htake Hlength.
  unfold Telegram.format_appointment_message, try_except, bind, Telegram.clock.
  rewrite !lookup_insert_eq, !lookup_insert_ne by done.
  assert (truthy (VList dates) = truthy (VList dates')) as ->.
  { destruct dates, dates'; done. }
  destruct (truthy (VList dates')); [| done].
  cbn [Telegram.date_items ret]. unfold Telegram.add_date_lines.
  by rewrite Htake, Hlength.
Qed.

Lemma dates_behind_fifth_only_counted_witness :
  Telegram.format_appointment_message (telegram 200) "Almeria"
    (<["dates" := VList ["a"; "b"; "c"; "d"; "e"; "f"; "g"] ]>
       (<["office" := VStr "Oficina"]> ∅)) []
  = Telegram.format_appointment_message (telegram 200) "Almeria"
      (<["dates" := VList ["a"; "b"; "c"; "d"; "e"; "x"; "y"] ]>
         (<["office" := VStr "Oficina"]> ∅)) [].
Proof.
  apply (dates_behind_fifth_only_counted (telegram 200) "Almeria"
           (<["office" := VStr "Oficina"]> ∅)
           ["a"; "b"; "c"; "d"; "e"; "f"; "g"] ["a"; "b"; "c"; "d"; "e"; "x"; "y"] []).
  - reflexivity.
  - reflexivity.
Defined.

(** X12.  The message for a result of the HTTP pipeline is the head with
    the province and the time, the user details, the line that asks for a
    manual booking and the link: such a result holds neither dates, nor an
    office, nor a booking attempt. *)
Theorem http_result_message
    (E : Telegram.env) (province timestamp url : string) (soup : Requests.html)
    (notified : string) (t : list Telegram.event) :
  Telegram.format_appointment_message E notified
    (Requests.appointment_record province timestamp url soup) t
  = (Ret (plain_message notified (Telegram.strftime E t)), t).
Proof.
  destruct (appointment_record_keys province timestamp url soup)
    as (_ & _ & _ & _ & _ & Hdates & Hoffice & Hbooking).
  cbv zeta in Hdates, Hoffice, Hbooking.
  unfold Telegram.format_appointment_message, try_except, bind, Telegram.clock.
  rewrite Hdates, Hoffice, Hbooking.
  cbn [ret]. unfold plain_message, message_head, booking_line.
  by rewrite !append_assoc.
Qed.

(** X13.  Unless the dates of a result are the boolean [True], which
    cannot be sliced, its message is the head with the province and the
    time, a body, and then, last before the link, the line on the booking:
    that a booking was attempted when [booking_attempted] is there and
    true, that a manual booking is required otherwise. *)
Theorem booking_line_closes_message
    (E : Telegram.env) (province : string) (info : dict)
    (t : list Telegram.event) :
  info !! "dates" <> Some (VBool true) ->
  exists body,
    Telegram.format_appointment_message E province info t
    = (Ret (message_head province (Telegram.strftime E t) +:+ body +:+
            booking_line (match info !! "booking_attempted" with
                          | Some attempted => truthy attempted
                          | None => false
                          end) +:+
            Telegram.visit_line), t).
Proof.
  intros Hdates.
  exists (details_part E info +:+ Telegram.user_details).
  unfold Telegram.format_appointment_message, try_except, bind, Telegram.clock.
  unfold details_part, message_head, booking_line, dates_block.
  assert (forall message, message +:+ EmptyString = message) as Hnil.
  { induction message as [| c message IH]; [done |].
    change (String c (message +:+ EmptyString) = String c message). by rewrite IH. }
  destruct (info !! "dates") as [[[| c s] | [] | [| date dates] |] |];
    try done; cbn [truthy str_truthy Telegram.date_items ret];
    destruct (info !! "office") as [office |];
    try destruct (truthy office);
    destruct (info !! "booking_attempted") as [attempted |];
    try destruct (truthy attempted);
    try destruct (5 <? length _)%nat;
    rewrite ?(add_date_lines_prefix _ (_ +:+ _)), ?Hnil, !append_assoc, ?Hnil;
    reflexivity.
Qed.

Lemma booking_line_closes_message_witness :
  exists body,
    Telegram.format_appointment_message (telegram 200) "Almeria"
      (<["booking_attempted" := VBool true]>
         (<["dates" := VList ["2024-05-01"] ]> ∅)) []
    = (Ret (message_head "Almeria" "2024-05-01 10:00:00" +:+ body +:+
            booking_line true +:+ Telegram.visit_line), []).
Proof.
  destruct (booking_line_closes_message (telegram 200) "Almeria"
              (<["booking_attempted" := VBool true]>
                 (<["dates" := VList ["2024-05-01"] ]> ∅)) [])
    as [body Hbody].
  - by vm_compute.
  - exists body. exact Hbody.
Defined.

(** X14.  When the dates of a result are the boolean [True], formatting
    falls back on the short message with the province and the time, and the
    notification that is sent carries this message. *)
Theorem unsliceable_dates_fall_back
    (E : Telegram.env) (self : Telegram.notifier) (province : string)
    (info : dict) (t : list Telegram.event) :
  info !! "dates" = Some (VBool true) ->
  Telegram.format_appointment_message E province info t
  = (Ret (fallback_message province (Telegram.strftime E t)), t) /\
  (Telegram.send_appointment_notification E self province info t).2
  = t ++ [Telegram.Post (Telegram.api_url self +:+ "/sendMessage")
            (payload_of self (fallback_message province (Telegram.strftime E t)))].
Proof.
  intros Hdates.
  assert (Telegram.format_appointment_message E province info t
          = (Ret (fallback_message province (Telegram.strftime E t)), t)) as Hformat.
  { unfold Telegram.format_appointment_message, try_except, bind, Telegram.clock.
    by rewrite Hdates. }
  split; [done |].
  unfold Telegram.send_appointment_notification, try_except, bind.
  by rewrite Hformat, send_message_eq.
Qed.

Lemma unsliceable_dates_fall_back_witness :
  Telegram.format_appointment_message (telegram 200) "Almeria"
    (<["dates" := VBool true]> ∅) []
  = (Ret (fallback_message "Almeria" "2024-05-01 10:00:00"), []) /\
  (Telegram.send_appointment_notification (telegram 200) sample_notifier "Almeria"
     (<["dates" := VBool true]> ∅) []).2
  = [] ++ [Telegram.Post (Telegram.api_url sample_notifier +:+ "/sendMessage")
             (payload_of sample_notifier
                (fallback_message "Almeria" "2024-05-01 10:00:00"))].
Proof.
  apply (unsliceable_dates_fall_back (telegram 200) sample_notifier "Almeria"
           (<["dates" := VBool true]> ∅) []).
  by vm_compute.
Defined.

(** ** The steps of the browser pipeline *)


Section StepRuns.
Import Playwright.
Context (E : env).

(** One guarded operation of a step: when it raises, the step answers
    [False] at once; otherwise the rest of the step runs. *)
Lemma guarded_act o (m : M bot bool) b :
  (forall t, op_raises E o t
             = match action E t with Some _ => true | None => false end) ->
  try_except (act E o ;; m) (fun _ => ret false) b
  = if op_raises E o (trace (emit o b).2)
    then (Ret false, (emit o b).2)
    else try_except m (fun _ => ret false) (emit o b).2.
Proof.
  intros ->.
  cbv beta iota zeta delta [try_except bind act emit ret snd trace].
  by destruct (action E _).
Qed.

Lemma guarded_wait selector timeout (m : M bot bool) b :
  try_except (ask E element (WaitForSelector selector timeout) ;; m)
    (fun _ => ret false) b
  = if op_raises E (WaitForSelector selector timeout)
         (trace (emit (WaitForSelector selector timeout) b).2)
    then (Ret false, (emit (WaitForSelector selector timeout) b).2)
    else try_except m (fun _ => ret false)
           (emit (WaitForSelector selector timeout) b).2.
Proof.
  cbv beta iota zeta delta [try_except bind ask emit ret snd trace op_raises].
  by destruct (element E _).
Qed.

Lemma guarded_end b :
  try_except (ret true) (fun _ => ret false) b = (Ret true, b) :> outcome bool * bot.
Proof. reflexivity. Qed.

Lemma select_province_perform province b :
  select_province E province b = perform E (select_province_ops province) b.
Proof.
  unfold select_province.
  by repeat first [rewrite guarded_wait | rewrite guarded_act by reflexivity | rewrite guarded_end].
Qed.

Lemma select_service_type_perform b :
  select_service_type E b = perform E select_service_type_ops b.
Proof.
  unfold select_service_type.
  by repeat first [rewrite guarded_wait | rewrite guarded_act by reflexivity | rewrite guarded_end].
Qed.

Lemma proceed_to_entry_form_perform b :
  proceed_to_entry_form E b = perform E proceed_to_entry_form_ops b.
Proof.
  unfold proceed_to_entry_form.
  by repeat first [rewrite guarded_wait | rewrite guarded_act by reflexivity | rewrite guarded_end].
Qed.

Lemma fill_user_data_perform b :
  fill_user_data E b = perform E fill_user_data_ops b.
Proof.
  unfold fill_user_data.
  by repeat first [rewrite guarded_wait | rewrite guarded_act by reflexivity | rewrite guarded_end].
Qed.

(** What performing operations does: a prefix of them is appended to the
    trace, the whole of them when the answer is [True], and nothing else
    changes; the answer is [False] when the last operation performed
    raised, and no operation performed before the last raised. *)
Lemma perform_prefix ops : forall b,
  exists done_ops ok,
    perform E ops b = (Ret ok, performed b done_ops) /\
    done_ops `prefix_of` ops /\
    (ok = true -> done_ops = ops) /\
    (ok = false -> exists o, last done_ops = Some o /\
                             op_raises E o (trace b ++ done_ops) = true) /\
    (forall pre o,
       pre ++ [o] `prefix_of` done_ops ->
       ok = true \/ pre ++ [o] <> done_ops ->
       op_raises E o (trace b ++ pre ++ [o]) = false).
Proof.
  induction ops as [| o rest IH]; intros b.
  - exists [], true. destruct b as [t br ctx pg details].
    unfold performed.
    cbn [perform ret trace browser context page appointment_details].
    rewrite List.app_nil_r. repeat split; try done.
    intros pre o' Hprefix%prefix_nil_inv. by destruct pre.
  - cbn [perform]. cbv beta zeta. cbn [emit snd].
    destruct (op_raises E o _) eqn:Hraises.
    + exists [o], false. unfold performed.
      cbn [trace browser context page appointment_details] in *.
      split; [done |]. split; [by exists rest |].
      split; [done |]. split; [intros _; by exists o |].
      intros pre o' [k Hk] [Hok | Hne]; [done |].
      destruct pre as [| o'' [| ? ?]]; cbn in Hk; [| done..].
      injection Hk as -> _. by destruct Hne.
    + destruct (IH {| trace := trace b ++ [o]; browser := browser b;
                      context := context b; page := page b;
                      appointment_details := appointment_details b |})
        as (done_ops & ok & -> & Hprefix & Hok & Hlast & Hbefore).
      unfold performed in *.
      cbn [trace browser context page appointment_details] in *.
      exists (o :: done_ops), ok. rewrite <- app_assoc. cbn [app].
      split; [done |]. split; [by apply prefix_cons |].
      split; [| split].
      * intros Htrue. by rewrite (Hok Htrue).
      * intros Hfalse. destruct (Hlast Hfalse) as (o' & Ho' & Hraised).
        exists o'. split; [| by rewrite <- app_assoc in Hraised].
        destruct done_ops; [done |]. by rewrite last_cons, Ho'.
      * intros pre o' Hpre Hcase.
        destruct pre as [| o'' pre].
        -- destruct Hpre as [k Hk]. injection Hk as <- _. exact Hraises.
        -- destruct Hpre as [k Hk]. injection Hk as -> Hk.
           specialize (Hbefore pre o').
           rewrite <- app_assoc in Hbefore. apply Hbefore.
           ++ by exists k.
           ++ destruct Hcase as [Htrue | Hne]; [by left | right].
              intros Heq. apply Hne. cbn. by rewrite Heq.
Qed.

End StepRuns.

(** X15.  Each of the four steps of a check performs its operations in
    their order up to the first one that raises.  It never raises itself
    and touches nothing but the trace.  It answers [True] after all of its
    operations, none of which raised, and [False] right after the
    operation that raised. *)
Theorem step_stops_at_first_failure
    (E : Playwright.env) (province : string)
    (step : M Playwright.bot bool) (ops : list Playwright.op)
    (b : Playwright.bot) :
  (step, ops) ∈ pipeline_steps E province ->
  exists done_ops ok,
    step b = (Ret ok, performed b done_ops) /\
    done_ops `prefix_of` ops /\
    (ok = true -> done_ops = ops) /\
    (ok = false -> exists o, last done_ops = Some o /\
                             op_raises E o (Playwright.trace b ++ done_ops) = true) /\
    (forall pre o,
       pre ++ [o] `prefix_of` done_ops ->
       ok = true \/ pre ++ [o] <> done_ops ->
       op_raises E o (Playwright.trace b ++ pre ++ [o]) = false).
Proof.
  unfold pipeline_steps. intros Hstep.
  repeat (apply elem_of_cons in Hstep as [[= -> ->] | Hstep]).
  - rewrite select_province_perform. apply perform_prefix.
  - rewrite select_service_type_perform. apply perform_prefix.
  - rewrite proceed_to_entry_form_perform. apply perform_prefix.
  - rewrite fill_user_data_perform. apply perform_prefix.
  - by apply elem_of_nil in Hstep.
Qed.

(** The province of the sample is redirected away from the info page: the
    second step performs its seven operations and answers [False]. *)
Lemma step_stops_at_first_failure_witness :
  exists done_ops ok,
    Playwright.select_service_type
      (sample_browser "Seleccione una fecha" [EmptyString] [] true) fresh_browser
    = (Ret ok, performed fresh_browser done_ops) /\
    done_ops `prefix_of` select_service_type_ops /\
    (ok = true -> done_ops = select_service_type_ops) /\
    (ok = false ->
     exists o, last done_ops = Some o /\
               op_raises (sample_browser "Seleccione una fecha" [EmptyString] [] true)
                 o (Playwright.trace fresh_browser ++ done_ops) = true) /\
    (forall pre o,
       pre ++ [o] `prefix_of` done_ops ->
       ok = true \/ pre ++ [o] <> done_ops ->
       op_raises (sample_browser "Seleccione una fecha" [EmptyString] [] true)
         o (Playwright.trace fresh_browser ++ pre ++ [o]) = false).
Proof.
  apply (step_stops_at_first_failure
           (sample_browser "Seleccione una fecha" [EmptyString] [] true)
           "Cadiz" _ select_service_type_ops fresh_browser).
  unfold pipeline_steps. apply list_elem_of_further, list_elem_of_here.
Defined.

(** ** The life of the page *)

Section PageWork.
Import Playwright.
Context (E : env) {P : PyStr}.

Lemma page_work_ret {A} (a : A) : page_work (ret a : M bot A).
Proof. intros b. exists []. by rewrite List.app_nil_r. Qed.

Lemma page_work_raise {A} e : page_work (raise e : M bot A).
Proof. intros b. exists []. by rewrite List.app_nil_r. Qed.

Lemma page_work_get {A} (f : bot -> A) : page_work (get f).
Proof. intros b. exists []. by rewrite List.app_nil_r. Qed.

Lemma page_work_update f : page_work (update_details f).
Proof. intros b. exists []. cbn. by rewrite List.app_nil_r. Qed.

Lemma page_work_clock : page_work (clock E).
Proof. apply page_work_get. Qed.

Lemma page_work_act o : lifecycle o = false -> page_work (act E o).
Proof.
  intros Ho b. exists [o]. split; [by constructor |].
  cbv beta iota zeta delta [act bind emit].
  cbn [trace browser context page].
  by destruct (action E _).
Qed.

Lemma page_work_ask {A} (oracle : env -> list op -> exn + A) o :
  lifecycle o = false -> page_work (ask E oracle o).
Proof.
  intros Ho b. exists [o]. split; [by constructor |].
  cbv beta iota zeta delta [ask bind emit].
  cbn [trace browser context page].
  by destruct (oracle E _).
Qed.

Lemma page_work_bind {A B} (m : M bot A) (k : A -> M bot B) :
  page_work m -> (forall a, page_work (k a)) -> page_work (m' <- m ;; k m').
Proof.
  intros Hm Hk b. unfold bind.
  destruct (Hm b) as (ops & Hops & Htrace & Hbrowser & Hcontext & Hpage).
  destruct (m b) as [[a | e] b1]; cbn [snd] in *.
  - destruct (Hk a b1) as (ops' & Hops' & Htrace' & Hbrowser' & Hcontext' & Hpage').
    exists (ops ++ ops'). split; [by apply Forall_app |].
    rewrite Htrace', Htrace, Hbrowser', Hcontext', Hpage'.
    by rewrite app_assoc.
  - by exists ops.
Qed.

Lemma page_work_try {A} (m : M bot A) (h : exn -> M bot A) :
  page_work m -> (forall e, page_work (h e)) -> page_work (try_except m h).
Proof.
  intros Hm Hh b. unfold try_except.
  destruct (Hm b) as (ops & Hops & Htrace & Hbrowser & Hcontext & Hpage).
  destruct (m b) as [[a | e] b1]; cbn [snd] in *.
  - by exists ops.
  - destruct (Hh e b1) as (ops' & Hops' & Htrace' & Hbrowser' & Hcontext' & Hpage').
    exists (ops ++ ops'). split; [by apply Forall_app |].
    rewrite Htrace', Htrace, Hbrowser', Hcontext', Hpage'.
    by rewrite app_assoc.
Qed.

End PageWork.

(** Work on the page, shown piece by piece. *)
Create HintDb page_work.

Ltac page_work :=
  repeat first
    [ assumption
    | solve [auto 1 with page_work nocore]
    | apply page_work_act; reflexivity
    | apply page_work_ask; reflexivity
    | apply page_work_clock
    | apply page_work_update
    | apply page_work_get
    | apply page_work_ret
    | apply page_work_raise
    | apply page_work_try
    | apply page_work_bind
    | match goal with
      | |- forall _ : _, page_work _ => intro
      | |- page_work (if ?c then _ else _) => destruct c
      | |- page_work (match ?x with Some _ => _ | None => _ end) => destruct x
      | |- page_work (match ?x with Return _ => _ | Continue => _ end) => destruct x
      | |- page_work (match ?x with (_, _) => _ end) => destruct x
      end ].

Section PageLife.
Import Playwright.
Context (E : env) {P : PyStr}.

Lemma page_work_select_province province : page_work (select_province E province).
Proof. unfold select_province. page_work. Qed.

Lemma page_work_select_service_type : page_work (select_service_type E).
Proof. unfold select_service_type. page_work. Qed.

Lemma page_work_proceed_to_entry_form : page_work (proceed_to_entry_form E).
Proof. unfold proceed_to_entry_form. page_work. Qed.

Lemma page_work_fill_user_data : page_work (fill_user_data E).
Proof. unfold fill_user_data. page_work. Qed.

Lemma page_work_harvest_dates date_elements :
  page_work (harvest_dates E date_elements).
Proof.
  induction date_elements as [| element rest IH]; cbn [harvest_dates]; page_work.
Qed.
#[local] Hint Resolve page_work_harvest_dates : page_work.

Lemma page_work_extract : page_work (extract_appointment_details E).
Proof. unfold extract_appointment_details, read_dates, read_office. page_work. Qed.
#[local] Hint Resolve page_work_extract : page_work.

Lemma page_work_find_calendar selectors : page_work (find_calendar E selectors).
Proof.
  induction selectors as [| selector rest IH]; cbn [find_calendar]; page_work.
Qed.
#[local] Hint Resolve page_work_find_calendar : page_work.

Lemma page_work_availability : page_work (check_appointment_availability E).
Proof. unfold check_appointment_availability. page_work. Qed.
#[local] Hint Resolve page_work_availability : page_work.

Lemma page_work_booking : page_work (auto_select_appointment E).
Proof. unfold auto_select_appointment. page_work. Qed.
#[local] Hint Resolve page_work_booking : page_work.

Lemma page_work_run_steps l :
  Forall page_work l -> page_work (run_steps l).
Proof.
  induction 1 as [| step rest Hstep Hrest IH]; cbn [run_steps]; page_work.
Qed.

Lemma page_work_conclude province : page_work (conclude E province).
Proof. unfold conclude. page_work. Qed.

End PageLife.

Section CheckLife.
Import Playwright.
Context (E : env) {P : PyStr}.

(** Creating the page: the browser is launched when there is no context,
    and the page is asked for when there is one then. *)
Lemma create_new_page_spec b :
  let launch := if context b then [] else [InitBrowser] in
  let ready :=
    context b ||
    match init_browser E (trace b ++ [InitBrowser]) with
    | InitOk => true
    | _ => false
    end in
  exists r b0,
    create_new_page E b = (r, b0) /\
    page b0 = page b /\
    trace b0 = trace b ++ launch ++ (if ready then [NewPage] else []) /\
    (r = Ret tt <-> ready = true /\ action E (trace b ++ launch ++ [NewPage]) = None) /\
    (context b = true -> context b0 = true /\ browser b0 = browser b).
Proof.
  unfold create_new_page, initialize_browser.
  cbv beta iota zeta delta [bind get act emit ret raise set_browser].
  cbn [trace browser context page appointment_details].
  destruct (context b) eqn:Hcontext; cbn [negb orb app].
  - rewrite Hcontext. cbn [negb].
    destruct (action E (trace b ++ [NewPage])) as [e |] eqn:Hnew;
      eexists _, _; (split; [reflexivity |]); cbn; rewrite ?Hnew; intuition congruence.
  - destruct (init_browser E (trace b ++ [InitBrowser])) eqn:Hinit;
      cbn [trace browser context page appointment_details negb];
      rewrite ?Hcontext; cbn [negb].
    + rewrite <- app_assoc. cbn [app].
      destruct (action E (trace b ++ [InitBrowser; NewPage])) as [e |] eqn:Hnew;
        eexists _, _; (split; [reflexivity |]); cbn; intuition congruence.
    + eexists _, _. split; [reflexivity |]. cbn. intuition congruence.
    + eexists _, _. split; [reflexivity |]. cbn. intuition congruence.
Qed.

Lemma finish_state r b :
  (finish E r b).2 = if page b then performed b [ClosePage] else b.
Proof.
  unfold finish, close_page.
  cbv beta iota zeta delta [bind get act emit ret].
  destruct (page b); [| done].
  cbn [trace]. by destruct (action E _).
Qed.

(** The work of a check on its page. *)
Lemma page_work_check_body province :
  page_work (act E (Goto base_url) ;;
             ok <- run_steps (steps E province) ;;
             if ok then conclude E province else ret None).
Proof.
  pose proof (page_work_conclude E province).
  assert (page_work (run_steps (steps E province))).
  { apply page_work_run_steps. unfold steps.
    repeat constructor;
      [ apply page_work_select_province | apply page_work_select_service_type
      | apply page_work_proceed_to_entry_form | apply page_work_fill_user_data ]. }
  page_work.
Qed.

Lemma check_lifecycle province b :
  exists body,
    Forall (fun o => lifecycle o = false) body /\
    trace (check_province_appointments E province b).2
    = trace b ++ page_lifecycle E b body /\
    (context b = true ->
     context (check_province_appointments E province b).2 = true /\
     browser (check_province_appointments E province b).2 = browser b).
Proof.
  rewrite browser_check_eq. unfold open_page, page_lifecycle.
  destruct (create_new_page_spec (entered b))
    as (r & b0 & Hcreate & Hpage & Htrace & Hr & Hcontext).
  change (trace (entered b)) with (trace b) in *.
  change (context (entered b)) with (context b) in *.
  change (browser (entered b)) with (browser b) in *.
  change (page (entered b)) with false in Hpage.
  cbv beta iota zeta delta [bind]. rewrite Hcreate.
  destruct r as [[] | e].
  - destruct Hr as [Hr _]. destruct (Hr eq_refl) as [Hready Hnew].
    rewrite Hready in *. rewrite Hnew.
    change (set_page true b0) with (Ret tt, (set_page true b0).2).
    cbv beta iota.
    assert (trace (set_page true b0).2 = trace b0) as Htrace1 by done.
    assert (browser (set_page true b0).2 = browser b0) as Hbrowser1 by done.
    assert (context (set_page true b0).2 = context b0) as Hcontext1 by done.
    assert (page (set_page true b0).2 = true) as Hpage1 by done.
    generalize dependent (set_page true b0).2. intros b1 Htrace1 Hbrowser1 Hcontext1 Hpage1.
    destruct (page_work_check_body province b1)
      as (body & Hbody & Hwork & Hbrowser & Hcontext' & Hpage').
    exists body. split; [done |].
    assert (exists r',
      match act E (Goto base_url) b1 with
      | (Ret _, s') =>
          match run_steps (steps E province) s' with
          | (Ret true, b5) =>
              match conclude E province b5 with
              | (Ret r, b6) => finish E r b6
              | (Raise _, b6) => finish E None b6
              end
          | (Ret false, b') => finish E None b'
          | (Raise _, b') => finish E None b'
          end
      | (Raise e, s') => finish E None s'
      end
      = finish E r'
          ((act E (Goto base_url) ;;
            ok <- run_steps (steps E province) ;;
            if ok then conclude E province else ret None) b1).2) as [r' ->].
    { cbv beta iota zeta delta [bind].
      destruct (act E (Goto base_url) b1) as [[[] | e] s']; [| by eexists].
      destruct (run_steps (steps E province) s') as [[[] | e] b5]; [| by eexists..].
      destruct (conclude E province b5) as [[r' | e] b6]; by eexists. }
    rewrite finish_state, Hpage', Hpage1.
    unfold performed. cbn [trace browser context].
    rewrite Hwork, Hbrowser, Hcontext', Htrace1, Hbrowser1, Hcontext1, Htrace.
    split; [| done].
    by rewrite <- !app_assoc.
  - rewrite finish_state, Hpage, Htrace. exists []. split; [done |].
    split; [| done].
    destruct (context b || _) eqn:Hready; [| by rewrite List.app_nil_r].
    destruct (action E _) as [e' |] eqn:Hnew; [done |].
    destruct Hr as [_ Hr]. by discriminate Hr.
Qed.

End CheckLife.

Section CycleLife.
Import Playwright.
Context (E : env) {P : PyStr}.





End CycleLife.

(** X16.  The operations of the check of a province are those of the life
    of its page around its work on the page: the browser is launched first
    when the bot has no context; the page is then opened, unless the launch
    failed; and when the page was opened it is closed, last of all and
    whatever the work on it came to.  The work itself launches, opens and
    closes nothing. *)
Theorem check_closes_the_page_it_opened
    (E : Playwright.env) (P : PyStr) (province : string) (b : Playwright.bot) :
  exists body,
    Forall (fun o => lifecycle o = false) body /\
    Playwright.trace (Playwright.check_province_appointments E province b).2
    = Playwright.trace b ++ page_lifecycle E b body.
Proof.
  destruct (check_lifecycle E province b) as (body & Hbody & Htrace & _).
  by exists body.
Qed.



(** X18.  When the bot has no browser and none can be launched, the cycle
    ends after the attempt: it does not raise, checks no province and
    notifies nobody. *)
Theorem failed_launch_skips_the_cycle
    (E : Playwright.env) (P : PyStr) (provinces : list string)
    (b : Playwright.bot) :
  Playwright.browser b = false ->
  Playwright.init_browser E (Playwright.trace b ++ [Playwright.InitBrowser])
  <> Playwright.InitOk ->
  exists b',
    Playwright.run_single_check E provinces b = (Ret tt, b') /\
    Playwright.trace b' = Playwright.trace b ++ [Playwright.InitBrowser].
Proof.
  intros Hbrowser Hinit.
  unfold Playwright.run_single_check, Playwright.run_single_check_with,
    Playwright.initialize_browser.
  cbv beta iota zeta delta
    [try_except bind ret raise Playwright.get Playwright.emit Playwright.set_browser].
  rewrite Hbrowser. cbn [negb Playwright.trace].
  destruct (Playwright.init_browser E _); [done | by eexists..].
Qed.

Lemma failed_launch_skips_the_cycle_witness :
  exists b',
    Playwright.run_single_check (P := ascii_str) stalled_browser
      ["Almeria"; "Cadiz"; "Albacete"] fresh_browser
    = (Ret tt, b') /\
    Playwright.trace b' = [Playwright.InitBrowser].
Proof.
  apply (failed_launch_skips_the_cycle stalled_browser ascii_str
           ["Almeria"; "Cadiz"; "Albacete"] fresh_browser); [reflexivity | discriminate].
Defined.

(** ** The availability classifier and the booking *)

Section ClassifierRuns.
Import Playwright.
Context (E : env) {P : PyStr}.

Lemma probe_finds_later t selector rest k :
  probe_finds E t (selector :: rest) (S k)
  <-> probe_finds E (t ++ [WaitForSelector selector 5000]) rest k.
Proof.
  unfold probe_finds, probes. cbn [fmap list_fmap take firstn].
  by rewrite <- app_assoc.
Qed.

Lemma probe_finds_first t selector rest :
  probe_finds E t (selector :: rest) 0
  <-> exists found, element E (t ++ [WaitForSelector selector 5000]) = inr (Some found).
Proof.
  unfold probe_finds, probes. cbn [fmap list_fmap take firstn].
  by rewrite take_0.
Qed.

Lemma first_found_later t selector rest k :
  ~ probe_finds E t (selector :: rest) 0 ->
  first_found E t (selector :: rest) (S k)
  <-> first_found E (t ++ [WaitForSelector selector 5000]) rest k.
Proof.
  intros Hfirst. unfold first_found. cbn [length].
  rewrite probe_finds_later. split.
  - intros (Hk & Hfinds & Hbefore). split; [lia |]. split; [done |].
    intros j Hj Hj'. apply (Hbefore (S j)); [lia |]. by apply probe_finds_later.
  - intros (Hk & Hfinds & Hbefore). split; [lia |]. split; [done |].
    intros [| j] Hj Hj'; [done |].
    apply (Hbefore j); [lia |]. by apply probe_finds_later.
Qed.

(** The loop over the selectors reports availability exactly when one of
    the probes finds an element. *)
Lemma find_calendar_first selectors : forall b,
  exists availability b',
    find_calendar E selectors b = (Ret availability, b') /\
    (availability.1 = true <-> exists k, first_found E (trace b) selectors k) /\
    (availability.1 = true -> is_Some availability.2) /\
    (availability.1 = false -> availability.2 = None).
Proof.
  induction selectors as [| selector rest IH]; intros b.
  - exists (false, None), b. split; [done |]. split; [| done].
    split; [done |]. intros (k & Hk & _). cbn in Hk. lia.
  - cbn [find_calendar].
    cbv beta iota zeta delta [bind try_except ask emit ret].
    cbn [trace].
    destruct (element E (trace b ++ [WaitForSelector selector 5000]))
      as [e | [found |]] eqn:Hprobe.
    + match goal with
      | |- context [find_calendar E rest ?s] =>
          destruct (IH s) as (availability & b' & -> & Hiff & Hsome & Hnone)
      end.
      cbn [trace] in Hiff.
      exists availability, b'. split; [done |]. split; [| done].
      rewrite Hiff.
      assert (~ probe_finds E (trace b) (selector :: rest) 0) as Hfirst.
      { intros [found Hfound]%probe_finds_first. congruence. }
      split.
      * intros [k Hk]. exists (S k). by apply first_found_later.
      * intros [[| k] Hk]; [by destruct Hk as (_ & ? & _) |].
        exists k. by apply first_found_later.
    + match goal with
      | |- context [extract_appointment_details E ?s] =>
          destruct (extract_appointment_details_spec E s) as (d & b' & -> & _)
      end.
      exists (true, Some d), b'. split; [done |]. split; [| done].
      split; [| done]. intros _. exists 0%nat.
      split; [cbn; lia |]. split; [| lia].
      apply probe_finds_first. by exists found.
    + match goal with
      | |- context [find_calendar E rest ?s] =>
          destruct (IH s) as (availability & b' & -> & Hiff & Hsome & Hnone)
      end.
      cbn [trace] in Hiff.
      exists availability, b'. split; [done |]. split; [| done].
      rewrite Hiff.
      assert (~ probe_finds E (trace b) (selector :: rest) 0) as Hfirst.
      { intros [found Hfound]%probe_finds_first. congruence. }
      split.
      * intros [k Hk]. exists (S k). by apply first_found_later.
      * intros [[| k] Hk]; [by destruct Hk as (_ & ? & _) |].
        exists k. by apply first_found_later.
Qed.

End ClassifierRuns.

(** X19.  The classifier never raises, and it reports availability, with
    the extracted record, exactly when the page settles, its content is
    read and holds none of the negative phrases, and one of the four
    calendar selectors, waited for in their order, finds an element.  A
    page that does not settle or cannot be read counts as a page without
    appointments. *)
Theorem availability_needs_a_calendar
    (E : Playwright.env) (P : PyStr) (b : Playwright.bot) :
  exists availability b',
    Playwright.check_appointment_availability E b = (Ret availability, b') /\
    (availability.1 = true <->
     exists content k,
       page_read E b content /\
       Playwright.says_no_appointments content = false /\
       first_found E
         (Playwright.trace b
          ++ [Playwright.WaitForLoadState 15000; Playwright.Content])
         Playwright.calendar_selectors k) /\
    (availability.1 = true -> is_Some availability.2) /\
    (availability.1 = false -> availability.2 = None).
Proof.
  unfold Playwright.check_appointment_availability, page_read.
  cbv beta iota zeta delta
    [try_except bind Playwright.act Playwright.ask Playwright.emit ret].
  cbn [Playwright.trace].
  destruct (Playwright.action E _) as [e |] eqn:Hload.
  { exists (false, None). eexists. split; [done |]. split; [| done].
    split; [done |]. by intros (content & k & [? _] & _). }
  cbn [Playwright.trace Playwright.browser Playwright.context Playwright.page
       Playwright.appointment_details].
  rewrite <- app_assoc. cbn [app].
  destruct (Playwright.page_content E _) as [e | content] eqn:Hcontent.
  { exists (false, None). eexists. split; [done |]. split; [| done].
    split; [done |]. intros (content & k & [_ ?] & _). congruence. }
  destruct (Playwright.says_no_appointments content) eqn:Hsays.
  { exists (false, None). eexists. split; [done |]. split; [| done].
    split; [done |]. intros (content' & k & [_ ?] & ? & _). congruence. }
  match goal with
  | |- context [Playwright.find_calendar E _ ?s] =>
      destruct (find_calendar_first E Playwright.calendar_selectors s)
        as (availability & b' & -> & Hiff & Hsome & Hnone)
  end.
  cbn [Playwright.trace] in Hiff.
  exists availability, b'. split; [done |]. split; [| done].
  rewrite Hiff. split.
  - intros [k Hk]. by exists content, k.
  - intros (content' & k & _ & _ & Hk). by exists k.
Qed.

Section BookingRuns.
Import Playwright.
Context (E : env).

Lemma booking_outcome b b' :
  auto_select_appointment E b = (Ret true, b') <->
  exists first continue submit,
    booking_goes_through E (trace b) first continue submit /\
    b' = performed b (booking_ops first continue submit).
Proof.
  unfold auto_select_appointment, booking_goes_through, performed, booking_ops.
  cbv beta iota zeta delta
    [try_except bind ask act emit ret trace browser context page
     appointment_details user_data email phone].
  cbn [take firstn].
  repeat match goal with
  | |- context [match element E ?t with _ => _ end] =>
      destruct (element E t) as [? | [? |]] eqn:?; cbn [trace]
  | |- context [match action E ?t with _ => _ end] =>
      destruct (action E t) as [? |] eqn:?; cbn [trace]
  end;
  repeat match goal with
  | H : _ = _ |- _ => rewrite <- !app_assoc in H; cbn [app] in H
  end;
  (split;
   [ intros [= <-]
   | intros (first & continue & submit &
             (H1 & H2 & H3 & H4 & H5 & H6 & H7 & H8 & H9) & ->) ]);
  try congruence.
  - eexists _, _, _. split; [by repeat split |].
    f_equal. by rewrite <- !app_assoc.
  - assert (first = h) as -> by congruence.
    rewrite H3 in *. assert (continue = h0) as -> by congruence.
    rewrite H8 in *. assert (submit = h1) as -> by congruence.
    do 2 f_equal. by rewrite <- !app_assoc.
Qed.

End BookingRuns.

(** X20.  A booking is reported exactly when the whole of it went through:
    the first date input was found and checked, the continue button found
    and clicked, the page settled, the email and the phone of the user were
    filled in, and the submit button was found and clicked, nothing having
    raised.  These nine operations are then all that the booking did. *)
Theorem booking_reported_when_submitted
    (E : Playwright.env) (b b' : Playwright.bot) :
  Playwright.auto_select_appointment E b = (Ret true, b') <->
  exists first continue submit,
    booking_goes_through E (Playwright.trace b) first continue submit /\
    b' = performed b (booking_ops first continue submit).
Proof. apply booking_outcome. Qed.

(** ** The failure counter of the HTTP pipeline *)

Section CounterRuns.
Import Requests.
Context (E : env) {P : PyStr}.

Lemma notified_app t1 t2 : notified (t1 ++ t2) = notified t1 ++ notified t2.
Proof. unfold notified. by rewrite omap_app. Qed.

Lemma notified_schedule method url data n : notified (schedule method url data n) = [].
Proof.
  unfold schedule. induction (seqZ 1 n) as [| k l IH]; [done |].
  cbn [flat_map]. rewrite notified_app, IH.
  unfold attempt_events. by destruct (k =? 1).
Qed.

(** The loop over the provinces returns the results that it notified. *)
Lemma check_provinces_found provinces : forall found b,
  exists evs,
    check_provinces (check_province_appointments E) provinces found b
    = (Ret (found ++ notified evs), after b evs).
Proof.
  induction provinces as [| province rest IH]; intros found b.
  - exists []. cbn. unfold after. rewrite !List.app_nil_r. by destruct b.
  - cbn [check_provinces].
    cbv beta iota zeta delta [bind try_except ret].
    destruct (http_check_schedule P E province b)
      as (gets & posts & target & form_data & _ & _ & Hstate).
    assert (notified (schedule "GET" base_url None gets
                      ++ schedule "POST" target (Some form_data) posts) = [])
      as Hquiet by (by rewrite notified_app, !notified_schedule).
    revert Hstate Hquiet.
    generalize (schedule "GET" base_url None gets
                ++ schedule "POST" target (Some form_data) posts).
    intros evs0 Hstate Hquiet.
    destruct (check_province_appointments E province b) as [[[info |] | e] b1];
      cbn [snd] in Hstate; subst b1.
    + destruct (dict_truthy info).
      * cbv beta iota zeta delta [notify sleep emit].
        destruct (IH (found ++ [info])
                    (after (after (after b evs0) [Notify province info]) [Sleep 2]))
          as [evs Hrest].
        exists (evs0 ++ [Notify province info] ++ [Sleep 2] ++ evs).
        unfold after in *. cbn [trace consecutive_failures] in *.
        rewrite Hrest, !notified_app, Hquiet. cbn.
        by rewrite <- !app_assoc.
      * cbv beta iota zeta delta [sleep emit].
        destruct (IH found (after (after b evs0) [Sleep 2])) as [evs Hrest].
        exists (evs0 ++ [Sleep 2] ++ evs).
        unfold after in *. cbn [trace consecutive_failures] in *.
        rewrite Hrest, !notified_app, Hquiet. cbn.
        by rewrite <- !app_assoc.
    + cbv beta iota zeta delta [sleep emit].
      destruct (IH found (after (after b evs0) [Sleep 2])) as [evs Hrest].
      exists (evs0 ++ [Sleep 2] ++ evs).
      unfold after in *. cbn [trace consecutive_failures] in *.
      rewrite Hrest, !notified_app, Hquiet. cbn.
      by rewrite <- !app_assoc.
    + cbv beta iota zeta delta [sleep emit].
      destruct (IH found (after (after b evs0) [Sleep 2])) as [evs Hrest].
      exists (evs0 ++ [Sleep 2] ++ evs).
      unfold after in *. cbn [trace consecutive_failures] in *.
      rewrite Hrest, !notified_app, Hquiet. cbn.
      by rewrite <- !app_assoc.
Qed.

End CounterRuns.

(** X21.  After a cycle, [self.consecutive_failures] is 0 when the cycle
    notified a result.  When it notified none, the counter is what the
    first handler of the logger makes it: it is left alone when the logger
    has no handler, the look-up raising inside the cycle; it is 0 when the
    handler has no buffer, however the checks of the cycle failed; and with
    a buffer it is one more than before when the text of the buffer holds
    the phrase on the initial page, and 0 otherwise. *)
Theorem failure_counter_follows_the_log
    (P : PyStr) (E : Requests.env) (provinces : list string) (b : Requests.bot) :
  let ended := rounds (Requests.check_province_appointments E) provinces b in
  let found :=
    notified (drop (length (Requests.trace b)) (Requests.trace ended)) in
  Requests.consecutive_failures (Requests.run_single_check E provinces b).2
  = match found with
    | _ :: _ => 0
    | [] =>
        match Requests.logger_handlers E (Requests.trace ended) with
        | Requests.NoHandlers => Requests.consecutive_failures b
        | Requests.HandlerWithoutBuffer => 0
        | Requests.HandlerBuffer shown =>
            if contains shown "Failed to access initial page"
            then Requests.consecutive_failures b + 1
            else 0
        end
    end.
Proof.
  cbv zeta.
  destruct (check_provinces_found E provinces [] b) as [evs Hrun].
  destruct (http_check_provinces_rounds
              (Requests.check_province_appointments E) provinces [] b)
    as [found' Hrounds].
  rewrite Hrun in Hrounds. injection Hrounds as _ <-.
  unfold Requests.run_single_check, Requests.run_single_check_with.
  cbv beta iota zeta delta [try_except bind]. rewrite Hrun.
  cbn [after Requests.trace app]. rewrite drop_app_length.
  unfold Requests.track_failures.
  destruct (notified evs) as [| info found]; cbn [Requests.nonempty]; [| done].
  cbn [Requests.trace].
  destruct (Requests.logger_handlers E _) as [| | shown]; [done | |].
  - by replace (contains "[]" "Failed to access initial page") with false
      by (vm_compute; reflexivity).
  - by destruct (contains shown _).
Qed.
